(** * CGMiner-RS monitoring script: a shallow embedding of
      [examples/scripts/monitor.py] and the properties of its health
      evaluation, alert detection, history retention and monitoring loop.

    The script works on parsed JSON (Python [dict], [list], [str], [int],
    [float], [bool], [None]), reads the wall clock, talks to an HTTP API
    and sleeps.  Values are modelled as a [json] tree with binary64 floats,
    fallible operations return a [result], and the effects run in a small
    reader/state/exception monad [M] over an environment of oracles (clock
    readings, HTTP replies, interrupted sleeps). *)

From Stdlib Require Import ZArith List Bool String Lia Sorted.
From Stdlib Require Import Uint63 PrimFloat FloatOps SpecFloat.
Import ListNotations.
Open Scope string_scope.
Open Scope list_scope.
Open Scope Z_scope.

Set Warnings "-register-all".

(** ** Python values *)

(** What [response.json()] can return.  A [dict] is kept as its list of
    bindings in insertion order ([json.loads] never yields a repeated
    key; lookup takes the first binding). *)
Inductive json : Type :=
| JNull
| JBool (b : bool)
| JInt (z : Z)
| JFloat (f : float)
| JStr (s : string)
| JList (l : list json)
| JDict (d : list (string * json)).

(** The exceptions the script can meet.  All but [KeyboardInterrupt] are
    subclasses of [Exception]. *)
Inductive exn : Type :=
| TypeError
| AttributeError
| ValueError
| OverflowError
| OSError
| KeyboardInterrupt.

Definition is_Exception (e : exn) : bool :=
  match e with
  | KeyboardInterrupt => false
  | _ => true
  end.

Inductive result (A : Type) : Type :=
| Ok (a : A)
| Raise (e : exn).

Arguments Ok {A} a.
Arguments Raise {A} e.

Definition result_bind {A B} (r : result A) (k : A -> result B) : result B :=
  match r with
  | Ok a => k a
  | Raise e => Raise e
  end.

Definition result_map {A B} (f : A -> B) (r : result A) : result B :=
  match r with
  | Ok a => Ok (f a)
  | Raise e => Raise e
  end.

(** Python truthiness ([if v:], [not v], [a and b], [a or b]). *)
Definition py_truthy (v : json) : bool :=
  match v with
  | JNull => false
  | JBool b => b
  | JInt z => negb (z =? 0)
  | JFloat f => negb (PrimFloat.eqb f 0%float)
  | JStr s => negb (String.eqb s "")
  | JList l => match l with [] => false | _ :: _ => true end
  | JDict d => match d with [] => false | _ :: _ => true end
  end.

(** [a or b] on values. *)
Definition py_or (a b : json) : json := if py_truthy a then a else b.

Fixpoint dict_get (d : list (string * json)) (key : string) (default : json)
  : json :=
  match d with
  | [] => default
  | (k, v) :: rest => if String.eqb k key then v else dict_get rest key default
  end.

Fixpoint dict_mem (d : list (string * json)) (key : string) : bool :=
  match d with
  | [] => false
  | (k, _) :: rest => String.eqb k key || dict_mem rest key
  end.

(** [v.get(key, default)]: only a [dict] has the method. *)
Definition py_get (v : json) (key : string) (default : json) : result json :=
  match v with
  | JDict d => Ok (dict_get d key default)
  | _ => Raise AttributeError
  end.

(** [v == 'text'] for a string literal: true for that very string only. *)
Definition py_eq_str (v : json) (text : string) : bool :=
  match v with
  | JStr s => String.eqb s text
  | _ => false
  end.

Fixpoint chars_of (s : string) : list json :=
  match s with
  | EmptyString => []
  | String c rest => JStr (String c EmptyString) :: chars_of rest
  end.

(** [for x in v]: a list yields its items, a dict its keys, a string its
    characters; nothing else is iterable. *)
Definition py_iter (v : json) : result (list json) :=
  match v with
  | JList l => Ok l
  | JDict d => Ok (map (fun kv => JStr (fst kv)) d)
  | JStr s => Ok (chars_of s)
  | _ => Raise TypeError
  end.

(** [len(v)]. *)
Definition py_len (v : json) : result Z :=
  match v with
  | JList l => Ok (Z.of_nat (List.length l))
  | JDict d => Ok (Z.of_nat (List.length d))
  | JStr s => Ok (Z.of_nat (String.length s))
  | _ => Raise TypeError
  end.

(** ** Numbers and comparisons *)

Inductive num : Type :=
| NInt (z : Z)
| NFloat (f : float).

(** [bool] is a subclass of [int]. *)
Definition as_num (v : json) : option num :=
  match v with
  | JBool b => Some (NInt (if b then 1 else 0))
  | JInt z => Some (NInt z)
  | JFloat f => Some (NFloat f)
  | _ => None
  end.

(** Python compares an [int] with a [float] exactly, without rounding the
    integer: the float is split into mantissa and exponent. *)
Definition int_lt_float (z : Z) (f : float) : bool :=
  match Prim2SF f with
  | S754_nan => false
  | S754_infinity negative => negb negative
  | S754_zero _ => z <? 0
  | S754_finite negative m e =>
      let v := if negative then Z.neg m else Z.pos m in
      if 0 <=? e then z <? v * 2 ^ e else z * 2 ^ (- e) <? v
  end.

Definition float_lt_int (f : float) (z : Z) : bool :=
  match Prim2SF f with
  | S754_nan => false
  | S754_infinity negative => negative
  | S754_zero _ => 0 <? z
  | S754_finite negative m e =>
      let v := if negative then Z.neg m else Z.pos m in
      if 0 <=? e then v * 2 ^ e <? z else v <? z * 2 ^ (- e)
  end.

Definition num_lt (a b : num) : bool :=
  match a, b with
  | NInt x, NInt y => x <? y
  | NFloat x, NFloat y => PrimFloat.ltb x y
  | NInt x, NFloat y => int_lt_float x y
  | NFloat x, NInt y => float_lt_int x y
  end.

(** [v < c] and [v > c] against a numeric literal [c]: any operand that is
    not a number ([None], a string, a list, a dict) raises [TypeError]. *)
Definition py_lt (v : json) (c : num) : result bool :=
  match as_num v with
  | Some n => Ok (num_lt n c)
  | None => Raise TypeError
  end.

Definition py_gt (v : json) (c : num) : result bool :=
  match as_num v with
  | Some n => Ok (num_lt c n)
  | None => Raise TypeError
  end.

(** The integers that convert to a float: those that round to a finite
    binary64 value, which are the ones below 2^1024 - 2^970 in absolute
    value. *)
Definition FLOAT_INT_LIMIT : Z := 2 ^ 1024 - 2 ^ 970.

Definition int_fits_float (z : Z) : bool := Z.abs z <? FLOAT_INT_LIMIT.

(** [f"{v:.1f}"]: a float formats (also [inf] and [nan]), a bool
    formats, an int is first converted to a float and raises
    [OverflowError] when it is too large for one; [None], lists and dicts
    raise [TypeError], a string raises [ValueError].  The rendered digits
    are not modelled: the value itself is kept in the message. *)
Definition py_format_1f (v : json) : result json :=
  match v with
  | JBool _ | JFloat _ => Ok v
  | JInt z => if int_fits_float z then Ok v else Raise OverflowError
  | JStr _ => Raise ValueError
  | _ => Raise TypeError
  end.

(** [a / b] on the two device counts: true division of integers, which for
    operands below 2^53 (list lengths are) is the binary64 quotient of the
    converted operands. *)
Definition py_truediv (a b : Z) : float :=
  PrimFloat.div (PrimFloat.of_uint63 (Uint63.of_Z a))
                (PrimFloat.of_uint63 (Uint63.of_Z b)).

Definition py_float_ge (a b : float) : bool := PrimFloat.leb b a.

(** Thresholds of the script. *)
Definition MIN_TOTAL_HASHRATE : num := NFloat 30.0%float.
Definition MAX_TEMPERATURE : num := NFloat 85.0%float.
Definition MIN_DEVICE_HASHRATE : num := NFloat 15.0%float.
Definition MAX_HARDWARE_ERRORS : num := NInt 10.
(** The literal [0.8] denotes the binary64 value nearest to it. *)
Definition HEALTHY_FRACTION : float := 0x1.999999999999ap-1%float.

(** [timedelta(hours=24)], in microseconds. *)
Definition RETENTION : Z := 24 * 3600 * 1000000.

(** ** The outside world and the monitor's state *)

Inductive endpoint : Type :=
| StatusEndpoint     (* GET /api/v1/status *)
| DevicesEndpoint    (* GET /api/v1/devices *)
| PoolsEndpoint.     (* GET /api/v1/pools *)

(** Outcome of [requests.get(...)], [raise_for_status()] and
    [response.json()] taken together: a parsed body, any
    [requests.RequestException] (connection error, timeout, HTTP error
    status, undecodable body), or an interrupt arriving while the request
    blocks. *)
Inductive http_reply : Type :=
| Replied (body : json)
| RequestException
| Interrupted.

(** The oracles a run consumes: the successive readings of
    [datetime.now()] (naive local time, in microseconds; the wall clock
    may be set back, so nothing orders them), the replies to the
    successive requests, which calls of [time.sleep] are cut short by an
    interrupt, and which the operating system refuses.  The system
    refuses a sleep whose end lies beyond the range of its clock: under
    Linux, from Python 3.11 on, one that would end more than 2^63 - 1
    nanoseconds after the start of the monotonic clock.  Both are indexed
    by the number of sleeps begun before. *)
Record Env : Type := {
  now_at : nat -> Z;
  reply_at : nat -> endpoint -> http_reply;
  sleep_cut : nat -> bool;
  sleep_refused : nat -> bool
}.

Inductive severity : Type := critical | warning.

(** The message of an alert: the literal part of its f-string and the
    values interpolated into it. *)
Inductive alert_message : Type :=
| ApiNotResponding
| MiningNotActive (mining_state : json)
| LowTotalHashrate (total_hashrate : json)
| HighHardwareErrors (hardware_errors : json)
| DeviceHighTemperature (device_id temp : json)
| DeviceLowHashrate (device_id hashrate : json)
| DeviceNotMining (device_id status : json)
| NoPoolsConnected.

Definition message_text (m : alert_message) : string :=
  match m with
  | ApiNotResponding => "API not responding"
  | MiningNotActive _ => "Mining not active: "
  | LowTotalHashrate _ => "Low total hashrate: "
  | HighHardwareErrors _ => "High hardware errors: "
  | DeviceHighTemperature _ _ => "Device  high temperature: "
  | DeviceLowHashrate _ _ => "Device  low hashrate: "
  | DeviceNotMining _ _ => "Device  not mining: "
  | NoPoolsConnected => "No pools connected"
  end.

(** The dict [{'type': ..., 'message': ..., 'timestamp': ...}]; the
    timestamp is kept as the clock reading whose [isoformat()] it is. *)
Record alert : Type := {
  a_type : severity;
  a_message : alert_message;
  a_timestamp : Z
}.

(** The dict built by [collect_performance_metrics].  The two per-device
    keys exist only when the device list was truthy.  [m_timestamp] is the
    clock reading whose [isoformat()] is stored: [fromisoformat] gives it
    back unchanged. *)
Record metrics : Type := {
  m_timestamp : Z;
  m_total_hashrate : json;
  m_accepted_shares : json;
  m_rejected_shares : json;
  m_hardware_errors : json;
  m_active_devices : json;
  m_uptime : json;
  m_device_temperatures : option (list json);
  m_device_hashrates : option (list json)
}.

(** What a run leaves behind: log lines, e-mail hand-overs, completed
    sleeps. *)
Inductive event : Type :=
| LogFetchFailed (ep : endpoint)                 (* logger.error *)
| LogAlertCount (n : nat)                        (* logger.warning *)
| LogAlert (sev : severity) (msg : alert_message)(* logger.warning *)
| EmailAttempt (alerts : list alert)             (* send_email_alert's try *)
| LogStatusLine (mining_state total_hashrate active_devices shares : json)
| LogMonitoringError (e : exn)                   (* logger.error *)
| LogStopped                                     (* logger.info *)
| LogStarting (interval : Z)                     (* logger.info *)
| Slept (interval : Z).                          (* time.sleep returned *)

(** The monitor object ([self.performance_history]) together with the
    cursors into the oracles and the trace of effects.  [last_status] and
    [alert_history] are never read or written after [__init__]. *)
Record State : Type := {
  clock_reads : nat;
  requests_sent : nat;
  sleeps_begun : nat;
  trace : list event;
  performance_history : list metrics
}.

Definition initial_state : State :=
  {| clock_reads := 0; requests_sent := 0; sleeps_begun := 0;
     trace := []; performance_history := [] |}.

(** ** The monad: read the oracles, thread the state, maybe raise.  The
    state reached so far survives an exception. *)
Definition M (A : Type) : Type := Env -> State -> result A * State.

Definition ret {A} (a : A) : M A := fun _ st => (Ok a, st).

Definition bind {A B} (m : M A) (k : A -> M B) : M B :=
  fun env st =>
    match m env st with
    | (Ok a, st') => k a env st'
    | (Raise e, st') => (Raise e, st')
    end.

Definition lift {A} (r : result A) : M A := fun _ st => (r, st).

Declare Scope monitor_scope.
Delimit Scope monitor_scope with mon.
Notation "x <- m ;; k" := (bind m (fun x => k))
  (at level 61, m at next level, right associativity) : monitor_scope.
Notation "m ;;; k" := (bind m (fun _ => k))
  (at level 61, right associativity) : monitor_scope.
Notation "x <~ r ;; k" := (result_bind r (fun x => k))
  (at level 61, r at next level, right associativity) : monitor_scope.
Open Scope monitor_scope.

Definition emit (e : event) : M unit :=
  fun _ st =>
    (Ok tt, {| clock_reads := clock_reads st;
               requests_sent := requests_sent st;
               sleeps_begun := sleeps_begun st;
               trace := trace st ++ [e];
               performance_history := performance_history st |}).

(** [datetime.now()]. *)
Definition now : M Z :=
  fun env st =>
    (Ok (now_at env (clock_reads st)),
     {| clock_reads := S (clock_reads st);
        requests_sent := requests_sent st;
        sleeps_begun := sleeps_begun st;
        trace := trace st;
        performance_history := performance_history st |}).

Definition request (ep : endpoint) : M http_reply :=
  fun env st =>
    (Ok (reply_at env (requests_sent st) ep),
     {| clock_reads := clock_reads st;
        requests_sent := S (requests_sent st);
        sleeps_begun := sleeps_begun st;
        trace := trace st;
        performance_history := performance_history st |}).

(** The longest sleep, in seconds, whose nanoseconds fit the 64-bit
    time of the interpreter. *)
Definition MAX_SLEEP : Z := 9223372036.

(** [time.sleep(interval)] with an integer interval: the interval is
    first converted to nanoseconds, which raises [OverflowError] beyond
    [MAX_SLEEP] seconds in either direction; a negative length then raises
    [ValueError]; a sleep the operating system refuses raises [OSError]
    and has not begun; a sleep that is interrupted raises
    [KeyboardInterrupt]. *)
Definition sleep (interval : Z) : M unit :=
  fun env st =>
    if (interval <? - MAX_SLEEP) || (MAX_SLEEP <? interval)
    then (Raise OverflowError, st)
    else if interval <? 0 then (Raise ValueError, st)
    else if sleep_refused env (sleeps_begun st) then (Raise OSError, st)
    else
      let st' := {| clock_reads := clock_reads st;
                    requests_sent := requests_sent st;
                    sleeps_begun := S (sleeps_begun st);
                    trace := trace st;
                    performance_history := performance_history st |} in
      if sleep_cut env (sleeps_begun st) then (Raise KeyboardInterrupt, st')
      else emit (Slept interval) env st'.

Definition get_history : M (list metrics) :=
  fun _ st => (Ok (performance_history st), st).

Definition set_history (h : list metrics) : M unit :=
  fun _ st =>
    (Ok tt, {| clock_reads := clock_reads st;
               requests_sent := requests_sent st;
               sleeps_begun := sleeps_begun st;
               trace := trace st;
               performance_history := h |}).

(** ** StatusClient *)

Definition get_status : M json :=
  r <- request StatusEndpoint ;;
  match r with
  | Replied body => ret body
  | RequestException => emit (LogFetchFailed StatusEndpoint) ;;; ret JNull
  | Interrupted => lift (Raise KeyboardInterrupt)
  end.

Definition get_devices : M json :=
  r <- request DevicesEndpoint ;;
  match r with
  | Replied body => lift (py_get body "data" (JList []))
  | RequestException => emit (LogFetchFailed DevicesEndpoint) ;;; ret JNull
  | Interrupted => lift (Raise KeyboardInterrupt)
  end.

Definition get_pools : M json :=
  r <- request PoolsEndpoint ;;
  match r with
  | Replied body => lift (py_get body "data" (JList []))
  | RequestException => emit (LogFetchFailed PoolsEndpoint) ;;; ret JNull
  | Interrupted => lift (Raise KeyboardInterrupt)
  end.

(** [status and status.get('success')], as a condition. *)
Definition responsive (status : json) : result bool :=
  if py_truthy status then
    result_map py_truthy (py_get status "success" JNull)
  else Ok false.

(** ** HealthEvaluator *)

Record health : Type := {
  api_responsive : bool;
  mining_active : bool;
  devices_healthy : bool;
  pools_connected : bool;
  temperature_ok : bool;
  hashrate_ok : bool
}.

(** The condition of the device loop of [check_health], with the
    short-circuit of [and]: a later operand is evaluated only when the
    earlier ones hold. *)
Definition device_is_healthy (device : json) : result bool :=
  st <~ py_get device "status" JNull ;;
  if py_eq_str st "Mining" then
    temperature <~ py_get device "temperature" (JInt 0) ;;
    cool <~ py_lt temperature MAX_TEMPERATURE ;;
    if cool then
      hashrate <~ py_get device "hashrate" (JInt 0) ;;
      py_gt hashrate MIN_DEVICE_HASHRATE
    else Ok false
  else Ok false.

(** [healthy_devices] after the loop over [devices]. *)
Fixpoint count_healthy (devices : list json) : result Z :=
  match devices with
  | [] => Ok 0
  | device :: rest =>
      h <~ device_is_healthy device ;;
      n <~ count_healthy rest ;;
      Ok ((if h then 1 else 0) + n)
  end.

(** [sum(1 for pool in pools if pool.get('status') == 'Connected')]. *)
Fixpoint count_connected (pools : list json) : result Z :=
  match pools with
  | [] => Ok 0
  | pool :: rest =>
      st <~ py_get pool "status" JNull ;;
      n <~ count_connected rest ;;
      Ok ((if py_eq_str st "Connected" then 1 else 0) + n)
  end.

(** The status part of [check_health]: the pair
    ([mining_active], [hashrate_ok]) of a responsive status. *)
Definition status_checks (status : json) : result (bool * bool) :=
  data <~ py_get status "data" (JDict []) ;;
  mining_state <~ py_get data "mining_state" JNull ;;
  total_hashrate <~ py_get data "total_hashrate" (JInt 0) ;;
  enough <~ py_gt total_hashrate MIN_TOTAL_HASHRATE ;;
  Ok (py_eq_str mining_state "Running", enough).

(** The device part: the value given to both [devices_healthy] and
    [temperature_ok]. *)
Definition devices_check (devices : json) : result bool :=
  if py_truthy devices then
    total_devices <~ py_len devices ;;
    items <~ py_iter devices ;;
    healthy_devices <~ count_healthy items ;;
    Ok ((0 <? total_devices)
        && py_float_ge (py_truediv healthy_devices total_devices)
                       HEALTHY_FRACTION)
  else Ok false.

Definition pools_check (pools : json) : result bool :=
  if py_truthy pools then
    items <~ py_iter pools ;;
    connected_pools <~ count_connected items ;;
    Ok (0 <? connected_pools)
  else Ok false.

Definition check_health : M health :=
  status <- get_status ;;
  api <- lift (responsive status) ;;
  sc <- (if api then lift (status_checks status) else ret (false, false)) ;;
  devices <- get_devices ;;
  dev <- lift (devices_check devices) ;;
  pools <- get_pools ;;
  pool <- lift (pools_check pools) ;;
  ret {| api_responsive := api;
         mining_active := fst sc;
         devices_healthy := dev;
         pools_connected := pool;
         temperature_ok := dev;
         hashrate_ok := snd sc |}.

(** [all(health.values())]: the overall verdict of the health mode. *)
Definition healthy (h : health) : bool :=
  api_responsive h && mining_active h && devices_healthy h
  && pools_connected h && temperature_ok h && hashrate_ok h.

(** ** AlertDetector *)

(** One [alerts.append({...})]: the clock is read when the dict is
    built. *)
Definition new_alert (sev : severity) (msg : alert_message) : M (list alert) :=
  t <- now ;;
  ret [ {| a_type := sev; a_message := msg; a_timestamp := t |} ].

(** The body of the device loop of [check_alerts]. *)
Definition device_alerts (device : json) : M (list alert) :=
  device_id <- lift (py_get device "device_id" JNull) ;;
  temp <- lift (py_get device "temperature" JNull) ;;
  hot <- (if py_truthy temp then
            above <- lift (py_gt temp MAX_TEMPERATURE) ;;
            if above then
              shown <- lift (py_format_1f temp) ;;
              new_alert critical (DeviceHighTemperature device_id shown)
            else ret []
          else ret []) ;;
  hashrate <- lift (py_get device "hashrate" (JInt 0)) ;;
  below <- lift (py_lt hashrate MIN_DEVICE_HASHRATE) ;;
  slow <- (if below then
             shown <- lift (py_format_1f hashrate) ;;
             new_alert warning (DeviceLowHashrate device_id shown)
           else ret []) ;;
  st <- lift (py_get device "status" JNull) ;;
  idle <- (if negb (py_eq_str st "Mining") then
             new_alert critical (DeviceNotMining device_id st)
           else ret []) ;;
  ret (hot ++ slow ++ idle).

Fixpoint devices_alerts (devices : list json) : M (list alert) :=
  match devices with
  | [] => ret []
  | device :: rest =>
      here <- device_alerts device ;;
      later <- devices_alerts rest ;;
      ret (here ++ later)
  end.

(** [[p for p in pools if p.get('status') == 'Connected']]. *)
Fixpoint connected_pools (pools : list json) : result (list json) :=
  match pools with
  | [] => Ok []
  | p :: rest =>
      st <~ py_get p "status" JNull ;;
      others <~ connected_pools rest ;;
      Ok (if py_eq_str st "Connected" then p :: others else others)
  end.

(** The pool check at the end of [check_alerts]. *)
Definition pool_alerts (pools : json) : M (list alert) :=
  if py_truthy pools then
    items <- lift (py_iter pools) ;;
    connected <- lift (connected_pools items) ;;
    match connected with
    | [] => new_alert critical NoPoolsConnected
    | _ :: _ => ret []
    end
  else ret [].

Definition check_alerts (status devices pools : json) : M (list alert) :=
  up <- lift (responsive status) ;;
  if negb up then new_alert critical ApiNotResponding
  else
    data <- lift (py_get status "data" (JDict [])) ;;
    mining_state <- lift (py_get data "mining_state" JNull) ;;
    stopped <- (if negb (py_eq_str mining_state "Running") then
                  new_alert critical (MiningNotActive mining_state)
                else ret []) ;;
    total_hashrate <- lift (py_get data "total_hashrate" (JInt 0)) ;;
    low <- lift (py_lt total_hashrate MIN_TOTAL_HASHRATE) ;;
    weak <- (if low then
               shown <- lift (py_format_1f total_hashrate) ;;
               new_alert warning (LowTotalHashrate shown)
             else ret []) ;;
    hardware_errors <- lift (py_get data "hardware_errors" (JInt 0)) ;;
    many <- lift (py_gt hardware_errors MAX_HARDWARE_ERRORS) ;;
    faulty <- (if many then
                 new_alert warning (HighHardwareErrors hardware_errors)
               else ret []) ;;
    per_device <- (if py_truthy devices then
                     items <- lift (py_iter devices) ;;
                     devices_alerts items
                   else ret []) ;;
    per_pool <- pool_alerts pools ;;
    ret (stopped ++ weak ++ faulty ++ per_device ++ per_pool).

(** ** Notifier *)

(** [send_email_alert]: nothing happens without alerts or without a
    configuration; otherwise the digest is handed to SMTP inside a
    [try ... except Exception], so no [Exception] leaves the method. *)
Definition send_email_alert (alerts : list alert) (smtp_config : json)
  : M unit :=
  match alerts with
  | [] => ret tt
  | _ :: _ =>
      if py_truthy smtp_config then emit (EmailAttempt alerts) else ret tt
  end.

(** ** PerformanceHistory *)

(** [[d.get(key, 0) for d in devices if d.get(key)]]. *)
Fixpoint present_values (key : string) (devices : list json)
  : result (list json) :=
  match devices with
  | [] => Ok []
  | d :: rest =>
      probe <~ py_get d key JNull ;;
      value <~ py_get d key (JInt 0) ;;
      others <~ present_values key rest ;;
      Ok (if py_truthy probe then value :: others else others)
  end.

(** The two keys added under [if devices:]; without devices the sample
    has neither. *)
Definition device_arrays (devices : json)
  : result (option (list json) * option (list json)) :=
  if py_truthy devices then
    items <~ py_iter devices ;;
    temperatures <~ present_values "temperature" items ;;
    hashrates <~ present_values "hashrate" items ;;
    Ok (Some temperatures, Some hashrates)
  else Ok (None, None).

(** The comprehension that evicts: a sample stays when its timestamp is
    strictly later than the cutoff. *)
Definition keep_after (cutoff_time : Z) (history : list metrics)
  : list metrics :=
  filter (fun m => cutoff_time <? m_timestamp m) history.

Definition collect_performance_metrics : M unit :=
  status <- get_status ;;
  devices <- get_devices ;;
  up <- lift (responsive status) ;;
  if up then
    data <- lift (py_get status "data" (JDict [])) ;;
    stamp <- now ;;
    total_hashrate <- lift (py_get data "total_hashrate" (JInt 0)) ;;
    accepted_shares <- lift (py_get data "accepted_shares" (JInt 0)) ;;
    rejected_shares <- lift (py_get data "rejected_shares" (JInt 0)) ;;
    hardware_errors <- lift (py_get data "hardware_errors" (JInt 0)) ;;
    active_devices <- lift (py_get data "active_devices" (JInt 0)) ;;
    uptime <- lift (py_get data "uptime" (JInt 0)) ;;
    per_device <- lift (device_arrays devices) ;;
    history <- get_history ;;
    set_history
      (history ++
       [ {| m_timestamp := stamp;
            m_total_hashrate := total_hashrate;
            m_accepted_shares := accepted_shares;
            m_rejected_shares := rejected_shares;
            m_hardware_errors := hardware_errors;
            m_active_devices := active_devices;
            m_uptime := uptime;
            m_device_temperatures := fst per_device;
            m_device_hashrates := snd per_device |} ]) ;;;
    current <- now ;;
    appended <- get_history ;;
    set_history (keep_after (current - RETENTION) appended)
  else ret tt.

(** ** MonitorLoop *)

Fixpoint log_alerts (alerts : list alert) : M unit :=
  match alerts with
  | [] => ret tt
  | a :: rest => emit (LogAlert (a_type a) (a_message a)) ;;; log_alerts rest
  end.

(** The status line logged at the end of a cycle. *)
Definition log_status (status : json) : M unit :=
  up <- lift (responsive status) ;;
  if up then
    data <- lift (py_get status "data" (JDict [])) ;;
    mining_state <- lift (py_get data "mining_state" JNull) ;;
    total_hashrate <- lift (py_get data "total_hashrate" (JInt 0)) ;;
    shown <- lift (py_format_1f total_hashrate) ;;
    active_devices <- lift (py_get data "active_devices" (JInt 0)) ;;
    accepted_shares <- lift (py_get data "accepted_shares" (JInt 0)) ;;
    emit (LogStatusLine mining_state shown active_devices accepted_shares)
  else ret tt.

(** What stands inside the [try] of [monitor_continuous]. *)
Definition cycle_body (interval : Z) (smtp_config : json) : M unit :=
  status <- get_status ;;
  devices <- get_devices ;;
  pools <- get_pools ;;
  alerts <- check_alerts status (py_or devices (JList []))
                         (py_or pools (JList [])) ;;
  match alerts with
  | [] => ret tt
  | _ :: _ =>
      emit (LogAlertCount (List.length alerts)) ;;;
      log_alerts alerts ;;;
      if py_truthy smtp_config then send_email_alert alerts smtp_config
      else ret tt
  end ;;;
  collect_performance_metrics ;;;
  log_status status ;;;
  sleep interval.

Inductive loop_step : Type :=
| Continue    (* the [while True] goes round again *)
| Break.      (* [break] *)

(** One turn of the [while True]: the body under its two handlers.  An
    exception raised by the handler's own [time.sleep] is outside the
    [try] and leaves the loop. *)
Definition monitor_cycle (interval : Z) (smtp_config : json) : M loop_step :=
  fun env st =>
    match cycle_body interval smtp_config env st with
    | (Ok _, st1) => (Ok Continue, st1)
    | (Raise KeyboardInterrupt, st1) =>
        (emit LogStopped ;;; ret Break) env st1
    | (Raise e, st1) =>
        (emit (LogMonitoringError e) ;;;
         sleep interval ;;;
         ret Continue) env st1
    end.

Inductive loop_end : Type :=
| Stopped        (* the loop was left through [break] *)
| StillRunning.  (* the turns observed are used up, the loop goes on *)

Fixpoint monitor_turns (turns : nat) (interval : Z) (smtp_config : json)
  : M loop_end :=
  match turns with
  | O => ret StillRunning
  | S n =>
      step <- monitor_cycle interval smtp_config ;;
      match step with
      | Continue => monitor_turns n interval smtp_config
      | Break => ret Stopped
      end
  end.

(** [monitor_continuous], observed for a number of turns of its loop. *)
Definition monitor_continuous (turns : nat) (interval : Z)
  (smtp_config : json) : M loop_end :=
  emit (LogStarting interval) ;;;
  monitor_turns turns interval smtp_config.

(** The first half of a cycle: the three fetches and the detection. *)
Definition poll_and_detect : M (json * list alert) :=
  status <- get_status ;;
  devices <- get_devices ;;
  pools <- get_pools ;;
  alerts <- check_alerts status (py_or devices (JList []))
                         (py_or pools (JList [])) ;;
  ret (status, alerts).

(** The second half: reporting the alerts, sampling, logging, sleeping. *)
Definition report_and_record (status : json) (alerts : list alert)
  (interval : Z) (smtp_config : json) : M unit :=
  match alerts with
  | [] => ret tt
  | _ :: _ =>
      emit (LogAlertCount (List.length alerts)) ;;;
      log_alerts alerts ;;;
      if py_truthy smtp_config then send_email_alert alerts smtp_config
      else ret tt
  end ;;;
  collect_performance_metrics ;;;
  log_status status ;;;
  sleep interval.

(** A cycle up to its status line: the first half, the report of the
    alerts and the sampling; what is left of the body is the status line
    and the sleep. *)
Definition until_status_line (smtp_config : json) : M json :=
  sa <- poll_and_detect ;;
  match snd sa with
  | [] => ret tt
  | _ :: _ =>
      emit (LogAlertCount (List.length (snd sa))) ;;;
      log_alerts (snd sa) ;;;
      if py_truthy smtp_config then send_email_alert (snd sa) smtp_config
      else ret tt
  end ;;;
  collect_performance_metrics ;;;
  ret (fst sa).

(** ** Vocabulary of the properties *)

(** An alert without its capture time. *)
Definition content (a : alert) : severity * alert_message :=
  (a_type a, a_message a).

Definition is_no_pools (a : alert) : bool :=
  match a_message a with NoPoolsConnected => true | _ => false end.

Definition is_high_temperature (a : alert) : bool :=
  match a_message a with DeviceHighTemperature _ _ => true | _ => false end.

Definition is_low_hashrate (a : alert) : bool :=
  match a_message a with DeviceLowHashrate _ _ => true | _ => false end.

Definition is_low_total_hashrate (a : alert) : bool :=
  match a_message a with LowTotalHashrate _ => true | _ => false end.

(** [device.get(key)] of a device or pool entry. *)
Definition field (key : string) (entry : json) : json :=
  match entry with
  | JDict d => dict_get d key JNull
  | _ => JNull
  end.

Definition pool_is_connected (pool : json) : bool :=
  py_eq_str (field "status" pool) "Connected".

Definition holds (r : result bool) : bool :=
  match r with
  | Ok b => b
  | Raise _ => false
  end.

(** The device condition in the words of the specification:
    [status == Mining], [temperature < 85.0] and [hashrate > 15.0], an
    absent temperature or hashrate counting as 0. *)
Definition meets_thresholds (device : json) : bool :=
  match device with
  | JDict d =>
      py_eq_str (dict_get d "status" JNull) "Mining"
      && holds (py_lt (dict_get d "temperature" (JInt 0)) MAX_TEMPERATURE)
      && holds (py_gt (dict_get d "hashrate" (JInt 0)) MIN_DEVICE_HASHRATE)
  | _ => false
  end.

(** Whether [devices] out of [total] is a fraction of at least 0.8, as
    Python computes it. *)
Definition fraction_at_least_0_8 (part total : Z) : bool :=
  py_float_ge (py_truediv part total) HEALTHY_FRACTION.

Definition is_alert_event (e : event) : bool :=
  match e with
  | LogAlertCount _ | LogAlert _ _ | EmailAttempt _ => true
  | _ => false
  end.

(** The state after one more reading of the clock. *)
Definition clock_read (st : State) : State :=
  {| clock_reads := S (clock_reads st);
     requests_sent := requests_sent st;
     sleeps_begun := sleeps_begun st;
     trace := trace st;
     performance_history := performance_history st |}.

(** What a computation leaves untouched: [P] relates the state before
    to the state after, whether the run returns or raises. *)
Definition frames {A} (P : State -> State -> Prop) (m : M A) : Prop :=
  forall env st, P st (snd (m env st)).

Definition same_history (st st' : State) : Prop :=
  performance_history st' = performance_history st.

Definition same_alert_events (st st' : State) : Prop :=
  filter is_alert_event (trace st') = filter is_alert_event (trace st).

(** Neither the clock was read nor the history touched. *)
Definition same_clock_and_history (st st' : State) : Prop :=
  clock_reads st' = clock_reads st /\
  performance_history st' = performance_history st.

(** Two results that agree up to the capture times of their alerts. *)
Definition same_content (r1 r2 : result (list alert)) : Prop :=
  result_map (map content) r1 = result_map (map content) r2.

(** Two computations whose results agree up to capture times, whatever
    clock and state each one runs in. *)
Definition related (m1 m2 : M (list alert)) : Prop :=
  forall env1 st1 env2 st2,
    same_content (fst (m1 env1 st1)) (fst (m2 env2 st2)).

(** Alerts none of which satisfies [p]. *)
Definition free_of (p : alert -> bool) (l : list alert) : Prop :=
  filter p l = [].

(** Every list a computation returns satisfies [Q]. *)
Definition yields {A} (Q : A -> Prop) (m : M A) : Prop :=
  forall env st a st', m env st = (Ok a, st') -> Q a.

(** ** Concrete worlds *)

(** A world whose clock advances by one second per reading, whose API
    cannot be reached and whose sleeps run to their end. *)
Definition unreachable_api : Env :=
  {| now_at := fun k => Z.of_nat k * 1000000;
     reply_at := fun _ _ => RequestException;
     sleep_cut := fun _ => false;
     sleep_refused := fun _ => false |}.

(** The same API under an operating system that refuses every sleep. *)
Definition refusing_os : Env :=
  {| now_at := fun k => Z.of_nat k * 1000000;
     reply_at := fun _ _ => RequestException;
     sleep_cut := fun _ => false;
     sleep_refused := fun _ => true |}.

(** [check_alerts] evaluated twice in a row on the same arguments. *)
Definition check_alerts_twice (status devices pools : json)
  : M (list alert * list alert) :=
  first <- check_alerts status devices pools ;;
  second <- check_alerts status devices pools ;;
  ret (first, second).

(** A world in which every endpoint keeps giving the same body, the
    clock advances by one second per reading and sleeps run to their
    end. *)
Definition steady_api (status devices pools : json) : Env :=
  {| now_at := fun k => Z.of_nat k * 1000000;
     reply_at := fun _ ep =>
       match ep with
       | StatusEndpoint => Replied status
       | DevicesEndpoint => Replied (JDict [("data", devices)])
       | PoolsEndpoint => Replied (JDict [("data", pools)])
       end;
     sleep_cut := fun _ => false;
     sleep_refused := fun _ => false |}.

(** [{success: true, data: {mining_state: "Running", total_hashrate: h,
    hardware_errors: 2}}]. *)
Definition running_status (total_hashrate : json) : json :=
  JDict [("success", JBool true);
         ("data", JDict [("mining_state", JStr "Running");
                         ("total_hashrate", total_hashrate);
                         ("hardware_errors", JInt 2)])].

Definition mining_device (temperature hashrate : json) : json :=
  JDict [("device_id", JInt 0); ("status", JStr "Mining");
         ("temperature", temperature); ("hashrate", hashrate)].

Definition pool_with_status (status : string) : json :=
  JDict [("status", JStr status)].

(** A status that carries a hashrate of 45 GH/s but reports
    [success: false]. *)
Definition failed_status : json :=
  JDict [("success", JBool false);
         ("data", JDict [("mining_state", JStr "Running");
                         ("total_hashrate", JFloat 45.0%float)])].

(** Five devices of which the first four mine within the thresholds. *)
Definition four_of_five : list json :=
  [ mining_device (JInt 60) (JInt 20); mining_device (JInt 61) (JInt 21);
    mining_device (JInt 62) (JInt 22); mining_device (JInt 63) (JInt 23);
    mining_device (JInt 90) (JInt 5) ].

(** Whether the binary64 test [part / total >= 0.8] agrees with the exact
    comparison of the fraction with 4/5, for every [part <= total] and
    every [total] from 1 to [bound]. *)
Definition fraction_test_exact_upto (bound : nat) : bool :=
  forallb (fun total =>
    forallb (fun part =>
      Bool.eqb (fraction_at_least_0_8 (Z.of_nat part) (Z.of_nat total))
               (4 * Z.of_nat total <=? 5 * Z.of_nat part))
      (seq 0 (S total)))
    (seq 1 bound).

(** Like [steady_api], with the readings of the clock given. *)
Definition steady_api_at (clock : nat -> Z) (status devices pools : json)
  : Env :=
  {| now_at := clock;
     reply_at := reply_at (steady_api status devices pools);
     sleep_cut := fun _ => false;
     sleep_refused := fun _ => false |}.

Definition HOUR : Z := 3600 * 1000000.

(** A sample taken at time [t] from a status without data. *)
Definition sample_at (t : Z) : metrics :=
  {| m_timestamp := t;
     m_total_hashrate := JInt 0; m_accepted_shares := JInt 0;
     m_rejected_shares := JInt 0; m_hardware_errors := JInt 0;
     m_active_devices := JInt 0; m_uptime := JInt 0;
     m_device_temperatures := None; m_device_hashrates := None |}.

(** The sample [collect_performance_metrics] builds at time [t] from
    [running_status (JFloat 45.0)] and an empty device list. *)
Definition running_sample_at (t : Z) : metrics :=
  {| m_timestamp := t;
     m_total_hashrate := JFloat 45.0%float; m_accepted_shares := JInt 0;
     m_rejected_shares := JInt 0; m_hardware_errors := JInt 2;
     m_active_devices := JInt 0; m_uptime := JInt 0;
     m_device_temperatures := None; m_device_hashrates := None |}.

(** A monitor that already holds the history [h]. *)
Definition state_with_history (h : list metrics) : State :=
  {| clock_reads := 0; requests_sent := 0; sleeps_begun := 0;
     trace := []; performance_history := h |}.

(** The sample is stamped one microsecond before the 24th hour, the
    cutoff is computed five microseconds after it. *)
Definition clock_moving_on (k : nat) : Z :=
  match k with
  | O => RETENTION - 1
  | S _ => RETENTION + 5
  end.

(** Both readings fall on the same microsecond. *)
Definition clock_standing (k : nat) : Z := RETENTION - 1.

(** The wall clock is set back by an hour (as at the end of daylight
    saving time) between the stamping of the sample and the computation of
    the cutoff. *)
Definition clock_set_back (k : nat) : Z :=
  match k with
  | O => 25 * HOUR
  | S _ => 24 * HOUR
  end.

(** A device that is idle: its hashrate is present, and zero. *)
Definition idle_device : json :=
  JDict [("device_id", JInt 0); ("status", JStr "Idle");
         ("temperature", JFloat 45.5%float); ("hashrate", JFloat 0%float)].

(** Every quantity sits exactly on its threshold: a total hashrate of
    30.0, a device at 85.0 degrees hashing 15.0, with mining running and a
    pool connected. *)
Definition threshold_api : Env :=
  steady_api (running_status (JFloat 30.0%float))
             (JList [mining_device (JFloat 85.0%float) (JFloat 15.0%float)])
             (JList [pool_with_status "Connected"]).

(** A status that reports mining as stopped. *)
Definition stopped_status : json :=
  JDict [("success", JBool true);
         ("data", JDict [("mining_state", JStr "Stopped");
                         ("total_hashrate", JFloat 45.0%float)])].

(** The devices endpoint answers the fifth request of the run, which is
    the devices fetch of [collect_performance_metrics] in the first cycle,
    with a JSON array instead of an object. *)
Definition flaky_devices_api : Env :=
  {| now_at := fun k => Z.of_nat k * 1000000;
     reply_at := fun k ep =>
       match ep with
       | StatusEndpoint => Replied stopped_status
       | DevicesEndpoint =>
           if Nat.eqb k 4 then Replied (JList [])
           else Replied (JDict [("data", JList [])])
       | PoolsEndpoint => Replied (JDict [("data", JList [])])
       end;
     sleep_cut := fun _ => false;
     sleep_refused := fun _ => false |}.

(** A status whose total hashrate is the integer 10^400: above the
    low-hashrate threshold, and too large for a float. *)
Definition huge_hashrate_api : Env :=
  steady_api (running_status (JInt (10 ^ 400))) (JList [])
             (JList [pool_with_status "Connected"]).

(** A device whose hashrate is reported as [null]. *)
Definition null_hashrate_api : Env :=
  steady_api (running_status (JFloat 45.0%float))
             (JList [JDict [("device_id", JInt 0); ("status", JStr "Mining");
                            ("hashrate", JNull)]])
             (JList [pool_with_status "Connected"]).

(** The report in which every check has failed. *)
Definition all_checks_failed : health :=
  {| api_responsive := false; mining_active := false;
     devices_healthy := false; pools_connected := false;
     temperature_ok := false; hashrate_ok := false |}.

(** ** The alert rules as a table *)

(** [entry.get(key, default)] of a device or pool entry. *)
Definition field_or (key : string) (default : json) (entry : json) : json :=
  match entry with
  | JDict d => dict_get d key default
  | _ => default
  end.

(** A device is hot when its temperature is truthy and above 85.0. *)
Definition is_hot (device : json) : bool :=
  py_truthy (field "temperature" device)
  && holds (py_gt (field "temperature" device) MAX_TEMPERATURE).

(** A device is slow when its hashrate, 0 when absent, is below 15.0. *)
Definition is_slow (device : json) : bool :=
  holds (py_lt (field_or "hashrate" (JInt 0) device) MIN_DEVICE_HASHRATE).

Definition is_idle (device : json) : bool :=
  negb (py_eq_str (field "status" device) "Mining").

(** What is reported about one device, in the order of the checks. *)
Definition device_findings (device : json)
  : list (severity * alert_message) :=
  (if is_hot device
   then [(critical, DeviceHighTemperature (field "device_id" device)
                                          (field "temperature" device))]
   else [])
  ++ (if is_slow device
      then [(warning, DeviceLowHashrate (field "device_id" device)
                                        (field_or "hashrate" (JInt 0) device))]
      else [])
  ++ (if is_idle device
      then [(critical, DeviceNotMining (field "device_id" device)
                                       (field "status" device))]
      else []).

(** What is reported about the [data] of a responsive status. *)
Definition status_findings (data : json) : list (severity * alert_message) :=
  (if negb (py_eq_str (field "mining_state" data) "Running")
   then [(critical, MiningNotActive (field "mining_state" data))]
   else [])
  ++ (if holds (py_lt (field_or "total_hashrate" (JInt 0) data)
                      MIN_TOTAL_HASHRATE)
      then [(warning, LowTotalHashrate (field_or "total_hashrate" (JInt 0) data))]
      else [])
  ++ (if holds (py_gt (field_or "hardware_errors" (JInt 0) data)
                      MAX_HARDWARE_ERRORS)
      then [(warning,
             HighHardwareErrors (field_or "hardware_errors" (JInt 0) data))]
      else []).

(** What is reported about a pool list. *)
Definition pool_findings (pools : list json)
  : list (severity * alert_message) :=
  match pools with
  | [] => []
  | _ :: _ =>
      if existsb pool_is_connected pools then []
      else [(critical, NoPoolsConnected)]
  end.

Definition is_high_temperature_finding (f : severity * alert_message) : bool :=
  match snd f with DeviceHighTemperature _ _ => true | _ => false end.

(** The state after [n] more readings of the clock. *)
Definition clock_advanced (n : nat) (st : State) : State :=
  {| clock_reads := (n + clock_reads st)%nat;
     requests_sent := requests_sent st;
     sleeps_begun := sleeps_begun st;
     trace := trace st;
     performance_history := performance_history st |}.

(** The alerts [l] were stamped, in order, with the clock readings that
    lead from [st] to [st'], and nothing else happened. *)
Definition stamped (env : Env) (st : State) (l : list alert) (st' : State)
  : Prop :=
  st' = clock_advanced (List.length l) st /\
  map a_timestamp l
  = map (now_at env) (seq (clock_reads st) (List.length l)).

(** Every run of [m] that returns has stamped what it returns. *)
Definition stamps (m : M (list alert)) : Prop :=
  forall env st l st', m env st = (Ok l, st') -> stamped env st l st'.

(** No request is answered by an interrupt and no sleep is cut short. *)
Definition uninterrupted (env : Env) : Prop :=
  (forall k ep, reply_at env k ep <> Interrupted) /\
  (forall k, sleep_cut env k = false).

(** The operating system refuses no sleep. *)
Definition sleeps_accepted (env : Env) : Prop :=
  forall k, sleep_refused env k = false.

(** Nothing is wrong with a device by the rules of the detector. *)
Definition device_is_quiet (device : json) : bool :=
  negb (is_hot device) && negb (is_slow device) && negb (is_idle device).

(** Nothing is wrong with the [data] of a status by those rules. *)
Definition status_is_quiet (data : json) : bool :=
  py_eq_str (field "mining_state" data) "Running"
  && negb (holds (py_lt (field_or "total_hashrate" (JInt 0) data)
                        MIN_TOTAL_HASHRATE))
  && negb (holds (py_gt (field_or "hardware_errors" (JInt 0) data)
                        MAX_HARDWARE_ERRORS)).

Definition pools_are_quiet (pools : list json) : bool :=
  match pools with
  | [] => true
  | _ :: _ => existsb pool_is_connected pools
  end.

(** Run after the alerts [pre] have been stamped, [m] returns them
    followed by the alerts it stamps itself. *)
Definition extends (pre : list alert) (m : M (list alert)) : Prop :=
  forall env st0 st l st',
    stamped env st0 pre st -> m env st = (Ok l, st') -> stamped env st0 l st'.

(** The clock never runs backwards. *)
Definition monotone_clock (env : Env) : Prop :=
  forall i j, (i <= j)%nat -> now_at env i <= now_at env j.

(** The history is in order of time, and none of its samples is later
    than a reading of the clock still to come. *)
Definition history_in_order (env : Env) (st : State) : Prop :=
  StronglySorted Z.le (map m_timestamp (performance_history st)) /\
  Forall (fun m => forall k, (clock_reads st <= k)%nat ->
                             m_timestamp m <= now_at env k)
         (performance_history st).

(** A failing pure operation fails with an [Exception]. *)
Definition fails_with_exception {A} (r : result A) : Prop :=
  forall e, r = Raise e -> is_Exception e = true.

(** In a world without interrupts, [m] raises nothing but
    [Exception]s. *)
Definition quiet {A} (m : M A) : Prop :=
  forall env st e st',
    uninterrupted env -> m env st = (Raise e, st') -> is_Exception e = true.

(** The number of sleeps begun has not changed. *)
Definition same_sleeps (st st' : State) : Prop :=
  sleeps_begun st' = sleeps_begun st.

(** ** Reasoning about runs *)

Lemma bind_Ok {A B} (m : M A) (k : A -> M B) env st b st' :
  bind m k env st = (Ok b, st') ->
  exists a st1, m env st = (Ok a, st1) /\ k a env st1 = (Ok b, st').
Proof.
  unfold bind. destruct (m env st) as [[a | e] st1]; intros H.
  - exists a, st1. split; [reflexivity | exact H].
  - discriminate H.
Qed.

Lemma bind_Raise {A B} (m : M A) (k : A -> M B) env st e st' :
  bind m k env st = (Raise e, st') ->
  m env st = (Raise e, st') \/
  exists a st1, m env st = (Ok a, st1) /\ k a env st1 = (Raise e, st').
Proof.
  unfold bind. destruct (m env st) as [[a | e0] st1]; intros H.
  - right. exists a, st1. split; [reflexivity | exact H].
  - left. inversion H. reflexivity.
Qed.

Lemma lift_inv {A} (r : result A) env st x st' :
  lift r env st = (x, st') -> r = x /\ st' = st.
Proof. unfold lift. intros H. inversion H. split; reflexivity. Qed.

Lemma ret_inv {A} (a : A) env st x st' :
  ret a env st = (x, st') -> x = Ok a /\ st' = st.
Proof. unfold ret. intros H. inversion H. split; reflexivity. Qed.

(** *** Frames: what a computation leaves untouched *)
Section Frames.
Variable P : State -> State -> Prop.
Hypothesis P_refl : forall st, P st st.
Hypothesis P_trans : forall a b c, P a b -> P b c -> P a c.

Lemma frames_ret {A} (a : A) : frames P (ret a).
Proof. intros env st. apply P_refl. Qed.

Lemma frames_lift {A} (r : result A) : frames P (lift r).
Proof. intros env st. apply P_refl. Qed.

Lemma frames_bind {A B} (m : M A) (k : A -> M B) :
  frames P m -> (forall a, frames P (k a)) -> frames P (bind m k).
Proof.
  intros Hm Hk env st. unfold bind.
  specialize (Hm env st).
  destruct (m env st) as [[a | e] st1]; simpl in *.
  - eapply P_trans; [exact Hm | apply Hk].
  - exact Hm.
Qed.

Lemma frames_if {A} (b : bool) (m1 m2 : M A) :
  frames P m1 -> frames P m2 -> frames P (if b then m1 else m2).
Proof. destruct b; auto. Qed.
(** What the fetches and the alert detector leave untouched, given that
    reading the clock, sending a request and logging a line other than
    an alert do. *)
Hypothesis P_now : frames P now.
Hypothesis P_request : forall ep, frames P (request ep).
Hypothesis P_log : forall e, is_alert_event e = false -> frames P (emit e).

Lemma get_status_keeps : frames P get_status.
Proof.
  unfold get_status. apply frames_bind; [apply P_request | intros r].
  destruct r.
  - apply frames_ret.
  - apply frames_bind; [now apply P_log | intros _; apply frames_ret].
  - apply frames_lift.
Qed.

Lemma get_devices_keeps : frames P get_devices.
Proof.
  unfold get_devices. apply frames_bind; [apply P_request | intros r].
  destruct r.
  - apply frames_lift.
  - apply frames_bind; [now apply P_log | intros _; apply frames_ret].
  - apply frames_lift.
Qed.

Lemma get_pools_keeps : frames P get_pools.
Proof.
  unfold get_pools. apply frames_bind; [apply P_request | intros r].
  destruct r.
  - apply frames_lift.
  - apply frames_bind; [now apply P_log | intros _; apply frames_ret].
  - apply frames_lift.
Qed.

Lemma new_alert_keeps sev msg : frames P (new_alert sev msg).
Proof.
  unfold new_alert. apply frames_bind; [apply P_now | intros t].
  apply frames_ret.
Qed.

Lemma device_alerts_keeps device : frames P (device_alerts device).
Proof.
  unfold device_alerts.
  repeat first [ apply new_alert_keeps
               | apply frames_lift
               | apply frames_ret
               | apply frames_if
               | apply frames_bind; [| intros ?] ].
Qed.

Lemma devices_alerts_keeps devices : frames P (devices_alerts devices).
Proof.
  induction devices as [| device rest IH]; simpl.
  - apply frames_ret.
  - apply frames_bind; [apply device_alerts_keeps | intros here].
    apply frames_bind; [exact IH | intros later]. apply frames_ret.
Qed.

Lemma pool_alerts_keeps pools : frames P (pool_alerts pools).
Proof.
  unfold pool_alerts. apply frames_if; [| apply frames_ret].
  apply frames_bind; [apply frames_lift | intros items].
  apply frames_bind; [apply frames_lift | intros connected].
  destruct connected; [apply new_alert_keeps | apply frames_ret].
Qed.

Lemma check_alerts_keeps status devices pools :
  frames P (check_alerts status devices pools).
Proof.
  unfold check_alerts.
  repeat first [ apply new_alert_keeps
               | apply devices_alerts_keeps
               | apply pool_alerts_keeps
               | apply frames_lift
               | apply frames_ret
               | apply frames_if
               | apply frames_bind; [| intros ?] ].
Qed.

Lemma poll_and_detect_keeps : frames P poll_and_detect.
Proof.
  unfold poll_and_detect.
  apply frames_bind; [apply get_status_keeps | intros status].
  apply frames_bind; [apply get_devices_keeps | intros devices].
  apply frames_bind; [apply get_pools_keeps | intros pools].
  apply frames_bind; [apply check_alerts_keeps | intros alerts].
  apply frames_ret.
Qed.
End Frames.

(** *** Results up to capture time *)

Lemma related_ret l1 l2 :
  map content l1 = map content l2 -> related (ret l1) (ret l2).
Proof. intros H env1 st1 env2 st2. unfold same_content. simpl. now rewrite H. Qed.

Lemma related_new_alert sev msg : related (new_alert sev msg) (new_alert sev msg).
Proof. intros env1 st1 env2 st2. reflexivity. Qed.

Lemma related_lift_bind {A} (r : result A) (k1 k2 : A -> M (list alert)) :
  (forall a, related (k1 a) (k2 a)) ->
  related (bind (lift r) k1) (bind (lift r) k2).
Proof.
  intros Hk env1 st1 env2 st2. unfold bind, lift.
  destruct r as [a | e]; [apply Hk | reflexivity].
Qed.

Lemma related_bind (m1 m2 : M (list alert)) (k1 k2 : list alert -> M (list alert)) :
  related m1 m2 ->
  (forall l1 l2, map content l1 = map content l2 -> related (k1 l1) (k2 l2)) ->
  related (bind m1 k1) (bind m2 k2).
Proof.
  intros Hm Hk env1 st1 env2 st2. unfold bind.
  specialize (Hm env1 st1 env2 st2). unfold same_content in Hm.
  destruct (m1 env1 st1) as [[l1 | e1] s1], (m2 env2 st2) as [[l2 | e2] s2];
    simpl in Hm; try discriminate Hm.
  - apply Hk. now injection Hm.
  - exact Hm.
Qed.

Lemma related_if (b : bool) (m1 m2 n1 n2 : M (list alert)) :
  related m1 m2 -> related n1 n2 ->
  related (if b then m1 else n1) (if b then m2 else n2).
Proof. destruct b; auto. Qed.

Lemma related_nil : related (ret []) (ret []).
Proof. now apply related_ret. Qed.

Create HintDb related.
#[local] Hint Resolve related_new_alert related_nil : related.

Ltac related_step :=
  first [ apply related_lift_bind; intros ?
        | apply related_if
        | apply related_new_alert
        | apply related_nil ].

Lemma device_alerts_related device :
  related (device_alerts device) (device_alerts device).
Proof.
  unfold device_alerts.
  do 2 related_step.
  apply related_bind; [repeat related_step | intros hot1 hot2 Hhot].
  do 2 related_step.
  apply related_bind; [repeat related_step | intros slow1 slow2 Hslow].
  related_step.
  apply related_bind; [repeat related_step | intros idle1 idle2 Hidle].
  apply related_ret. rewrite !map_app. congruence.
Qed.

Lemma devices_alerts_related devices :
  related (devices_alerts devices) (devices_alerts devices).
Proof.
  induction devices as [| device rest IH]; simpl.
  - apply related_nil.
  - apply related_bind; [apply device_alerts_related | intros h1 h2 Hh].
    apply related_bind; [exact IH | intros l1 l2 Hl].
    apply related_ret. rewrite !map_app. congruence.
Qed.

Lemma pool_alerts_related pools :
  related (pool_alerts pools) (pool_alerts pools).
Proof.
  unfold pool_alerts. related_step; [| apply related_nil].
  do 2 related_step. destruct a0; auto with related.
Qed.

Lemma check_alerts_related status devices pools :
  related (check_alerts status devices pools)
          (check_alerts status devices pools).
Proof.
  unfold check_alerts.
  do 2 related_step; [apply related_new_alert |].
  do 2 related_step.
  apply related_bind; [repeat related_step | intros stopped1 stopped2 Hstopped].
  do 2 related_step.
  apply related_bind; [repeat related_step | intros weak1 weak2 Hweak].
  do 2 related_step.
  apply related_bind; [repeat related_step | intros faulty1 faulty2 Hfaulty].
  apply related_bind; [| intros dev1 dev2 Hdev].
  { related_step; [| apply related_nil].
    related_step. apply devices_alerts_related. }
  apply related_bind; [apply pool_alerts_related | intros pool1 pool2 Hpool].
  apply related_ret. rewrite !map_app. congruence.
Qed.

(** ** AlertDetector: the unresponsive API *)

(** C2.  Whenever the status is missing ([None], or any other falsy
    value) or is a dict whose [success] entry is absent or falsy,
    [check_alerts] returns exactly one alert, critical, with the message
    "API not responding", whatever the device and pool arguments are; the
    only effect of the call is the one clock reading that stamps the
    alert, so no device, pool or other check has run. *)
Theorem api_down_single_alert status devices pools env st :
  py_truthy status = false \/
  (exists d, status = JDict d /\
             py_truthy (dict_get d "success" JNull) = false) ->
  check_alerts status devices pools env st =
    (Ok [ {| a_type := critical;
             a_message := ApiNotResponding;
             a_timestamp := now_at env (clock_reads st) |} ],
     clock_read st)
  /\ message_text ApiNotResponding = "API not responding".
Proof.
  intros H. split; [| reflexivity].
  assert (Hdown : responsive status = Ok false).
  { unfold responsive. destruct H as [H | (d & -> & H)].
    - now rewrite H.
    - destruct d as [| kv d']; [reflexivity |].
      change (py_truthy (JDict (kv :: d'))) with true.
      unfold py_get, result_map. cbv iota. now rewrite H. }
  unfold check_alerts, bind, lift. rewrite Hdown. reflexivity.
Qed.

Lemma api_down_single_alert_witness :
  check_alerts (JDict [("success", JBool false)])
               (JList [JStr "not a device"]) (JList [JNull])
               unreachable_api initial_state =
    (Ok [ {| a_type := critical;
             a_message := ApiNotResponding;
             a_timestamp := 0 |} ],
     clock_read initial_state)
  /\ message_text ApiNotResponding = "API not responding".
Proof.
  apply (api_down_single_alert
           (JDict [("success", JBool false)])
           (JList [JStr "not a device"]) (JList [JNull])
           unreachable_api initial_state).
  right. exists [("success", JBool false)]. split; reflexivity.
Defined.

(** ** AlertDetector: dependence on the clock *)

(** C6, as stated, fails: two evaluations of [check_alerts] in a row on
    the same status, devices and pools return different lists, because
    each alert is stamped with [datetime.now()]. *)
Lemma check_alerts_twice_differs :
  exists first second st,
    check_alerts_twice JNull (JList []) (JList [])
                       unreachable_api initial_state
      = (Ok (first, second), st)
    /\ first <> second.
Proof.
  eexists _, _, _. split; [reflexivity |].
  intros H. discriminate H.
Qed.

(** C6, amended.  The severity and message of the alerts returned by
    [check_alerts], their order, and whether and what the call raises are
    a function of the status, devices and pools alone: two evaluations
    agree on them whatever the clock and the monitor's state are.  Only
    the capture times differ. *)
Theorem check_alerts_content_deterministic status devices pools
        env1 st1 env2 st2 :
  result_map (map content) (fst (check_alerts status devices pools env1 st1))
  = result_map (map content) (fst (check_alerts status devices pools env2 st2)).
Proof. apply check_alerts_related. Qed.

(** *** What the returned alerts look like *)

Lemma yields_ret {A} (Q : A -> Prop) (a : A) : Q a -> yields Q (ret a).
Proof. intros H env st a' st' E. apply ret_inv in E. destruct E as [E _]. now injection E as <-. Qed.

Lemma yields_bind {A B} (Q1 : A -> Prop) (Q : B -> Prop) (m : M A) (k : A -> M B) :
  yields Q1 m -> (forall a, Q1 a -> yields Q (k a)) -> yields Q (bind m k).
Proof.
  intros Hm Hk env st b st' E. apply bind_Ok in E.
  destruct E as (a & s & E1 & E2). eapply Hk; [eapply Hm |]; eassumption.
Qed.

Lemma yields_lift_bind {A B} (Q : B -> Prop) (r : result A) (k : A -> M B) :
  (forall a, yields Q (k a)) -> yields Q (bind (lift r) k).
Proof.
  intros Hk. apply (yields_bind (fun _ => True)); [easy | auto].
Qed.

Lemma yields_if {A} (Q : A -> Prop) (b : bool) (m1 m2 : M A) :
  yields Q m1 -> yields Q m2 -> yields Q (if b then m1 else m2).
Proof. destruct b; auto. Qed.

Lemma yields_new_alert (Q : list alert -> Prop) sev msg :
  (forall t, Q [ {| a_type := sev; a_message := msg; a_timestamp := t |} ]) ->
  yields Q (new_alert sev msg).
Proof.
  intros H env st l st' E. unfold new_alert, bind, now, ret in E.
  injection E as <- _. apply H.
Qed.

Lemma free_of_app p l1 l2 : free_of p l1 -> free_of p l2 -> free_of p (l1 ++ l2).
Proof. unfold free_of. intros H1 H2. now rewrite filter_app, H1, H2. Qed.

Ltac yields_step :=
  first [ apply yields_lift_bind; intros ?
        | apply yields_if
        | apply yields_new_alert; intros ?; reflexivity
        | apply yields_ret; reflexivity ].

Lemma device_alerts_free_of_no_pools device :
  yields (free_of is_no_pools) (device_alerts device).
Proof.
  unfold device_alerts. do 2 yields_step.
  apply (yields_bind (free_of is_no_pools)); [repeat yields_step | intros hot Hhot].
  do 2 yields_step.
  apply (yields_bind (free_of is_no_pools)); [repeat yields_step | intros slow Hslow].
  yields_step.
  apply (yields_bind (free_of is_no_pools)); [repeat yields_step | intros idle Hidle].
  apply yields_ret. auto using free_of_app.
Qed.

Lemma devices_alerts_free_of_no_pools devices :
  yields (free_of is_no_pools) (devices_alerts devices).
Proof.
  induction devices as [| device rest IH]; simpl.
  - now apply yields_ret.
  - apply (yields_bind (free_of is_no_pools)); [apply device_alerts_free_of_no_pools | intros h Hh].
    apply (yields_bind (free_of is_no_pools)); [exact IH | intros l Hl].
    apply yields_ret. auto using free_of_app.
Qed.

Lemma py_get_field entry key v :
  py_get entry key JNull = Ok v -> v = field key entry.
Proof. destruct entry; simpl; intros H; now inversion H. Qed.

Lemma connected_pools_filter pools c :
  connected_pools pools = Ok c -> c = filter pool_is_connected pools.
Proof.
  revert c. induction pools as [| p rest IH]; simpl; intros c H.
  - now injection H as <-.
  - unfold result_bind in H.
    destruct (py_get p "status" JNull) as [st | e] eqn:Est; [| discriminate].
    apply py_get_field in Est. subst st.
    destruct (connected_pools rest) as [others | e]; [| discriminate].
    injection H as <-. unfold pool_is_connected at 1.
    rewrite (IH others eq_refl). reflexivity.
Qed.

Lemma existsb_false_filter {A} (p : A -> bool) (l : list A) :
  existsb p l = false -> filter p l = [].
Proof.
  induction l as [| x l IH]; simpl; [reflexivity |].
  destruct (p x); simpl; [discriminate | exact IH].
Qed.

Lemma existsb_true_filter {A} (p : A -> bool) (l : list A) :
  existsb p l = true -> filter p l <> [].
Proof.
  induction l as [| x l IH]; simpl; [discriminate |].
  destruct (p x); simpl; [discriminate | exact IH].
Qed.

(** ** AlertDetector: the pool check *)

(** C7, as stated, fails: with a status that reports [success: false],
    or with no status at all, the pool list [[{status: Disconnected}]] is
    non-empty and holds no connected pool, yet the only alert returned is
    "API not responding": the pool check is not reached. *)
Lemma no_pool_alert_when_api_down :
  existsb pool_is_connected [pool_with_status "Disconnected"] = false
  /\ fst (check_alerts failed_status (JList [])
                       (JList [pool_with_status "Disconnected"])
                       unreachable_api initial_state)
     = Ok [ {| a_type := critical; a_message := ApiNotResponding;
               a_timestamp := 0 |} ]
  /\ fst (check_alerts JNull (JList [])
                       (JList [pool_with_status "Disconnected"])
                       unreachable_api initial_state)
     = Ok [ {| a_type := critical; a_message := ApiNotResponding;
               a_timestamp := 0 |} ]
  /\ filter is_no_pools
       [ {| a_type := critical; a_message := ApiNotResponding;
            a_timestamp := 0 |} ] = [].
Proof. repeat split; reflexivity. Qed.

(** C7, amended.  The pool check of [check_alerts] stands behind the API
    gate.  When the call gets past the gate (the status is present and
    its [success] entry is truthy) and returns, the check is asymmetric:
    for a non-empty pool list none of whose entries has
    [status == Connected] the returned alerts contain exactly one
    "No pools connected" alert, and it is critical; for the empty pool
    list they contain none.  (A list with a connected pool gives none
    either.)  When the call stops at the gate (the status is missing or
    its [success] entry is absent or falsy), the returned alerts contain
    no "No pools connected" alert, whatever the pool list is. *)
Theorem pool_check_asymmetric status devices pools env st alerts st' :
  check_alerts status devices (JList pools) env st = (Ok alerts, st') ->
  (responsive status = Ok true ->
   (pools <> [] -> existsb pool_is_connected pools = false ->
    exists t, filter is_no_pools alerts =
              [ {| a_type := critical;
                   a_message := NoPoolsConnected;
                   a_timestamp := t |} ])
   /\ (pools = [] -> filter is_no_pools alerts = [])
   /\ (existsb pool_is_connected pools = true ->
       filter is_no_pools alerts = []))
  /\ (responsive status = Ok false -> filter is_no_pools alerts = []).
Proof.
  intros H. unfold check_alerts in H.
  apply bind_Ok in H. destruct H as (up & s0 & Hresp & H).
  apply lift_inv in Hresp. destruct Hresp as [Hresp ->].
  split; intros Hup; rewrite Hup in Hresp; injection Hresp as <-;
    cbv [negb] in H.
  2: { unfold new_alert, bind, now, ret in H. injection H as <- _.
       reflexivity. }
  apply bind_Ok in H. destruct H as (data & s1 & _ & H).
  apply bind_Ok in H. destruct H as (mining_state & s2 & _ & H).
  apply bind_Ok in H. destruct H as (stopped & s3 & Hstopped & H).
  apply bind_Ok in H. destruct H as (total_hashrate & s4 & _ & H).
  apply bind_Ok in H. destruct H as (low & s5 & _ & H).
  apply bind_Ok in H. destruct H as (weak & s6 & Hweak & H).
  apply bind_Ok in H. destruct H as (hardware_errors & s7 & _ & H).
  apply bind_Ok in H. destruct H as (many & s8 & _ & H).
  apply bind_Ok in H. destruct H as (faulty & s9 & Hfaulty & H).
  apply bind_Ok in H. destruct H as (per_device & s10 & Hdev & H).
  apply bind_Ok in H. destruct H as (per_pool & s11 & Hpool & H).
  apply ret_inv in H. destruct H as [H _]. injection H as ->.
  assert (F1 : free_of is_no_pools stopped).
  { revert Hstopped. apply yields_if; yields_step. }
  assert (F2 : free_of is_no_pools weak).
  { revert Hweak. apply yields_if; repeat yields_step. }
  assert (F3 : free_of is_no_pools faulty).
  { revert Hfaulty. apply yields_if; yields_step. }
  assert (F4 : free_of is_no_pools per_device).
  { revert Hdev. apply yields_if; [| yields_step].
    yields_step. apply devices_alerts_free_of_no_pools. }
  unfold free_of in *.
  rewrite !filter_app, F1, F2, F3, F4. simpl.
  clear - Hpool. unfold pool_alerts in Hpool.
  destruct pools as [| p rest].
  - simpl in Hpool. apply ret_inv in Hpool. destruct Hpool as [E _].
    injection E as ->. split; [| split].
    + intros H; now elim H.
    + reflexivity.
    + reflexivity.
  - change (py_truthy (JList (p :: rest))) with true in Hpool. cbv iota in Hpool.
    apply bind_Ok in Hpool. destruct Hpool as (items & s & Hitems & Hpool).
    apply lift_inv in Hitems. destruct Hitems as [Hitems ->].
    injection Hitems as <-.
    apply bind_Ok in Hpool. destruct Hpool as (connected & s & Hconn & Hpool).
    apply lift_inv in Hconn. destruct Hconn as [Hconn ->].
    apply connected_pools_filter in Hconn. subst connected.
    split; [| split].
    + intros _ Hnone. rewrite (existsb_false_filter _ _ Hnone) in Hpool.
      unfold new_alert, bind, now, ret in Hpool. injection Hpool as <- _.
      eexists. reflexivity.
    + discriminate.
    + intros Hsome. apply existsb_true_filter in Hsome.
      destruct (filter pool_is_connected (p :: rest)); [now elim Hsome |].
      apply ret_inv in Hpool. destruct Hpool as [E _]. now injection E as ->.
Qed.

Lemma pool_check_asymmetric_witness :
  exists t,
    filter is_no_pools
      [ {| a_type := critical; a_message := NoPoolsConnected;
           a_timestamp := 0 |} ]
    = [ {| a_type := critical; a_message := NoPoolsConnected;
           a_timestamp := t |} ].
Proof.
  refine (proj1 (proj1 (pool_check_asymmetric
                          (running_status (JFloat 45.0%float)) (JList [])
                          [pool_with_status "Disconnected"]
                          unreachable_api initial_state _ _ eq_refl)
                       eq_refl)
                _ eq_refl).
  discriminate.
Defined.

(** ** StatusClient: what a fetch returns *)

Lemma get_status_inv env st status st' :
  get_status env st = (Ok status, st') ->
  requests_sent st' = S (requests_sent st) /\
  (reply_at env (requests_sent st) StatusEndpoint = Replied status \/
   (reply_at env (requests_sent st) StatusEndpoint = RequestException /\
    status = JNull)).
Proof.
  unfold get_status, bind, request, emit, ret, lift.
  destruct (reply_at env (requests_sent st) StatusEndpoint) as [body | |];
    intros H; inversion H; subst; simpl; auto.
Qed.

Lemma get_devices_inv env st devices st' :
  get_devices env st = (Ok devices, st') ->
  requests_sent st' = S (requests_sent st) /\
  ((exists body,
      reply_at env (requests_sent st) DevicesEndpoint = Replied body /\
      py_get body "data" (JList []) = Ok devices) \/
   (reply_at env (requests_sent st) DevicesEndpoint = RequestException /\
    devices = JNull)).
Proof.
  unfold get_devices, bind, request, emit, ret, lift.
  destruct (reply_at env (requests_sent st) DevicesEndpoint) as [body | |];
    intros H; inversion H; subst; simpl; eauto.
Qed.

Lemma status_phase_state (api : bool) status env st sc st' :
  (if api then lift (status_checks status) else ret (false, false)) env st
    = (Ok sc, st') ->
  st' = st /\
  (if api then status_checks status = Ok sc else sc = (false, false)).
Proof.
  destruct api; intros H.
  - apply lift_inv in H. tauto.
  - apply ret_inv in H. destruct H as [H ->]. injection H as ->. auto.
Qed.

(** Everything a returning [check_health] went through. *)
Lemma check_health_inv env st h st' :
  check_health env st = (Ok h, st') ->
  exists status s1 api sc devices s2 dev pools pool,
    get_status env st = (Ok status, s1) /\
    responsive status = Ok api /\
    (if api then status_checks status = Ok sc else sc = (false, false)) /\
    get_devices env s1 = (Ok devices, s2) /\
    devices_check devices = Ok dev /\
    get_pools env s2 = (Ok pools, st') /\
    pools_check pools = Ok pool /\
    h = {| api_responsive := api; mining_active := fst sc;
           devices_healthy := dev; pools_connected := pool;
           temperature_ok := dev; hashrate_ok := snd sc |}.
Proof.
  intros H. unfold check_health in H.
  apply bind_Ok in H. destruct H as (status & s1 & Hstatus & H).
  apply bind_Ok in H. destruct H as (api & s & Hapi & H).
  apply lift_inv in Hapi. destruct Hapi as [Hapi ->].
  apply bind_Ok in H. destruct H as (sc & s & Hsc & H).
  apply status_phase_state in Hsc. destruct Hsc as [-> Hsc].
  apply bind_Ok in H. destruct H as (devices & s2 & Hdevices & H).
  apply bind_Ok in H. destruct H as (dev & s & Hdev & H).
  apply lift_inv in Hdev. destruct Hdev as [Hdev ->].
  apply bind_Ok in H. destruct H as (pools & s3 & Hpools & H).
  apply bind_Ok in H. destruct H as (pool & s & Hpool & H).
  apply lift_inv in Hpool. destruct Hpool as [Hpool ->].
  apply ret_inv in H. destruct H as [H ->]. injection H as ->.
  exists status, s1, api, sc, devices, s2, dev, pools, pool.
  repeat split; assumption.
Qed.

(** ** HealthEvaluator: the device check *)

Lemma device_is_healthy_meets device b :
  device_is_healthy device = Ok b -> b = meets_thresholds device.
Proof.
  destruct device; try discriminate.
  unfold device_is_healthy, meets_thresholds, py_get, result_bind.
  destruct (py_eq_str (dict_get d "status" JNull) "Mining"); simpl.
  - destruct (py_lt (dict_get d "temperature" (JInt 0)) MAX_TEMPERATURE)
      as [[|] | e]; simpl; try congruence.
    destruct (py_gt (dict_get d "hashrate" (JInt 0)) MIN_DEVICE_HASHRATE)
      as [[|] | e]; simpl; congruence.
  - congruence.
Qed.

Lemma count_healthy_filter devices n :
  count_healthy devices = Ok n ->
  n = Z.of_nat (List.length (filter meets_thresholds devices)).
Proof.
  revert n. induction devices as [| device rest IH]; simpl; intros n H.
  - now injection H as <-.
  - unfold result_bind in H.
    destruct (device_is_healthy device) as [b | e] eqn:Eb; [| discriminate].
    apply device_is_healthy_meets in Eb. subst b.
    destruct (count_healthy rest) as [m | e]; [| discriminate].
    injection H as <-. rewrite (IH m eq_refl).
    destruct (meets_thresholds device); simpl List.length; lia.
Qed.

Lemma devices_check_list items b :
  devices_check (JList items) = Ok b ->
  (b = true <->
   items <> [] /\
   fraction_at_least_0_8
     (Z.of_nat (List.length (filter meets_thresholds items)))
     (Z.of_nat (List.length items)) = true).
Proof.
  unfold devices_check. destruct items as [| d rest].
  - simpl. intros H. injection H as <-. split; [discriminate | tauto].
  - change (py_truthy (JList (d :: rest))) with true. cbv iota.
    assert (Hne : d :: rest <> []) by discriminate.
    assert (Hlen : (0 <? Z.of_nat (List.length (d :: rest))) = true)
      by (apply Z.ltb_lt; simpl List.length; lia).
    revert Hne Hlen. generalize (d :: rest). intros items Hne Hlen.
    unfold py_len, py_iter, result_bind.
    destruct (count_healthy items) as [n | e] eqn:En; [| discriminate].
    apply count_healthy_filter in En. subst n.
    intros H. injection H as <-. rewrite Hlen.
    unfold fraction_at_least_0_8. cbv [andb]. tauto.
Qed.

Lemma fraction_test_exact_upto_200 : fraction_test_exact_upto 200 = true.
Proof. vm_compute. reflexivity. Qed.

Lemma fraction_test_exact_upto_spec (bound part total : nat) :
  fraction_test_exact_upto bound = true ->
  (part <= total)%nat -> (1 <= total <= bound)%nat ->
  fraction_at_least_0_8 (Z.of_nat part) (Z.of_nat total)
  = (4 * Z.of_nat total <=? 5 * Z.of_nat part).
Proof.
  intros Hall Hpart Htotal.
  unfold fraction_test_exact_upto in Hall.
  rewrite forallb_forall in Hall.
  specialize (Hall total). rewrite forallb_forall in Hall.
  apply Bool.eqb_prop. apply Hall; apply in_seq; lia.
Qed.

(** For up to 200 devices the binary64 test of the fraction is the exact
    comparison with 4/5. *)
Lemma fraction_test_exact (part total : nat) :
  (part <= total)%nat -> (1 <= total <= 200)%nat ->
  fraction_at_least_0_8 (Z.of_nat part) (Z.of_nat total)
  = (4 * Z.of_nat total <=? 5 * Z.of_nat part).
Proof.
  apply fraction_test_exact_upto_spec. exact fraction_test_exact_upto_200.
Qed.



(** ** HealthEvaluator: the hashrate check *)

Lemma responsive_dict d :
  responsive (JDict d) = Ok (py_truthy (dict_get d "success" JNull)).
Proof. destruct d as [| kv d']; reflexivity. Qed.

Lemma responsive_true_inv status :
  responsive status = Ok true ->
  exists d, status = JDict d /\ py_truthy (dict_get d "success" JNull) = true.
Proof.
  destruct status; unfold responsive;
    try (destruct (py_truthy _); simpl; discriminate).
  fold (responsive (JDict d)). rewrite responsive_dict.
  intros H. injection H as H. now exists d.
Qed.

(** C8, as stated, fails: a status that is present and carries
    [total_hashrate = 45.0 > 30.0], but reports [success: false], gets
    [hashrate_ok = false]. *)
Lemma hashrate_ok_false_on_failed_status :
  exists h st',
    check_health (steady_api failed_status (JList []) (JList []))
                 initial_state = (Ok h, st')
    /\ py_truthy failed_status = true
    /\ (exists data total_hashrate,
          py_get failed_status "data" (JDict []) = Ok data /\
          py_get data "total_hashrate" (JInt 0) = Ok total_hashrate /\
          py_gt total_hashrate MIN_TOTAL_HASHRATE = Ok true)
    /\ hashrate_ok h = false.
Proof.
  eexists _, _. split; [reflexivity |]. split; [reflexivity |].
  split; [| reflexivity].
  eexists _, _. repeat split; reflexivity.
Qed.

(** When [hashrate_ok] is set. *)
Lemma hashrate_ok_characterised env st h st' :
  check_health env st = (Ok h, st') ->
  (hashrate_ok h = true <->
   exists d total_hashrate,
     reply_at env (requests_sent st) StatusEndpoint = Replied (JDict d) /\
     py_truthy (dict_get d "success" JNull) = true /\
     py_get (dict_get d "data" (JDict [])) "total_hashrate" (JInt 0)
       = Ok total_hashrate /\
     py_gt total_hashrate MIN_TOTAL_HASHRATE = Ok true).
Proof.
  intros H. apply check_health_inv in H.
  destruct H as (status & s1 & api & sc & devices & s2 & dev & pools & pool
                 & Hstatus & Hapi & Hsc & _ & _ & _ & _ & ->).
  simpl hashrate_ok.
  apply get_status_inv in Hstatus. destruct Hstatus as [_ Hreply].
  split.
  - intros Hok. destruct api; [| subst sc; discriminate Hok].
    destruct (responsive_true_inv _ Hapi) as (d & -> & Hsuccess).
    destruct Hreply as [Hreply | [_ Hnull]]; [| discriminate Hnull].
    unfold status_checks, result_bind in Hsc. simpl py_get at 1 in Hsc.
    cbv beta iota in Hsc.
    destruct (py_get (dict_get d "data" (JDict [])) "mining_state" JNull)
      as [mining_state | e]; [| discriminate].
    destruct (py_get (dict_get d "data" (JDict [])) "total_hashrate" (JInt 0))
      as [total_hashrate | e] eqn:Eth; [| discriminate].
    destruct (py_gt total_hashrate MIN_TOTAL_HASHRATE) as [enough | e] eqn:Egt;
      [| discriminate].
    injection Hsc as <-. simpl in Hok. subst enough.
    exists d, total_hashrate. auto.
  - intros (d & total_hashrate & Hreplied & Hsuccess & Hth & Hgt).
    destruct Hreply as [Hreply | [Hreply _]]; [| congruence].
    assert (status = JDict d) by congruence. subst status.
    rewrite responsive_dict, Hsuccess in Hapi. injection Hapi as <-.
    unfold status_checks, result_bind in Hsc. simpl py_get at 1 in Hsc.
    cbv beta iota in Hsc.
    destruct (dict_get d "data" (JDict [])) as [| | | | | | data];
      try discriminate Hth.
    simpl py_get in Hsc, Hth. injection Hth as <-.
    cbv beta iota in Hsc. rewrite Hgt in Hsc. injection Hsc as <-. reflexivity.
Qed.

(** C8, amended.  In every report [check_health] returns, [hashrate_ok]
    is true iff the status request was answered with a dict whose
    [success] entry is truthy and whose [data] has a [total_hashrate]
    (0 when absent) above 30.0. *)
Theorem hashrate_ok_iff env st h st' :
  check_health env st = (Ok h, st') ->
  (hashrate_ok h = true <->
   exists d total_hashrate,
     reply_at env (requests_sent st) StatusEndpoint = Replied (JDict d) /\
     py_truthy (dict_get d "success" JNull) = true /\
     py_get (dict_get d "data" (JDict [])) "total_hashrate" (JInt 0)
       = Ok total_hashrate /\
     py_gt total_hashrate MIN_TOTAL_HASHRATE = Ok true).
Proof. apply hashrate_ok_characterised. Qed.

Lemma hashrate_ok_iff_witness :
  exists h st',
    check_health (steady_api (running_status (JFloat 45.0%float))
                             (JList []) (JList []))
                 initial_state = (Ok h, st')
    /\ hashrate_ok h = true.
Proof.
  eexists _, _. split; [reflexivity |].
  apply (proj2 (hashrate_ok_iff
                  (steady_api (running_status (JFloat 45.0%float))
                              (JList []) (JList []))
                  initial_state _ _ eq_refl)).
  eexists _, _. repeat split; reflexivity.
Defined.

(** ** PerformanceHistory *)

Lemma get_status_frames : frames same_clock_and_history get_status.
Proof.
  intros env st. unfold get_status, bind, request, emit, ret, lift.
  destruct (reply_at env (requests_sent st) StatusEndpoint); split; reflexivity.
Qed.

Lemma get_devices_frames : frames same_clock_and_history get_devices.
Proof.
  intros env st. unfold get_devices, bind, request, emit, ret, lift.
  destruct (reply_at env (requests_sent st) DevicesEndpoint) as [body | |];
    split; reflexivity.
Qed.

Lemma get_pools_frames : frames same_clock_and_history get_pools.
Proof.
  intros env st. unfold get_pools, bind, request, emit, ret, lift.
  destruct (reply_at env (requests_sent st) PoolsEndpoint) as [body | |];
    split; reflexivity.
Qed.

Lemma dict_get_truthy d key :
  py_truthy (dict_get d key JNull) = true ->
  dict_get d key (JInt 0) = dict_get d key JNull.
Proof.
  induction d as [| [k v] rest IH]; simpl.
  - discriminate.
  - destruct (String.eqb k key); auto.
Qed.

Lemma present_values_filter key devices values :
  present_values key devices = Ok values ->
  values = filter py_truthy (map (field key) devices).
Proof.
  revert values. induction devices as [| d rest IH]; simpl; intros values H.
  - now injection H as <-.
  - unfold result_bind in H.
    destruct d as [| | | | | | b]; try discriminate H.
    simpl py_get in H. cbv beta iota in H.
    destruct (present_values key rest) as [others | e]; [| discriminate].
    injection H as <-. rewrite (IH others eq_refl). simpl field.
    destruct (py_truthy (dict_get b key JNull)) eqn:E; [| reflexivity].
    now rewrite dict_get_truthy.
Qed.

(** Everything a returning [collect_performance_metrics] went through:
    with a responsive status, one sample stamped with the clock reading
    of that moment is appended, and the history is then cut at the next
    clock reading minus 24 hours. *)
Lemma collect_performance_metrics_inv env st st' :
  collect_performance_metrics env st = (Ok tt, st') ->
  exists status s1 devices s2 up,
    get_status env st = (Ok status, s1) /\
    get_devices env s1 = (Ok devices, s2) /\
    responsive status = Ok up /\
    if up then
      exists sample arrays,
        m_timestamp sample = now_at env (clock_reads st) /\
        device_arrays devices = Ok arrays /\
        m_device_temperatures sample = fst arrays /\
        m_device_hashrates sample = snd arrays /\
        performance_history st' =
          keep_after (now_at env (S (clock_reads st)) - RETENTION)
                     (performance_history st ++ [sample])
    else performance_history st' = performance_history st.
Proof.
  intros H. unfold collect_performance_metrics in H.
  apply bind_Ok in H. destruct H as (status & s1 & Hstatus & H).
  apply bind_Ok in H. destruct H as (devices & s2 & Hdevices & H).
  apply bind_Ok in H. destruct H as (up & s3 & Hup & H).
  apply lift_inv in Hup. destruct Hup as [Hup Es3]. subst s3.
  exists status, s1, devices, s2, up. repeat split; try assumption.
  pose proof (get_status_frames env st) as [Hc1 Hh1].
  pose proof (get_devices_frames env s1) as [Hc2 Hh2].
  rewrite Hstatus in Hc1, Hh1. rewrite Hdevices in Hc2, Hh2.
  simpl snd in Hc1, Hh1, Hc2, Hh2.
  destruct up.
  - apply bind_Ok in H. destruct H as (data & s4 & E & H).
    apply lift_inv in E. destruct E as [_ Es]. subst s4.
    apply bind_Ok in H. destruct H as (stamp & s5 & Hstamp & H).
    unfold now in Hstamp. injection Hstamp as Estamp Es5.
    apply bind_Ok in H. destruct H as (total_hashrate & s6 & E & H).
    apply lift_inv in E. destruct E as [_ Es]. subst s6.
    apply bind_Ok in H. destruct H as (accepted_shares & s7 & E & H).
    apply lift_inv in E. destruct E as [_ Es]. subst s7.
    apply bind_Ok in H. destruct H as (rejected_shares & s8 & E & H).
    apply lift_inv in E. destruct E as [_ Es]. subst s8.
    apply bind_Ok in H. destruct H as (hardware_errors & s9 & E & H).
    apply lift_inv in E. destruct E as [_ Es]. subst s9.
    apply bind_Ok in H. destruct H as (active_devices & s10 & E & H).
    apply lift_inv in E. destruct E as [_ Es]. subst s10.
    apply bind_Ok in H. destruct H as (uptime & s11 & E & H).
    apply lift_inv in E. destruct E as [_ Es]. subst s11.
    apply bind_Ok in H. destruct H as (arrays & s12 & Harrays & H).
    apply lift_inv in Harrays. destruct Harrays as [Harrays Es]. subst s12.
    unfold bind, ret, get_history, set_history, now in H.
    injection H as Est'. subst st' s5 stamp. simpl.
    exists {| m_timestamp := now_at env (clock_reads s2);
              m_total_hashrate := total_hashrate;
              m_accepted_shares := accepted_shares;
              m_rejected_shares := rejected_shares;
              m_hardware_errors := hardware_errors;
              m_active_devices := active_devices;
              m_uptime := uptime;
              m_device_temperatures := fst arrays;
              m_device_hashrates := snd arrays |}, arrays.
    simpl. rewrite Hh2, Hh1, Hc2, Hc1.
    split; [reflexivity |]. split; [exact Harrays |].
    split; [reflexivity |]. split; reflexivity.
  - apply ret_inv in H. destruct H as [_ ->]. now rewrite Hh2, Hh1.
Qed.

(** With a responsive status the call appends one sample, stamped with
    the clock reading taken while it is built, and then keeps the samples
    later than the next clock reading minus 24 hours. *)
Lemma append_and_evict env st st' status :
  collect_performance_metrics env st = (Ok tt, st') ->
  reply_at env (requests_sent st) StatusEndpoint = Replied status ->
  responsive status = Ok true ->
  exists sample devices arrays s1 s2,
    get_devices env s1 = (Ok devices, s2) /\
    requests_sent s1 = S (requests_sent st) /\
    device_arrays devices = Ok arrays /\
    m_device_temperatures sample = fst arrays /\
    m_device_hashrates sample = snd arrays /\
    m_timestamp sample = now_at env (clock_reads st) /\
    performance_history st' =
      keep_after (now_at env (S (clock_reads st)) - RETENTION)
                 (performance_history st ++ [sample]).
Proof.
  intros H Hreply Hup. apply collect_performance_metrics_inv in H.
  destruct H as (status0 & s1 & devices & s2 & up & Hstatus & Hdevices & Hup0 & H).
  apply get_status_inv in Hstatus. destruct Hstatus as [Hsent Hstatus].
  destruct Hstatus as [Hreply' | [Hreply' _]]; [| congruence].
  assert (status0 = status) by congruence. subst status0.
  assert (up = true) by congruence. subst up.
  destruct H as (sample & arrays & Hstamp & Harrays & Htemp & Hhash & Hhist).
  exists sample, devices, arrays, s1, s2. auto 10.
Qed.

(** C3, as stated, fails.  The sample is stamped at one reading of the
    clock and the cutoff is taken from a second reading: here the sample
    of hour 0 is evicted although it is less than 24 hours older than the
    new sample, so the cutoff is not the new sample's timestamp minus 24
    hours; and with the same new sample and the same prior history, a
    clock that stands still between the two readings keeps it. *)
Lemma eviction_cutoff_is_not_sample_time :
  let sample := running_sample_at (RETENTION - 1) in
  let before := state_with_history [sample_at 0] in
  let api := steady_api_at clock_moving_on (running_status (JFloat 45.0%float))
                           (JList []) (JList []) in
  let api' := steady_api_at clock_standing (running_status (JFloat 45.0%float))
                            (JList []) (JList []) in
  exists st' st'',
    collect_performance_metrics api before = (Ok tt, st')
    /\ performance_history st' = [sample]
    /\ keep_after (m_timestamp sample - RETENTION)
                  (performance_history before ++ [sample])
       = [sample_at 0; sample]
    /\ collect_performance_metrics api' before = (Ok tt, st'')
    /\ performance_history st'' = [sample_at 0; sample].
Proof.
  eexists _, _. repeat split; vm_compute; reflexivity.
Qed.

(** C3, amended.  When [collect_performance_metrics] appends (the status
    request was answered with a responsive status), the new sample is
    stamped with the clock reading taken while it is built, and the
    cutoff of the eviction is the next reading of the wall clock, taken
    after the append, minus 24 hours: the history becomes the samples of
    the prior history and the new one whose timestamp is strictly later
    than that cutoff. *)
Theorem eviction_anchored_to_wall_clock env st st' status :
  collect_performance_metrics env st = (Ok tt, st') ->
  reply_at env (requests_sent st) StatusEndpoint = Replied status ->
  responsive status = Ok true ->
  exists sample,
    m_timestamp sample = now_at env (clock_reads st) /\
    performance_history st' =
      keep_after (now_at env (S (clock_reads st)) - RETENTION)
                 (performance_history st ++ [sample]).
Proof.
  intros H Hreply Hup.
  destruct (append_and_evict _ _ _ _ H Hreply Hup)
    as (sample & devices & arrays & s1 & s2 & _ & _ & _ & _ & _ & Hstamp & Hhist).
  now exists sample.
Qed.

Lemma eviction_anchored_to_wall_clock_witness :
  exists sample,
    m_timestamp sample = RETENTION - 1 /\
    [running_sample_at (RETENTION - 1)] =
      keep_after (RETENTION + 5 - RETENTION) ([sample_at 0] ++ [sample]).
Proof.
  apply (eviction_anchored_to_wall_clock
           (steady_api_at clock_moving_on (running_status (JFloat 45.0%float))
                          (JList []) (JList []))
           (state_with_history [sample_at 0])
           {| clock_reads := 2; requests_sent := 2; sleeps_begun := 0;
              trace := [];
              performance_history := [running_sample_at (RETENTION - 1)] |}
           (running_status (JFloat 45.0%float)));
    reflexivity.
Defined.

(** C1, as stated, fails: when the wall clock is set back between the
    stamping of the new sample and the computation of the cutoff, a
    sample more than 24 hours older than the newly appended one is
    retained. *)
Lemma retention_exceeded_when_clock_set_back :
  let newest := running_sample_at (25 * HOUR) in
  let oldest := sample_at (HOUR / 2) in
  exists st',
    collect_performance_metrics
      (steady_api_at clock_set_back (running_status (JFloat 45.0%float))
                     (JList []) (JList []))
      (state_with_history [oldest]) = (Ok tt, st')
    /\ performance_history st' = [oldest; newest]
    /\ ~ (m_timestamp newest - m_timestamp oldest <= RETENTION).
Proof.
  eexists. split; [vm_compute; reflexivity |].
  split; [reflexivity |]. vm_compute. intros H. now apply H.
Qed.

(** C1, amended.  After every append by [collect_performance_metrics]
    during which the wall clock was not set back between the stamping of
    the new sample and the computation of the cutoff, every retained
    sample has a timestamp within 24 hours of the newly appended sample's
    timestamp. *)
Theorem retention_window env st st' status :
  collect_performance_metrics env st = (Ok tt, st') ->
  reply_at env (requests_sent st) StatusEndpoint = Replied status ->
  responsive status = Ok true ->
  now_at env (clock_reads st) <= now_at env (S (clock_reads st)) ->
  exists newest cutoff_time,
    m_timestamp newest = now_at env (clock_reads st) /\
    performance_history st' =
      keep_after cutoff_time (performance_history st ++ [newest]) /\
    forall s, In s (performance_history st') ->
              m_timestamp newest - m_timestamp s <= RETENTION.
Proof.
  intros H Hreply Hup Hclock.
  destruct (append_and_evict _ _ _ _ H Hreply Hup)
    as (sample & devices & arrays & s1 & s2 & _ & _ & _ & _ & _ & Hstamp & Hhist).
  exists sample, (now_at env (S (clock_reads st)) - RETENTION).
  split; [exact Hstamp |]. split; [exact Hhist |].
  intros s Hin. rewrite Hhist in Hin. unfold keep_after in Hin.
  apply filter_In in Hin. destruct Hin as [_ Hlater].
  apply Z.ltb_lt in Hlater. lia.
Qed.

Lemma retention_window_witness :
  exists newest cutoff_time,
    m_timestamp newest = RETENTION - 1 /\
    [running_sample_at (RETENTION - 1)] =
      keep_after cutoff_time ([sample_at 0] ++ [newest]) /\
    forall s, In s [running_sample_at (RETENTION - 1)] ->
              m_timestamp newest - m_timestamp s <= RETENTION.
Proof.
  apply (retention_window
           (steady_api_at clock_moving_on (running_status (JFloat 45.0%float))
                          (JList []) (JList []))
           (state_with_history [sample_at 0])
           {| clock_reads := 2; requests_sent := 2; sleeps_begun := 0;
              trace := [];
              performance_history := [running_sample_at (RETENTION - 1)] |}
           (running_status (JFloat 45.0%float)));
    try reflexivity.
  vm_compute. discriminate.
Defined.

(** ** MetricSample: the per-device arrays *)

(** C9, as stated, fails: the hashrate of an idle device is present (it
    is 0.0), yet [device_hashrates] has no entry for it; the filter of the
    comprehension is the truth value of the field, not its presence. *)
Lemma zero_hashrate_is_omitted :
  exists sample st',
    collect_performance_metrics
      (steady_api (running_status (JFloat 45.0%float))
                  (JList [idle_device]) (JList []))
      initial_state = (Ok tt, st')
    /\ performance_history st' = [sample]
    /\ py_get idle_device "hashrate" JNull = Ok (JFloat 0%float)
    /\ m_device_temperatures sample = Some [JFloat 45.5%float]
    /\ m_device_hashrates sample = Some [].
Proof.
  eexists _, _. repeat split; vm_compute; reflexivity.
Qed.

(** C9, amended.  When a sample is built with a non-empty device list,
    its [device_temperatures] and [device_hashrates] arrays contain, in
    device order, exactly the temperature (respectively hashrate) values
    that are truthy: present and neither [None], zero, [False] nor empty.
    No entry is omitted for a device whose value is truthy. *)
Theorem device_arrays_hold_truthy_values env st st' status body items :
  collect_performance_metrics env st = (Ok tt, st') ->
  reply_at env (requests_sent st) StatusEndpoint = Replied status ->
  responsive status = Ok true ->
  reply_at env (S (requests_sent st)) DevicesEndpoint = Replied body ->
  py_get body "data" (JList []) = Ok (JList items) ->
  items <> [] ->
  exists sample cutoff_time,
    performance_history st' =
      keep_after cutoff_time (performance_history st ++ [sample]) /\
    m_device_temperatures sample =
      Some (filter py_truthy (map (field "temperature") items)) /\
    m_device_hashrates sample =
      Some (filter py_truthy (map (field "hashrate") items)).
Proof.
  intros H Hreply Hup Hdev Hdata Hne.
  destruct (append_and_evict _ _ _ _ H Hreply Hup)
    as (sample & devices & arrays & s1 & s2 & Hdevices & Hsent & Harrays
        & Htemp & Hhash & _ & Hhist).
  exists sample, (now_at env (S (clock_reads st)) - RETENTION).
  split; [exact Hhist |].
  apply get_devices_inv in Hdevices. destruct Hdevices as [_ Hdevices].
  rewrite Hsent in Hdevices.
  destruct Hdevices as [(body' & Hdev' & Hdata') | [Hdev' _]]; [| congruence].
  assert (body' = body) by congruence. subst body'.
  assert (devices = JList items) by congruence. subst devices.
  unfold device_arrays in Harrays.
  destruct items as [| d rest]; [now elim Hne |].
  change (py_truthy (JList (d :: rest))) with true in Harrays.
  cbv iota in Harrays. unfold py_iter, result_bind in Harrays.
  destruct (present_values "temperature" (d :: rest)) as [temps | e] eqn:Et;
    [| discriminate].
  destruct (present_values "hashrate" (d :: rest)) as [hashes | e] eqn:Eh;
    [| discriminate].
  injection Harrays as <-.
  apply present_values_filter in Et, Eh. subst temps hashes.
  split; assumption.
Qed.

Lemma device_arrays_hold_truthy_values_witness :
  exists sample cutoff_time,
    [ {| m_timestamp := 0;
         m_total_hashrate := JFloat 45.0%float; m_accepted_shares := JInt 0;
         m_rejected_shares := JInt 0; m_hardware_errors := JInt 2;
         m_active_devices := JInt 0; m_uptime := JInt 0;
         m_device_temperatures := Some [JFloat 45.5%float];
         m_device_hashrates := Some [] |} ] =
      keep_after cutoff_time ([] ++ [sample]) /\
    m_device_temperatures sample =
      Some (filter py_truthy (map (field "temperature") [idle_device])) /\
    m_device_hashrates sample =
      Some (filter py_truthy (map (field "hashrate") [idle_device])).
Proof.
  apply (device_arrays_hold_truthy_values
           (steady_api (running_status (JFloat 45.0%float))
                       (JList [idle_device]) (JList []))
           initial_state
           {| clock_reads := 2; requests_sent := 2; sleeps_begun := 0;
              trace := [];
              performance_history :=
                [ {| m_timestamp := 0;
                     m_total_hashrate := JFloat 45.0%float;
                     m_accepted_shares := JInt 0;
                     m_rejected_shares := JInt 0;
                     m_hardware_errors := JInt 2;
                     m_active_devices := JInt 0; m_uptime := JInt 0;
                     m_device_temperatures := Some [JFloat 45.5%float];
                     m_device_hashrates := Some [] |} ] |}
           (running_status (JFloat 45.0%float))
           (JDict [("data", JList [idle_device])])
           [idle_device]);
    try reflexivity.
  discriminate.
Defined.

(** ** Thresholds: the boundary between alerting and health *)

Lemma yields_lift_bind_eq {A B} (Q : B -> Prop) (r : result A) (k : A -> M B) :
  (forall a, r = Ok a -> yields Q (k a)) -> yields Q (bind (lift r) k).
Proof.
  intros Hk env st b st' E. apply bind_Ok in E.
  destruct E as (a & s & E1 & E2). apply lift_inv in E1.
  destruct E1 as [E1 ->]. eapply Hk; eassumption.
Qed.

(** The alerts of every device are about that device. *)
Ltac device_alerts_free p :=
  unfold device_alerts; do 2 yields_step;
  apply (yields_bind (free_of p)); [repeat yields_step | intros ? ?];
  do 2 yields_step;
  apply (yields_bind (free_of p)); [repeat yields_step | intros ? ?];
  yields_step;
  apply (yields_bind (free_of p)); [repeat yields_step | intros ? ?];
  apply yields_ret; auto using free_of_app.

Lemma devices_alerts_free_of_low_total devices :
  yields (free_of is_low_total_hashrate) (devices_alerts devices).
Proof.
  induction devices as [| device rest IH]; simpl.
  - now apply yields_ret.
  - apply (yields_bind (free_of is_low_total_hashrate));
      [device_alerts_free is_low_total_hashrate | intros h Hh].
    apply (yields_bind (free_of is_low_total_hashrate)); [exact IH | intros l Hl].
    apply yields_ret. auto using free_of_app.
Qed.

Lemma pool_alerts_free_of_low_total pools :
  yields (free_of is_low_total_hashrate) (pool_alerts pools).
Proof.
  unfold pool_alerts. yields_step; [| yields_step].
  do 2 yields_step. destruct a0; yields_step.
Qed.

Lemma dict_get_present d key v :
  dict_get d key JNull = v -> v <> JNull -> dict_get d key (JInt 0) = v.
Proof.
  induction d as [| [k w] rest IH]; simpl.
  - congruence.
  - destruct (String.eqb k key); auto.
Qed.

(** A device at exactly 85.0 degrees: no temperature alert, and the
    health condition does not hold. *)
Lemma temperature_at_threshold d :
  dict_get d "temperature" JNull = JFloat 85.0%float \/
  dict_get d "temperature" JNull = JInt 85 ->
  holds (device_is_healthy (JDict d)) = false /\
  yields (free_of is_high_temperature) (device_alerts (JDict d)).
Proof.
  intros Ht. split.
  - unfold device_is_healthy, result_bind. simpl py_get. cbv beta iota.
    destruct (py_eq_str (dict_get d "status" JNull) "Mining"); [| reflexivity].
    destruct Ht as [Ht | Ht];
      rewrite (dict_get_present d "temperature" _ Ht) by discriminate;
      reflexivity.
  - unfold device_alerts. yields_step.
    apply yields_lift_bind_eq. intros temp Etemp. simpl in Etemp.
    injection Etemp as <-.
    apply (yields_bind (free_of is_high_temperature)).
    { destruct Ht as [-> | ->]; apply yields_ret; reflexivity. }
    intros hot Hhot. do 2 yields_step.
    apply (yields_bind (free_of is_high_temperature));
      [repeat yields_step | intros slow Hslow].
    yields_step.
    apply (yields_bind (free_of is_high_temperature));
      [repeat yields_step | intros idle Hidle].
    apply yields_ret. auto using free_of_app.
Qed.

(** A device hashing exactly 15.0 GH/s: no hashrate alert, and the health
    condition does not hold. *)
Lemma hashrate_at_threshold d :
  dict_get d "hashrate" (JInt 0) = JFloat 15.0%float \/
  dict_get d "hashrate" (JInt 0) = JInt 15 ->
  holds (device_is_healthy (JDict d)) = false /\
  yields (free_of is_low_hashrate) (device_alerts (JDict d)).
Proof.
  intros Hh. split.
  - unfold device_is_healthy, result_bind. simpl py_get. cbv beta iota.
    destruct (py_eq_str (dict_get d "status" JNull) "Mining"); [| reflexivity].
    destruct (py_lt (dict_get d "temperature" (JInt 0)) MAX_TEMPERATURE)
      as [[|] | e]; try reflexivity.
    destruct Hh as [-> | ->]; reflexivity.
  - unfold device_alerts. do 2 yields_step.
    apply (yields_bind (free_of is_low_hashrate));
      [repeat yields_step | intros hot Hhot].
    apply yields_lift_bind_eq. intros hashrate Ehash. simpl in Ehash.
    injection Ehash as <-.
    apply yields_lift_bind_eq. intros below Ebelow.
    assert (below = false) as ->
      by (destruct Hh as [Hh | Hh]; rewrite Hh in Ebelow;
          now injection Ebelow as <-).
    apply (yields_bind (free_of is_low_hashrate));
      [apply yields_ret; reflexivity | intros slow Hslow].
    yields_step.
    apply (yields_bind (free_of is_low_hashrate));
      [repeat yields_step | intros idle Hidle].
    apply yields_ret. auto using free_of_app.
Qed.

(** A responsive status whose total hashrate is exactly 30.0: no
    hashrate alert. *)
Lemma total_hashrate_at_threshold d devices pools :
  py_truthy (dict_get d "success" JNull) = true ->
  py_get (dict_get d "data" (JDict [])) "total_hashrate" (JInt 0)
    = Ok (JFloat 30.0%float) \/
  py_get (dict_get d "data" (JDict [])) "total_hashrate" (JInt 0)
    = Ok (JInt 30) ->
  yields (free_of is_low_total_hashrate) (check_alerts (JDict d) devices pools).
Proof.
  intros Hsuccess Hth. unfold check_alerts.
  rewrite responsive_dict, Hsuccess.
  apply yields_lift_bind_eq. intros up Eup. injection Eup as <-. cbv [negb].
  apply yields_lift_bind_eq. intros data Edata. simpl in Edata.
  injection Edata as <-.
  yields_step.
  apply (yields_bind (free_of is_low_total_hashrate));
    [repeat yields_step | intros stopped Hstopped].
  apply yields_lift_bind_eq. intros total_hashrate Etotal.
  apply yields_lift_bind_eq. intros low Elow.
  assert (low = false) as ->.
  { destruct Hth as [Hth | Hth]; rewrite Hth in Etotal;
      injection Etotal as <-; now injection Elow as <-. }
  apply (yields_bind (free_of is_low_total_hashrate));
    [apply yields_ret; reflexivity | intros weak Hweak].
  do 2 yields_step.
  apply (yields_bind (free_of is_low_total_hashrate));
    [repeat yields_step | intros faulty Hfaulty].
  apply (yields_bind (free_of is_low_total_hashrate)).
  { yields_step; [| yields_step]. yields_step.
    apply devices_alerts_free_of_low_total. }
  intros per_device Hdev.
  apply (yields_bind (free_of is_low_total_hashrate));
    [apply pool_alerts_free_of_low_total | intros per_pool Hpool].
  apply yields_ret. auto using free_of_app.
Qed.

(** C10.  At each exact threshold the alert rule is silent while the
    health rule fails: a device at exactly 85.0 degrees gets no
    temperature alert and a device hashing exactly 15.0 GH/s no hashrate
    alert, yet neither satisfies the condition of [check_health]; a total
    hashrate of exactly 30.0 gives no hashrate alert, yet [hashrate_ok] is
    false.  So there is a state of the system for which [check_health]
    reports unhealthy while [check_alerts] returns no alert at all. *)
Theorem threshold_boundary_gap :
  (forall d env st alerts st',
     dict_get d "temperature" JNull = JFloat 85.0%float \/
     dict_get d "temperature" JNull = JInt 85 ->
     holds (device_is_healthy (JDict d)) = false /\
     (device_alerts (JDict d) env st = (Ok alerts, st') ->
      filter is_high_temperature alerts = []))
  /\ (forall d env st alerts st',
     dict_get d "hashrate" (JInt 0) = JFloat 15.0%float \/
     dict_get d "hashrate" (JInt 0) = JInt 15 ->
     holds (device_is_healthy (JDict d)) = false /\
     (device_alerts (JDict d) env st = (Ok alerts, st') ->
      filter is_low_hashrate alerts = []))
  /\ (forall d devices pools env st,
     py_truthy (dict_get d "success" JNull) = true ->
     py_get (dict_get d "data" (JDict [])) "total_hashrate" (JInt 0)
       = Ok (JFloat 30.0%float) \/
     py_get (dict_get d "data" (JDict [])) "total_hashrate" (JInt 0)
       = Ok (JInt 30) ->
     (forall h st',
        reply_at env (requests_sent st) StatusEndpoint = Replied (JDict d) ->
        check_health env st = (Ok h, st') -> hashrate_ok h = false) /\
     (forall alerts st',
        check_alerts (JDict d) devices pools env st = (Ok alerts, st') ->
        filter is_low_total_hashrate alerts = []))
  /\ (exists h st1 st2,
        check_health threshold_api initial_state = (Ok h, st1) /\
        devices_healthy h = false /\ temperature_ok h = false /\
        hashrate_ok h = false /\ healthy h = false /\
        check_alerts (running_status (JFloat 30.0%float))
          (JList [mining_device (JFloat 85.0%float) (JFloat 15.0%float)])
          (JList [pool_with_status "Connected"])
          threshold_api initial_state = (Ok [], st2)).
Proof.
  split; [| split; [| split]].
  - intros d env st alerts st' Ht.
    destruct (temperature_at_threshold d Ht) as [Hhealth Halerts].
    split; [exact Hhealth | apply Halerts].
  - intros d env st alerts st' Hh.
    destruct (hashrate_at_threshold d Hh) as [Hhealth Halerts].
    split; [exact Hhealth | apply Halerts].
  - intros d devices pools env st Hsuccess Hth. split.
    + intros h st' Hreply Hhealth.
      destruct (hashrate_ok h) eqn:Hok; [| reflexivity].
      apply (hashrate_ok_characterised _ _ _ _ Hhealth) in Hok.
      destruct Hok as (d' & total_hashrate & Hreply' & _ & Htotal & Hgt).
      assert (d' = d) by congruence. subst d'.
      destruct Hth as [Hth | Hth]; rewrite Hth in Htotal;
        injection Htotal as <-; discriminate Hgt.
    + intros alerts st'.
      apply (total_hashrate_at_threshold d devices pools Hsuccess Hth).
  - eexists _, _, _. repeat split; reflexivity.
Qed.

Lemma threshold_boundary_gap_witness :
  holds (device_is_healthy
           (mining_device (JFloat 85.0%float) (JFloat 15.0%float))) = false
  /\ filter is_high_temperature [] = []
  /\ filter is_low_hashrate [] = [].
Proof.
  destruct threshold_boundary_gap as (Htemp & Hhash & _ & _).
  pose (d := [("device_id", JInt 0); ("status", JStr "Mining");
              ("temperature", JFloat 85.0%float);
              ("hashrate", JFloat 15.0%float)]).
  assert (Ht : dict_get d "temperature" JNull = JFloat 85.0%float \/
               dict_get d "temperature" JNull = JInt 85)
    by (left; reflexivity).
  assert (Hh : dict_get d "hashrate" (JInt 0) = JFloat 15.0%float \/
               dict_get d "hashrate" (JInt 0) = JInt 15)
    by (left; reflexivity).
  split; [| split].
  - exact (proj1 (Htemp d threshold_api initial_state [] initial_state Ht)).
  - exact (proj2 (Htemp d threshold_api initial_state [] initial_state Ht)
                 eq_refl).
  - exact (proj2 (Hhash d threshold_api initial_state [] initial_state Hh)
                 eq_refl).
Defined.

(** ** MonitorLoop: a failing cycle *)

Lemma same_history_refl st : same_history st st.
Proof. reflexivity. Qed.

Lemma same_history_trans a b c :
  same_history a b -> same_history b c -> same_history a c.
Proof. unfold same_history. congruence. Qed.

Lemma same_alert_events_refl st : same_alert_events st st.
Proof. reflexivity. Qed.

Lemma same_alert_events_trans a b c :
  same_alert_events a b -> same_alert_events b c -> same_alert_events a c.
Proof. unfold same_alert_events. congruence. Qed.

Lemma emit_keeps_history e : frames same_history (emit e).
Proof. intros env st. reflexivity. Qed.

Lemma emit_keeps_alert_events e :
  is_alert_event e = false -> frames same_alert_events (emit e).
Proof.
  intros He env st. unfold same_alert_events. simpl.
  rewrite filter_app. simpl. rewrite He. apply app_nil_r.
Qed.

Lemma poll_and_detect_keeps_history : frames same_history poll_and_detect.
Proof.
  apply poll_and_detect_keeps;
    try (intros; intros env st; reflexivity).
  - exact same_history_refl.
  - exact same_history_trans.
Qed.

Lemma poll_and_detect_keeps_alert_events :
  frames same_alert_events poll_and_detect.
Proof.
  apply poll_and_detect_keeps.
  - exact same_alert_events_refl.
  - exact same_alert_events_trans.
  - intros env st. reflexivity.
  - intros ep env st. reflexivity.
  - exact emit_keeps_alert_events.
Qed.

Lemma log_alerts_keeps_history alerts : frames same_history (log_alerts alerts).
Proof.
  induction alerts as [| a rest IH]; simpl.
  - intros env st. reflexivity.
  - apply (frames_bind same_history same_history_trans);
      [apply emit_keeps_history | intros _; exact IH].
Qed.

Lemma send_email_alert_keeps_history alerts smtp_config :
  frames same_history (send_email_alert alerts smtp_config).
Proof.
  unfold send_email_alert. destruct alerts; [intros env st; reflexivity |].
  destruct (py_truthy smtp_config); intros env st; reflexivity.
Qed.

(** Logging and mailing the alerts of a cycle. *)
Lemma report_keeps_history alerts smtp_config :
  frames same_history
    (match alerts with
     | [] => ret tt
     | _ :: _ =>
         emit (LogAlertCount (List.length alerts)) ;;;
         log_alerts alerts ;;;
         if py_truthy smtp_config then send_email_alert alerts smtp_config
         else ret tt
     end).
Proof.
  destruct alerts as [| a rest]; [intros env st; reflexivity |].
  apply (frames_bind same_history same_history_trans);
    [apply emit_keeps_history | intros _].
  apply (frames_bind same_history same_history_trans);
    [apply log_alerts_keeps_history | intros _].
  destruct (py_truthy smtp_config);
    [apply send_email_alert_keeps_history | intros env st; reflexivity].
Qed.

(** A cycle is its two halves in sequence. *)
Lemma cycle_body_split interval smtp_config env st :
  cycle_body interval smtp_config env st =
  bind poll_and_detect
       (fun sa => report_and_record (fst sa) (snd sa) interval smtp_config)
       env st.
Proof.
  unfold cycle_body, poll_and_detect, report_and_record, bind.
  destruct (get_status env st) as [[status | e] s1]; [| reflexivity].
  destruct (get_devices env s1) as [[devices | e] s2]; [| reflexivity].
  destruct (get_pools env s2) as [[pools | e] s3]; [| reflexivity].
  destruct (check_alerts status (py_or devices (JList []))
                         (py_or pools (JList [])) env s3)
    as [[alerts | e] s4]; reflexivity.
Qed.

(** A call of [collect_performance_metrics] that raises has not touched
    the history. *)
Lemma collect_raise_keeps_history env st e st' :
  collect_performance_metrics env st = (Raise e, st') ->
  performance_history st' = performance_history st.
Proof.
  intros H. unfold collect_performance_metrics in H.
  pose proof (get_status_frames env st) as [_ Hh1].
  apply bind_Raise in H. destruct H as [H | (status & s1 & Hstatus & H)].
  { rewrite H in Hh1. exact Hh1. }
  rewrite Hstatus in Hh1. simpl snd in Hh1.
  pose proof (get_devices_frames env s1) as [_ Hh2].
  apply bind_Raise in H. destruct H as [H | (devices & s2 & Hdevices & H)].
  { rewrite H in Hh2. simpl snd in Hh2. congruence. }
  rewrite Hdevices in Hh2. simpl snd in Hh2.
  assert (Hs2 : performance_history s2 = performance_history st) by congruence.
  clear Hh1 Hh2 Hstatus Hdevices.
  apply bind_Raise in H. destruct H as [H | (up & s3 & Hup & H)].
  { apply lift_inv in H. destruct H as [_ ->]. exact Hs2. }
  apply lift_inv in Hup. destruct Hup as [_ ->].
  destruct up; [| apply ret_inv in H; destruct H as [H _]; discriminate H].
  apply bind_Raise in H. destruct H as [H | (data & s4 & Hdata & H)].
  { apply lift_inv in H. destruct H as [_ ->]. exact Hs2. }
  apply lift_inv in Hdata. destruct Hdata as [_ ->].
  apply bind_Raise in H. destruct H as [H | (stamp & s5 & Hstamp & H)].
  { discriminate H. }
  unfold now in Hstamp. injection Hstamp as _ <-.
  do 7 (apply bind_Raise in H;
        destruct H as [H | (? & ? & Hstep & H)];
          [ apply lift_inv in H; destruct H as [_ Hsame]; subst; exact Hs2
          | apply lift_inv in Hstep; destruct Hstep as [_ Hsame]; subst ]).
  unfold bind, get_history, set_history, now, ret in H. discriminate H.
Qed.

(** Once [check_alerts] has returned for a status, the status line of
    that status is logged, unless its total hashrate is an integer too
    large for a float: then formatting it raises [OverflowError]. *)
Lemma log_status_outcome status devices pools env st alerts st' :
  check_alerts status devices pools env st = (Ok alerts, st') ->
  forall env' s,
  (exists s', log_status status env' s = (Ok tt, s') /\
              performance_history s' = performance_history s)
  \/ log_status status env' s = (Raise OverflowError, s).
Proof.
  intros H env' s. unfold check_alerts in H.
  apply bind_Ok in H. destruct H as (up & s0 & Hup & H).
  apply lift_inv in Hup. destruct Hup as [Hup ->].
  unfold log_status, bind, lift. rewrite Hup.
  destruct up; cbv [negb] in H.
  - apply bind_Ok in H. destruct H as (data & s1 & Hdata & H).
    apply lift_inv in Hdata. destruct Hdata as [Hdata ->].
    apply bind_Ok in H. destruct H as (mining_state & s2 & Hms & H).
    apply lift_inv in Hms. destruct Hms as [Hms ->].
    apply bind_Ok in H. destruct H as (stopped & s3 & _ & H).
    apply bind_Ok in H. destruct H as (total_hashrate & s4 & Hth & H).
    apply lift_inv in Hth. destruct Hth as [Hth _].
    apply bind_Ok in H. destruct H as (low & s5 & Hlow & _).
    apply lift_inv in Hlow. destruct Hlow as [Hlow _].
    rewrite Hdata, Hms, Hth.
    assert (Hshown : py_format_1f total_hashrate = Ok total_hashrate
                     \/ py_format_1f total_hashrate = Raise OverflowError).
    { unfold py_lt in Hlow.
      destruct total_hashrate; simpl in Hlow; try discriminate Hlow;
        simpl; try (left; reflexivity).
      destruct (int_fits_float z); [left | right]; reflexivity. }
    destruct Hshown as [Hshown | Hshown]; rewrite Hshown.
    + destruct data; try discriminate Hms. simpl py_get. cbv beta iota.
      left. eexists. split; reflexivity.
    + right. reflexivity.
  - left. eexists. split; reflexivity.
Qed.

Lemma sleep_outcome interval env st :
  0 <= interval <= MAX_SLEEP ->
  sleep_refused env (sleeps_begun st) = false ->
  sleep interval env st =
    if sleep_cut env (sleeps_begun st)
    then (Raise KeyboardInterrupt,
          {| clock_reads := clock_reads st;
             requests_sent := requests_sent st;
             sleeps_begun := S (sleeps_begun st);
             trace := trace st;
             performance_history := performance_history st |})
    else (Ok tt,
          {| clock_reads := clock_reads st;
             requests_sent := requests_sent st;
             sleeps_begun := S (sleeps_begun st);
             trace := trace st ++ [Slept interval];
             performance_history := performance_history st |}).
Proof.
  intros Hi Hacc. unfold sleep. rewrite Hacc.
  destruct (Z.ltb_spec interval (- MAX_SLEEP)); [unfold MAX_SLEEP in *; lia |].
  destruct (Z.ltb_spec MAX_SLEEP interval); [lia |].
  destruct (Z.ltb_spec interval 0); [lia |].
  cbv [orb].
  destruct (sleep_cut env (sleeps_begun st)); reflexivity.
Qed.

(** A cycle is what comes before its status line, the status line and
    the sleep. *)
Lemma cycle_body_until_status_line interval smtp_config env st :
  cycle_body interval smtp_config env st =
  bind (until_status_line smtp_config)
       (fun status => log_status status ;;; sleep interval) env st.
Proof.
  unfold cycle_body, until_status_line, poll_and_detect, bind, ret.
  destruct (get_status env st) as [[status | e] s1]; [| reflexivity].
  destruct (get_devices env s1) as [[devices | e] s2]; [| reflexivity].
  destruct (get_pools env s2) as [[pools | e] s3]; [| reflexivity].
  destruct (check_alerts status (py_or devices (JList []))
                         (py_or pools (JList [])) env s3)
    as [[alerts | e] s4]; [| reflexivity].
  cbv beta iota delta [fst snd].
  destruct alerts as [| a rest].
  - destruct (collect_performance_metrics env s4) as [[u | e] s5];
      reflexivity.
  - cbv beta iota.
    destruct (emit (LogAlertCount (List.length (a :: rest))) env s4)
      as [[u0 | e] s5]; [| reflexivity].
    destruct (log_alerts (a :: rest) env s5) as [[u1 | e] s6];
      [| reflexivity].
    destruct ((if py_truthy smtp_config
               then send_email_alert (a :: rest) smtp_config
               else fun _ st0 => (Ok tt, st0)) env s6)
      as [[u2 | e] s7]; [| reflexivity].
    destruct (collect_performance_metrics env s7) as [[u | e] s8];
      reflexivity.
Qed.

(** A cycle that fails before its status line has left the history as it
    was. *)
Lemma until_status_line_raise_keeps_history smtp_config env st e st1 :
  until_status_line smtp_config env st = (Raise e, st1) ->
  performance_history st1 = performance_history st.
Proof.
  intros H. unfold until_status_line in H.
  pose proof (poll_and_detect_keeps_history env st) as Hpoll.
  apply bind_Raise in H. destruct H as [H | ([status alerts] & s1 & Hdetect & H)].
  { rewrite H in Hpoll. exact Hpoll. }
  rewrite Hdetect in Hpoll. simpl snd in Hpoll. unfold same_history in Hpoll.
  simpl fst in H. simpl snd in H.
  pose proof (report_keeps_history alerts smtp_config env s1) as Hreport.
  unfold same_history in Hreport.
  apply bind_Raise in H. destruct H as [H | (u & s2 & Hrep & H)].
  { rewrite H in Hreport. simpl snd in Hreport. congruence. }
  rewrite Hrep in Hreport. simpl snd in Hreport.
  apply bind_Raise in H. destruct H as [H | (u' & s3 & Hcollect & H)].
  { apply collect_raise_keeps_history in H. congruence. }
  discriminate H.
Qed.

(** The status a cycle carries to its status line has gone through
    [check_alerts]. *)
Lemma until_status_line_checked smtp_config env st status s :
  until_status_line smtp_config env st = (Ok status, s) ->
  exists devices pools s0 alerts s0',
    check_alerts status devices pools env s0 = (Ok alerts, s0').
Proof.
  intros H. unfold until_status_line in H.
  apply bind_Ok in H. destruct H as ([status0 alerts] & s1 & Hdetect & H).
  simpl fst in H. simpl snd in H.
  apply bind_Ok in H. destruct H as (u & s2 & _ & H).
  apply bind_Ok in H. destruct H as (u' & s3 & _ & H).
  apply ret_inv in H. destruct H as [H _]. injection H as ->.
  unfold poll_and_detect in Hdetect.
  apply bind_Ok in Hdetect. destruct Hdetect as (status1 & t1 & _ & Hd).
  apply bind_Ok in Hd. destruct Hd as (devices & t2 & _ & Hd).
  apply bind_Ok in Hd. destruct Hd as (pools & t3 & _ & Hd).
  apply bind_Ok in Hd. destruct Hd as (alerts0 & t4 & Hcheck & Hd).
  apply ret_inv in Hd. destruct Hd as [Hd _]. injection Hd as -> ->.
  eauto 6.
Qed.

(** When [time.sleep] accepts the interval and the system refuses no
    sleep, an [Exception] raised in the body of a cycle is raised before
    the status line, or is the [OverflowError] of the status line. *)
Lemma failed_body_cases interval smtp_config env st e st1 :
  0 <= interval <= MAX_SLEEP ->
  sleeps_accepted env ->
  cycle_body interval smtp_config env st = (Raise e, st1) ->
  is_Exception e = true ->
  until_status_line smtp_config env st = (Raise e, st1)
  \/ exists status,
       until_status_line smtp_config env st = (Ok status, st1) /\
       e = OverflowError /\
       log_status status env st1 = (Raise OverflowError, st1).
Proof.
  intros Hi Hacc H He. rewrite cycle_body_until_status_line in H.
  apply bind_Raise in H. destruct H as [H | (status & s & Huntil & H)].
  { now left. }
  right. exists status.
  destruct (until_status_line_checked _ _ _ _ _ Huntil)
    as (devices & pools & s0 & alerts & s0' & Hcheck).
  destruct (log_status_outcome _ _ _ _ _ _ _ Hcheck env s)
    as [(s' & Hlog & _) | Hlog].
  - exfalso. apply bind_Raise in H.
    destruct H as [H | (u & s5 & Hlog' & H)].
    { rewrite Hlog in H. discriminate H. }
    rewrite (sleep_outcome _ _ _ Hi (Hacc _)) in H.
    destruct (sleep_cut env (sleeps_begun s5)); [| discriminate H].
    injection H as <- _. discriminate He.
  - unfold bind in H. rewrite Hlog in H. injection H as <- <-.
    auto.
Qed.

(** C5, as stated, fails: in this cycle an error is raised (the second
    devices fetch of the cycle returns a JSON array, on which [.get]
    raises [AttributeError]) after the alerts of the cycle have been
    logged; the error is caught and the loop continues, but the cycle has
    contributed its alert. *)
Lemma failed_cycle_has_reported_alerts :
  let failed := cycle_body 60 JNull flaky_devices_api initial_state in
  let turn := monitor_cycle 60 JNull flaky_devices_api initial_state in
  fst failed = Raise AttributeError
  /\ filter is_alert_event (trace (snd failed))
     = [LogAlertCount 1;
        LogAlert critical (MiningNotActive (JStr "Stopped"))]
  /\ fst turn = Ok Continue
  /\ filter is_alert_event (trace (snd turn))
     = [LogAlertCount 1;
        LogAlert critical (MiningNotActive (JStr "Stopped"))].
Proof. vm_compute. repeat split; reflexivity. Qed.

(** It fails for the sample as well: with a total hashrate of 10^400 the
    cycle raises no alert and appends its sample, and then the status
    line raises [OverflowError]; the error is caught and the loop
    continues, with the sample of the failed cycle in the history. *)
Lemma failed_cycle_has_appended_sample :
  let failed := cycle_body 60 JNull huge_hashrate_api initial_state in
  let turn := monitor_cycle 60 JNull huge_hashrate_api initial_state in
  fst failed = Raise OverflowError
  /\ map m_total_hashrate (performance_history (snd failed))
     = [JInt (10 ^ 400)]
  /\ fst turn = Ok Continue
  /\ map m_total_hashrate (performance_history (snd turn))
     = [JInt (10 ^ 400)].
Proof. vm_compute. repeat split; reflexivity. Qed.

(** C5, amended.  When [time.sleep] accepts the interval (it lies
    between 0 and [MAX_SLEEP] seconds, and the operating system refuses
    no sleep), every cycle in whose body an [Exception] is raised is
    caught at the loop level and logged; the handler then sleeps for the
    configured interval and the loop continues, unless that sleep is
    interrupted.  If the error was raised while polling or
    detecting, the cycle has contributed no alert (alerts already
    reported before a later error stay reported).  If the error was
    raised before the status line, the cycle has appended no sample; the
    only error raised later is the [OverflowError] of the status line,
    after the sample of the cycle may have been appended.  A cycle leaves
    the loop only through [KeyboardInterrupt]: raised in the body it
    breaks the loop, raised in the handler's sleep it propagates. *)
Theorem failed_cycle_is_contained interval smtp_config env st :
  0 <= interval <= MAX_SLEEP ->
  sleeps_accepted env ->
  (forall e st1,
     cycle_body interval smtp_config env st = (Raise e, st1) ->
     is_Exception e = true ->
     (poll_and_detect env st = (Raise e, st1) ->
      filter is_alert_event (trace st1) = filter is_alert_event (trace st)) /\
     (until_status_line smtp_config env st = (Raise e, st1) /\
      performance_history st1 = performance_history st
      \/ exists status,
           until_status_line smtp_config env st = (Ok status, st1) /\
           e = OverflowError /\
           log_status status env st1 = (Raise OverflowError, st1)) /\
     exists st2,
       performance_history st2 = performance_history st1 /\
       if sleep_cut env (sleeps_begun st1)
       then monitor_cycle interval smtp_config env st
              = (Raise KeyboardInterrupt, st2) /\
            trace st2 = trace st1 ++ [LogMonitoringError e]
       else monitor_cycle interval smtp_config env st = (Ok Continue, st2) /\
            trace st2
              = trace st1 ++ [LogMonitoringError e; Slept interval])
  /\ (forall e st',
        monitor_cycle interval smtp_config env st = (Raise e, st') ->
        e = KeyboardInterrupt)
  /\ (forall st',
        monitor_cycle interval smtp_config env st = (Ok Break, st') ->
        exists s,
          cycle_body interval smtp_config env st = (Raise KeyboardInterrupt, s)).
Proof.
  intros Hi Hacc. split; [| split].
  - intros e st1 H He. split; [| split].
    + intros Hpoll.
      pose proof (poll_and_detect_keeps_alert_events env st) as Hkeeps.
      rewrite Hpoll in Hkeeps. exact Hkeeps.
    + destruct (failed_body_cases _ _ _ _ _ _ Hi Hacc H He)
        as [Hearly | Hlate].
      * left. split; [exact Hearly |].
        exact (until_status_line_raise_keeps_history _ _ _ _ _ Hearly).
      * right. exact Hlate.
    + unfold monitor_cycle. rewrite H.
      destruct e; try discriminate He;
        unfold bind, emit; cbv beta iota;
        rewrite (sleep_outcome _ _ _ Hi (Hacc _)); simpl;
        destruct (sleep_cut env (sleeps_begun st1));
        eexists; (split; [| split; [reflexivity |]]); simpl;
        first [reflexivity | now rewrite <- app_assoc].
  - intros e st'. unfold monitor_cycle.
    destruct (cycle_body interval smtp_config env st) as [[u | e0] s];
      [discriminate |].
    destruct e0; try discriminate;
      unfold bind, emit; cbv beta iota;
      rewrite (sleep_outcome _ _ _ Hi (Hacc _)); simpl;
      (destruct (sleep_cut env (sleeps_begun s));
       [intros H; now injection H as <- _ | discriminate]).
  - intros st'. unfold monitor_cycle.
    destruct (cycle_body interval smtp_config env st) as [[u | e0] s];
      [discriminate |].
    destruct e0; try (intros _; now exists s);
      unfold bind, emit; cbv beta iota;
      rewrite (sleep_outcome _ _ _ Hi (Hacc _)); simpl;
      destruct (sleep_cut env (sleeps_begun s)); discriminate.
Qed.

Lemma failed_cycle_is_contained_witness :
  exists st2,
    performance_history st2 = [] /\
    monitor_cycle 60 JNull null_hashrate_api initial_state = (Ok Continue, st2) /\
    trace st2 = [LogMonitoringError TypeError; Slept 60].
Proof.
  assert (Hi : 0 <= 60 <= MAX_SLEEP) by (unfold MAX_SLEEP; lia).
  pose (st1 := {| clock_reads := 0; requests_sent := 3; sleeps_begun := 0;
                  trace := []; performance_history := [] |}).
  assert (Hbody : cycle_body 60 JNull null_hashrate_api initial_state
                  = (Raise TypeError, st1)) by (vm_compute; reflexivity).
  assert (He : is_Exception TypeError = true) by reflexivity.
  assert (Hacc : sleeps_accepted null_hashrate_api) by (intros k; reflexivity).
  destruct (failed_cycle_is_contained 60 JNull null_hashrate_api
                                      initial_state Hi Hacc) as [Hfail _].
  destruct (Hfail TypeError st1 Hbody He)
    as (_ & _ & st2 & Hhist & Hcycle & Htrace).
  exists st2. split; [exact Hhist |]. split; [exact Hcycle | exact Htrace].
Defined.

(** ** Further properties of the health evaluation *)

Lemma get_pools_inv env st pools st' :
  get_pools env st = (Ok pools, st') ->
  (exists body,
     reply_at env (requests_sent st) PoolsEndpoint = Replied body /\
     py_get body "data" (JList []) = Ok pools) \/
  (reply_at env (requests_sent st) PoolsEndpoint = RequestException /\
   pools = JNull).
Proof.
  unfold get_pools, bind, request, emit, ret, lift.
  destruct (reply_at env (requests_sent st) PoolsEndpoint) as [body | |];
    intros H; inversion H; subst; simpl; eauto.
Qed.

Lemma count_connected_filter pools n :
  count_connected pools = Ok n ->
  n = Z.of_nat (List.length (filter pool_is_connected pools)).
Proof.
  revert n. induction pools as [| p rest IH]; simpl; intros n H.
  - now injection H as <-.
  - unfold result_bind in H.
    destruct (py_get p "status" JNull) as [st | e] eqn:Est; [| discriminate].
    apply py_get_field in Est. subst st.
    destruct (count_connected rest) as [m | e]; [| discriminate].
    injection H as <-. rewrite (IH m eq_refl).
    unfold pool_is_connected at 2.
    destruct (py_eq_str (field "status" p) "Connected"); simpl List.length; lia.
Qed.

Lemma filter_nonempty_existsb {A} (p : A -> bool) (l : list A) :
  (0 <? Z.of_nat (List.length (filter p l))) = existsb p l.
Proof.
  induction l as [| x l IH]; simpl; [reflexivity |].
  destruct (p x); simpl; [| exact IH].
  apply Z.ltb_lt. lia.
Qed.

(** X1.  When the three requests of [check_health] all fail at the
    transport level, no exception leaves the method: it returns the
    report with all six checks false, having logged the three failures in
    the order status, devices, pools, with no other effect than the three
    requests. *)
Theorem check_health_when_unreachable env st :
  reply_at env (requests_sent st) StatusEndpoint = RequestException ->
  reply_at env (S (requests_sent st)) DevicesEndpoint = RequestException ->
  reply_at env (S (S (requests_sent st))) PoolsEndpoint = RequestException ->
  check_health env st =
    (Ok all_checks_failed,
     {| clock_reads := clock_reads st;
        requests_sent := S (S (S (requests_sent st)));
        sleeps_begun := sleeps_begun st;
        trace := trace st ++ [LogFetchFailed StatusEndpoint;
                              LogFetchFailed DevicesEndpoint;
                              LogFetchFailed PoolsEndpoint];
        performance_history := performance_history st |})
  /\ healthy all_checks_failed = false.
Proof.
  intros Hs Hd Hp. split; [| reflexivity].
  unfold check_health, get_status, get_devices, get_pools,
    bind, request, emit, ret, lift.
  simpl. rewrite Hs. simpl. rewrite Hd. simpl. rewrite Hp. simpl.
  rewrite <- !app_assoc. reflexivity.
Qed.

Lemma check_health_when_unreachable_witness :
  check_health unreachable_api initial_state =
    (Ok all_checks_failed,
     {| clock_reads := 0; requests_sent := 3; sleeps_begun := 0;
        trace := [LogFetchFailed StatusEndpoint;
                  LogFetchFailed DevicesEndpoint;
                  LogFetchFailed PoolsEndpoint];
        performance_history := [] |})
  /\ healthy all_checks_failed = false.
Proof.
  apply (check_health_when_unreachable unreachable_api initial_state);
    reflexivity.
Defined.

(** X2.  The status checks of [check_health] are gated by the API check:
    [api_responsive] is true iff the status request was answered with a
    dict whose [success] entry is truthy; [mining_active] is true iff, in
    addition, the [mining_state] of its [data] is the string "Running".
    So a report with [api_responsive] false has [mining_active] and
    [hashrate_ok] false, whatever the status says. *)
Theorem status_checks_gated_by_api env st h st' :
  check_health env st = (Ok h, st') ->
  (api_responsive h = true <->
   exists d,
     reply_at env (requests_sent st) StatusEndpoint = Replied (JDict d) /\
     py_truthy (dict_get d "success" JNull) = true)
  /\ (mining_active h = true <->
      exists d,
        reply_at env (requests_sent st) StatusEndpoint = Replied (JDict d) /\
        py_truthy (dict_get d "success" JNull) = true /\
        py_get (dict_get d "data" (JDict [])) "mining_state" JNull
          = Ok (JStr "Running"))
  /\ (api_responsive h = false ->
      mining_active h = false /\ hashrate_ok h = false).
Proof.
  intros H. apply check_health_inv in H.
  destruct H as (status & s1 & api & sc & devices & s2 & dev & pools & pool
                 & Hstatus & Hapi & Hsc & _ & _ & _ & _ & ->).
  simpl api_responsive. simpl mining_active. simpl hashrate_ok.
  apply get_status_inv in Hstatus. destruct Hstatus as [_ Hreply].
  split; [| split].
  - split.
    + intros ->. destruct (responsive_true_inv _ Hapi) as (d & -> & Hsuccess).
      destruct Hreply as [Hreply | [_ Hnull]]; [| discriminate Hnull].
      now exists d.
    + intros (d & Hreplied & Hsuccess).
      destruct Hreply as [Hreply | [Hreply _]]; [| congruence].
      assert (status = JDict d) by congruence. subst status.
      rewrite responsive_dict, Hsuccess in Hapi. now injection Hapi as <-.
  - split.
    + intros Hmining. destruct api; [| subst sc; discriminate Hmining].
      destruct (responsive_true_inv _ Hapi) as (d & -> & Hsuccess).
      destruct Hreply as [Hreply | [_ Hnull]]; [| discriminate Hnull].
      exists d. split; [exact Hreply |]. split; [exact Hsuccess |].
      unfold status_checks, result_bind in Hsc. simpl py_get at 1 in Hsc.
      cbv beta iota in Hsc.
      destruct (py_get (dict_get d "data" (JDict [])) "mining_state" JNull)
        as [mining_state | e]; [| discriminate].
      destruct (py_get (dict_get d "data" (JDict [])) "total_hashrate" (JInt 0))
        as [total_hashrate | e]; [| discriminate].
      destruct (py_gt total_hashrate MIN_TOTAL_HASHRATE) as [enough | e];
        [| discriminate].
      injection Hsc as <-. simpl in Hmining.
      destruct mining_state; try discriminate Hmining.
      simpl in Hmining. apply String.eqb_eq in Hmining. now subst.
    + intros (d & Hreplied & Hsuccess & Hstate).
      destruct Hreply as [Hreply | [Hreply _]]; [| congruence].
      assert (status = JDict d) by congruence. subst status.
      rewrite responsive_dict, Hsuccess in Hapi. injection Hapi as <-.
      unfold status_checks, result_bind in Hsc. simpl py_get at 1 in Hsc.
      cbv beta iota in Hsc. rewrite Hstate in Hsc.
      destruct (py_get (dict_get d "data" (JDict [])) "total_hashrate" (JInt 0))
        as [total_hashrate | e]; [| discriminate].
      destruct (py_gt total_hashrate MIN_TOTAL_HASHRATE) as [enough | e];
        [| discriminate].
      injection Hsc as <-. reflexivity.
  - intros ->. subst sc. split; reflexivity.
Qed.

Lemma status_checks_gated_by_api_witness :
  api_responsive all_checks_failed = false /\
  mining_active all_checks_failed = false /\
  hashrate_ok all_checks_failed = false.
Proof.
  destruct (status_checks_gated_by_api
              (steady_api failed_status (JList []) (JList []))
              initial_state all_checks_failed
              {| clock_reads := 0; requests_sent := 3; sleeps_begun := 0;
                 trace := []; performance_history := [] |} eq_refl)
    as (_ & _ & Hgate).
  split; [reflexivity | apply Hgate; reflexivity].
Defined.

Lemma pools_check_list items b :
  pools_check (JList items) = Ok b -> b = existsb pool_is_connected items.
Proof.
  unfold pools_check. destruct items as [| p rest].
  - simpl. intros H. now injection H as <-.
  - change (py_truthy (JList (p :: rest))) with true. cbv iota.
    generalize (p :: rest). intros items.
    unfold py_iter, result_bind.
    destruct (count_connected items) as [n | e] eqn:En; [| discriminate].
    apply count_connected_filter in En. subst n.
    intros H. injection H as <-. apply filter_nonempty_existsb.
Qed.

(** X3.  In every report [check_health] returns after the pools request
    was answered with a pool list, [pools_connected] is true iff at least
    one pool of the list has [status == 'Connected']; the empty list gives
    false. *)
Theorem pools_connected_iff env st h st' body items :
  check_health env st = (Ok h, st') ->
  reply_at env (S (S (requests_sent st))) PoolsEndpoint = Replied body ->
  py_get body "data" (JList []) = Ok (JList items) ->
  (pools_connected h = true <-> existsb pool_is_connected items = true).
Proof.
  intros H Hreply Hdata. apply check_health_inv in H.
  destruct H as (status & s1 & api & sc & devices & s2 & dev & pools & pool
                 & Hstatus & _ & _ & Hdevices & _ & Hpools & Hpool & ->).
  simpl pools_connected.
  apply get_status_inv in Hstatus. destruct Hstatus as [Hsent1 _].
  apply get_devices_inv in Hdevices. destruct Hdevices as [Hsent2 _].
  apply get_pools_inv in Hpools. rewrite Hsent2, Hsent1 in Hpools.
  destruct Hpools as [(body' & Hreply' & Hdata') | [Hreply' _]]; [| congruence].
  assert (body' = body) by congruence. subst body'.
  assert (pools = JList items) by congruence. subst pools.
  apply pools_check_list in Hpool. subst pool. tauto.
Qed.

Lemma pools_connected_iff_witness :
  true = true <-> existsb pool_is_connected [pool_with_status "Connected"] = true.
Proof.
  apply (pools_connected_iff threshold_api initial_state
           {| api_responsive := true; mining_active := true;
              devices_healthy := false; pools_connected := true;
              temperature_ok := false; hashrate_ok := false |}
           {| clock_reads := 0; requests_sent := 3; sleeps_begun := 0;
              trace := []; performance_history := [] |}
           (JDict [("data", JList [pool_with_status "Connected"])])
           [pool_with_status "Connected"]);
    reflexivity.
Defined.

(** ** The alert rules: what a returning detection reports *)

Lemma py_format_1f_same v shown : py_format_1f v = Ok shown -> shown = v.
Proof.
  destruct v; simpl; try destruct (int_fits_float _); intros H;
    now inversion H.
Qed.

Lemma yields_weaken {A} (Q1 Q2 : A -> Prop) (m : M A) :
  (forall a, Q1 a -> Q2 a) -> yields Q1 m -> yields Q2 m.
Proof. intros HQ Hm env st a st' E. apply HQ. eapply Hm. exact E. Qed.

(** A guarded [alerts.append]: the alert appears iff the guard holds. *)
Lemma yields_guarded (b : bool) sev msg :
  yields (fun l => map content l = if b then [(sev, msg)] else [])
         (if b then new_alert sev msg else ret []).
Proof.
  destruct b; [apply yields_new_alert | apply yields_ret]; reflexivity.
Qed.

(** The same with the value formatted into the message. *)
Lemma yields_guarded_shown (b : bool) sev (msg : json -> alert_message) v :
  yields (fun l => map content l = if b then [(sev, msg v)] else [])
         (if b then shown <- lift (py_format_1f v) ;; new_alert sev (msg shown)
          else ret []).
Proof.
  destruct b; [| apply yields_ret; reflexivity].
  apply yields_lift_bind_eq. intros shown E.
  apply py_format_1f_same in E. subst shown.
  apply yields_new_alert. reflexivity.
Qed.

Lemma device_alerts_findings device :
  yields (fun l => map content l = device_findings device)
         (device_alerts device).
Proof.
  destruct device as [| | | | | | d];
    try (intros ? ? ? ? E; unfold device_alerts, bind, lift in E;
         simpl in E; discriminate E).
  unfold device_alerts, device_findings, is_hot, is_slow, is_idle.
  simpl field. simpl field_or. simpl py_get.
  apply yields_lift_bind_eq. intros device_id Eid. injection Eid as <-.
  apply yields_lift_bind_eq. intros temp Etemp. injection Etemp as <-.
  set (temp := dict_get d "temperature" JNull).
  apply (yields_bind
           (fun hot => map content hot =
              if py_truthy temp && holds (py_gt temp MAX_TEMPERATURE)
              then [(critical,
                     DeviceHighTemperature (dict_get d "device_id" JNull) temp)]
              else [])).
  { destruct (py_truthy temp); [| apply yields_ret; reflexivity].
    apply yields_lift_bind_eq. intros above E. rewrite E. simpl holds.
    simpl andb.
    exact (yields_guarded_shown above critical
             (DeviceHighTemperature (dict_get d "device_id" JNull)) temp). }
  intros hot Hhot.
  apply yields_lift_bind_eq. intros hashrate Ehash. injection Ehash as <-.
  set (hashrate := dict_get d "hashrate" (JInt 0)).
  apply yields_lift_bind_eq. intros below Ebelow. rewrite Ebelow. simpl holds.
  apply (yields_bind
           (fun slow => map content slow =
              if below
              then [(warning,
                     DeviceLowHashrate (dict_get d "device_id" JNull) hashrate)]
              else [])).
  { exact (yields_guarded_shown below warning
             (DeviceLowHashrate (dict_get d "device_id" JNull)) hashrate). }
  intros slow Hslow.
  apply yields_lift_bind_eq. intros st Est. injection Est as <-.
  apply (yields_bind
           (fun idle => map content idle =
              if negb (py_eq_str (dict_get d "status" JNull) "Mining")
              then [(critical,
                     DeviceNotMining (dict_get d "device_id" JNull)
                                     (dict_get d "status" JNull))]
              else [])).
  { apply yields_guarded. }
  intros idle Hidle.
  apply yields_ret. rewrite !map_app. congruence.
Qed.

Lemma devices_alerts_findings devices :
  yields (fun l => map content l = flat_map device_findings devices)
         (devices_alerts devices).
Proof.
  induction devices as [| device rest IH]; simpl.
  - now apply yields_ret.
  - eapply yields_bind; [apply device_alerts_findings | intros here Hhere].
    eapply yields_bind; [exact IH | intros later Hlater].
    apply yields_ret. rewrite map_app. congruence.
Qed.

Lemma pool_alerts_findings pools :
  yields (fun l => map content l = pool_findings pools)
         (pool_alerts (JList pools)).
Proof.
  unfold pool_alerts, pool_findings. destruct pools as [| p rest].
  - apply yields_ret. reflexivity.
  - change (py_truthy (JList (p :: rest))) with true. cbv iota.
    generalize (p :: rest). intros items.
    apply yields_lift_bind_eq. intros items' E. injection E as <-.
    apply yields_lift_bind_eq. intros connected E.
    apply connected_pools_filter in E. subst connected.
    destruct (existsb pool_is_connected items) eqn:Hany.
    + apply existsb_true_filter in Hany.
      destruct (filter pool_is_connected items); [now elim Hany |].
      apply yields_ret. reflexivity.
    + rewrite (existsb_false_filter _ _ Hany).
      apply yields_new_alert. reflexivity.
Qed.

(** The content of the alerts of a returning detection, for a responsive
    status and lists of devices and pools: the findings about the status,
    then about each device in order, then about the pools. *)
Lemma check_alerts_findings d devices pools :
  py_truthy (dict_get d "success" JNull) = true ->
  yields (fun l => map content l =
            status_findings (dict_get d "data" (JDict []))
            ++ flat_map device_findings devices
            ++ pool_findings pools)
         (check_alerts (JDict d) (JList devices) (JList pools)).
Proof.
  intros Hsuccess. unfold check_alerts, status_findings.
  rewrite responsive_dict, Hsuccess.
  apply yields_lift_bind_eq. intros up Eup. injection Eup as <-. cbv [negb].
  apply yields_lift_bind_eq. intros data Edata. simpl in Edata.
  injection Edata as <-.
  set (data := dict_get d "data" (JDict [])).
  apply yields_lift_bind_eq. intros mining_state Ems.
  apply py_get_field in Ems. subst mining_state.
  eapply yields_bind; [apply yields_guarded | intros stopped Hstopped].
  apply yields_lift_bind_eq. intros total_hashrate Eth.
  assert (total_hashrate = field_or "total_hashrate" (JInt 0) data) as ->
    by (destruct data; simpl in Eth; now inversion Eth).
  apply yields_lift_bind_eq. intros low E'. rewrite E'. simpl holds.
  eapply yields_bind;
    [exact (yields_guarded_shown low warning LowTotalHashrate _)
    | intros weak Hweak].
  apply yields_lift_bind_eq. intros hardware_errors E''.
  assert (hardware_errors = field_or "hardware_errors" (JInt 0) data) as ->
    by (destruct data; simpl in E''; now inversion E'').
  apply yields_lift_bind_eq. intros many E3. rewrite E3. simpl holds.
  eapply yields_bind; [apply yields_guarded | intros faulty Hfaulty].
  apply (yields_bind
           (fun l => map content l = flat_map device_findings devices)).
  { destruct devices as [| dev rest]; [apply yields_ret; reflexivity |].
    change (py_truthy (JList (dev :: rest))) with true. cbv iota.
    apply yields_lift_bind_eq. intros items E4. injection E4 as <-.
    apply devices_alerts_findings. }
  intros per_device Hdev.
  eapply yields_bind; [apply pool_alerts_findings | intros per_pool Hpool].
  apply yields_ret. rewrite !map_app. rewrite <- !app_assoc. congruence.
Qed.

(** X4.  The rule table of the detector: for a responsive status and
    lists of devices and pools, the alerts a returning [check_alerts]
    carries are, in this order and with nothing else, the findings about
    the status (mining not running, total hashrate below 30.0, more than
    10 hardware errors), the findings about each device in device order
    (temperature truthy and above 85.0, hashrate below 15.0 with 0 for an
    absent one, status other than Mining), and the pool finding. *)
Theorem alerts_follow_the_rules d devices pools env st alerts st' :
  py_truthy (dict_get d "success" JNull) = true ->
  check_alerts (JDict d) (JList devices) (JList pools) env st
    = (Ok alerts, st') ->
  map content alerts =
    status_findings (dict_get d "data" (JDict []))
    ++ flat_map device_findings devices
    ++ pool_findings pools.
Proof.
  intros Hsuccess H.
  exact (check_alerts_findings d devices pools Hsuccess env st alerts st' H).
Qed.

Lemma alerts_follow_the_rules_witness :
  map content
      [ {| a_type := critical;
           a_message := MiningNotActive (JStr "Stopped");
           a_timestamp := 0 |};
        {| a_type := critical;
           a_message := DeviceNotMining (JInt 0) (JStr "Idle");
           a_timestamp := 1000000 |};
        {| a_type := critical;
           a_message := NoPoolsConnected;
           a_timestamp := 2000000 |} ]
  = status_findings (JDict [("mining_state", JStr "Stopped");
                            ("total_hashrate", JFloat 45.0%float)])
    ++ flat_map device_findings
         [JDict [("device_id", JInt 0); ("status", JStr "Idle");
                 ("temperature", JFloat 45.5%float);
                 ("hashrate", JFloat 20.0%float)]]
    ++ pool_findings [pool_with_status "Disconnected"].
Proof.
  apply (alerts_follow_the_rules
           [("success", JBool true);
            ("data", JDict [("mining_state", JStr "Stopped");
                            ("total_hashrate", JFloat 45.0%float)])]
           _ _ unreachable_api initial_state _
           (clock_advanced 3 initial_state));
    reflexivity.
Defined.

Lemma filter_content (q : severity * alert_message -> bool) (l : list alert) :
  map content (filter (fun a => q (content a)) l) = filter q (map content l).
Proof.
  induction l as [| a l IH]; simpl; [reflexivity |].
  destruct (q (content a)); simpl; now rewrite IH.
Qed.

Lemma status_findings_not_about_devices data :
  filter is_high_temperature_finding (status_findings data) = [].
Proof.
  unfold status_findings.
  destruct (negb _); destruct (holds (py_lt _ _)); destruct (holds (py_gt _ _));
    reflexivity.
Qed.

Lemma pool_findings_not_about_devices pools :
  filter is_high_temperature_finding (pool_findings pools) = [].
Proof.
  unfold pool_findings. destruct pools; [reflexivity |].
  destruct (existsb _ _); reflexivity.
Qed.

Lemma hot_findings devices :
  filter is_high_temperature_finding (flat_map device_findings devices)
  = map (fun device =>
           (critical, DeviceHighTemperature (field "device_id" device)
                                            (field "temperature" device)))
        (filter is_hot devices).
Proof.
  induction devices as [| device rest IH]; simpl; [reflexivity |].
  rewrite filter_app, IH. unfold device_findings.
  destruct (is_hot device); destruct (is_slow device);
    destruct (is_idle device); reflexivity.
Qed.

(** X5.  For a responsive status, a returning [check_alerts] carries
    exactly one temperature alert per device whose temperature is truthy
    and above 85.0, in device order; each is critical and names the
    device and its temperature.  No other device gets one. *)
Theorem one_critical_alert_per_hot_device d devices pools env st alerts st' :
  py_truthy (dict_get d "success" JNull) = true ->
  check_alerts (JDict d) (JList devices) (JList pools) env st
    = (Ok alerts, st') ->
  map content (filter is_high_temperature alerts)
  = map (fun device =>
           (critical, DeviceHighTemperature (field "device_id" device)
                                            (field "temperature" device)))
        (filter is_hot devices).
Proof.
  intros Hsuccess H.
  pose proof (check_alerts_findings d devices pools Hsuccess env st alerts st' H)
    as Hrules.
  change is_high_temperature
    with (fun a => is_high_temperature_finding (content a)).
  rewrite filter_content, Hrules, !filter_app.
  rewrite status_findings_not_about_devices, pool_findings_not_about_devices.
  rewrite app_nil_r. apply hot_findings.
Qed.

Lemma one_critical_alert_per_hot_device_witness :
  map content
      (filter is_high_temperature
         [ {| a_type := critical;
              a_message := DeviceHighTemperature (JInt 0) (JInt 90);
              a_timestamp := 0 |};
           {| a_type := warning;
              a_message := DeviceLowHashrate (JInt 0) (JInt 5);
              a_timestamp := 1000000 |} ])
  = map (fun device =>
           (critical, DeviceHighTemperature (field "device_id" device)
                                            (field "temperature" device)))
        (filter is_hot [mining_device (JInt 90) (JInt 5);
                        mining_device (JInt 60) (JInt 20)]).
Proof.
  apply (one_critical_alert_per_hot_device
           [("success", JBool true);
            ("data", JDict [("mining_state", JStr "Running");
                            ("total_hashrate", JFloat 45.0%float)])]
           _ [] unreachable_api initial_state _
           (clock_advanced 2 initial_state));
    reflexivity.
Defined.

Lemma status_findings_nil data :
  status_findings data = [] <-> status_is_quiet data = true.
Proof.
  unfold status_findings, status_is_quiet.
  destruct (py_eq_str _ _); destruct (holds (py_lt _ _));
    destruct (holds (py_gt _ _)); simpl; split; (discriminate || reflexivity).
Qed.

Lemma device_findings_nil device :
  device_findings device = [] <-> device_is_quiet device = true.
Proof.
  unfold device_findings, device_is_quiet.
  destruct (is_hot device); destruct (is_slow device);
    destruct (is_idle device); simpl; split; (discriminate || reflexivity).
Qed.

Lemma devices_findings_nil devices :
  flat_map device_findings devices = [] <->
  forallb device_is_quiet devices = true.
Proof.
  induction devices as [| device rest IH]; simpl; [tauto |].
  rewrite andb_true_iff, <- IH, <- device_findings_nil.
  split.
  - intros H. apply app_eq_nil in H. exact H.
  - intros [-> ->]. reflexivity.
Qed.

Lemma pool_findings_nil pools :
  pool_findings pools = [] <-> pools_are_quiet pools = true.
Proof.
  unfold pool_findings, pools_are_quiet. destruct pools; [tauto |].
  destruct (existsb _ _); split; (discriminate || reflexivity).
Qed.

(** X6.  Silence of the detector: for a responsive status, a returning
    [check_alerts] gives the empty list iff mining is running, the total
    hashrate is not below 30.0, the hardware errors are not above 10, no
    device is hot, slow or other than mining, and the pool list is empty
    or has a connected pool. *)
Theorem no_alert_iff_all_quiet d devices pools env st alerts st' :
  py_truthy (dict_get d "success" JNull) = true ->
  check_alerts (JDict d) (JList devices) (JList pools) env st
    = (Ok alerts, st') ->
  (alerts = [] <->
   status_is_quiet (dict_get d "data" (JDict [])) = true /\
   forallb device_is_quiet devices = true /\
   pools_are_quiet pools = true).
Proof.
  intros Hsuccess H.
  pose proof (check_alerts_findings d devices pools Hsuccess env st alerts st' H)
    as Hrules.
  rewrite <- status_findings_nil, <- devices_findings_nil, <- pool_findings_nil.
  split.
  - intros ->. simpl in Hrules. symmetry in Hrules.
    apply app_eq_nil in Hrules. destruct Hrules as [Hs Hrest].
    apply app_eq_nil in Hrest. tauto.
  - intros (Hs & Hd & Hp). rewrite Hs, Hd, Hp in Hrules.
    destruct alerts; [reflexivity | discriminate Hrules].
Qed.

Lemma no_alert_iff_all_quiet_witness :
  ([] : list alert) = [] <->
  status_is_quiet (JDict [("mining_state", JStr "Running");
                          ("total_hashrate", JFloat 45.0%float);
                          ("hardware_errors", JInt 2)]) = true /\
  forallb device_is_quiet [mining_device (JInt 60) (JInt 20)] = true /\
  pools_are_quiet [pool_with_status "Connected"] = true.
Proof.
  apply (no_alert_iff_all_quiet
           [("success", JBool true);
            ("data", JDict [("mining_state", JStr "Running");
                            ("total_hashrate", JFloat 45.0%float);
                            ("hardware_errors", JInt 2)])]
           _ _ unreachable_api initial_state [] initial_state);
    reflexivity.
Defined.

Lemma status_findings_length data :
  (List.length (status_findings data) <= 3)%nat.
Proof.
  unfold status_findings.
  destruct (negb _); destruct (holds (py_lt _ _)); destruct (holds (py_gt _ _));
    simpl; lia.
Qed.

Lemma devices_findings_length devices :
  (List.length (flat_map device_findings devices)
   <= 3 * List.length devices)%nat.
Proof.
  induction devices as [| device rest IH]; simpl; [lia |].
  rewrite length_app. unfold device_findings at 1.
  destruct (is_hot device); destruct (is_slow device);
    destruct (is_idle device); simpl; lia.
Qed.

Lemma pool_findings_length pools :
  (List.length (pool_findings pools) <= 1)%nat.
Proof.
  unfold pool_findings. destruct pools; [simpl; lia |].
  destruct (existsb _ _); simpl; lia.
Qed.

(** X7.  A call of [check_alerts] returns at most three alerts about the
    status, three per device and one about the pools: never more than
    4 + 3 * (number of devices). *)
Theorem alert_count_bounded status devices pools env st alerts st' :
  check_alerts status (JList devices) (JList pools) env st = (Ok alerts, st') ->
  (List.length alerts <= 4 + 3 * List.length devices)%nat.
Proof.
  intros H.
  destruct (responsive status) as [[|] | e] eqn:Hup.
  - destruct (responsive_true_inv _ Hup) as (d & -> & Hsuccess).
    pose proof (check_alerts_findings d devices pools Hsuccess env st alerts st' H)
      as Hrules.
    rewrite <- (length_map content), Hrules, !length_app.
    pose proof (status_findings_length (dict_get d "data" (JDict []))).
    pose proof (devices_findings_length devices).
    pose proof (pool_findings_length pools). lia.
  - unfold check_alerts, bind, lift in H. rewrite Hup in H.
    unfold new_alert, bind, now, ret in H. simpl in H.
    injection H as <- _. simpl. lia.
  - unfold check_alerts, bind, lift in H. rewrite Hup in H. discriminate H.
Qed.

Lemma alert_count_bounded_witness :
  (List.length
     [ {| a_type := critical;
          a_message := DeviceHighTemperature (JInt 0) (JInt 90);
          a_timestamp := 0 |};
       {| a_type := warning;
          a_message := DeviceLowHashrate (JInt 0) (JInt 5);
          a_timestamp := 1000000 |} ]
   <= 4 + 3 * List.length [mining_device (JInt 90) (JInt 5)])%nat.
Proof.
  apply (alert_count_bounded (running_status (JFloat 45.0%float))
           _ [] unreachable_api initial_state _
           (clock_advanced 2 initial_state)).
  reflexivity.
Defined.

(** ** The capture times of the alerts *)

Lemma stamped_nil env st : stamped env st [] st.
Proof. split; [destruct st; reflexivity | reflexivity]. Qed.

Lemma stamped_app env st l1 s1 l2 s2 :
  stamped env st l1 s1 -> stamped env s1 l2 s2 -> stamped env st (l1 ++ l2) s2.
Proof.
  intros [-> H1] [-> H2]. split.
  - unfold clock_advanced. simpl. rewrite length_app. f_equal. lia.
  - rewrite map_app, length_app, seq_app, map_app, H1, H2. simpl.
    do 3 f_equal. lia.
Qed.

Lemma extends_ret pre l : l = pre -> extends pre (ret l).
Proof.
  intros -> env st0 st l' st' Hpre E. apply ret_inv in E.
  destruct E as [E ->]. now injection E as ->.
Qed.

Lemma extends_lift_bind {A} pre (r : result A) (k : A -> M (list alert)) :
  (forall a, extends pre (k a)) -> extends pre (bind (lift r) k).
Proof.
  intros Hk env st0 st l st' Hpre E. apply bind_Ok in E.
  destruct E as (a & s & E1 & E2). apply lift_inv in E1.
  destruct E1 as [_ ->]. eapply Hk; eassumption.
Qed.

Lemma extends_bind pre (b : M (list alert)) (k : list alert -> M (list alert)) :
  stamps b -> (forall x, extends (pre ++ x) (k x)) -> extends pre (bind b k).
Proof.
  intros Hb Hk env st0 st l st' Hpre E. apply bind_Ok in E.
  destruct E as (x & s & E1 & E2). apply Hb in E1.
  eapply Hk; [| exact E2]. eapply stamped_app; eassumption.
Qed.

Lemma stamps_of_extends m : extends [] m -> stamps m.
Proof.
  intros Hm env st l st' E. eapply Hm; [apply stamped_nil | exact E].
Qed.

Lemma stamps_ret_nil : stamps (ret []).
Proof.
  intros env st l st' E. apply ret_inv in E. destruct E as [E ->].
  injection E as ->. apply stamped_nil.
Qed.

Lemma stamps_new_alert sev msg : stamps (new_alert sev msg).
Proof.
  intros env st l st' E. unfold new_alert, bind, now, ret in E.
  injection E as <- <-. split; reflexivity.
Qed.

Lemma stamps_lift_bind {A} (r : result A) (k : A -> M (list alert)) :
  (forall a, stamps (k a)) -> stamps (bind (lift r) k).
Proof.
  intros Hk env st l st' E. apply bind_Ok in E.
  destruct E as (a & s & E1 & E2). apply lift_inv in E1.
  destruct E1 as [_ ->]. eapply Hk; eassumption.
Qed.

Lemma stamps_if (b : bool) (m1 m2 : M (list alert)) :
  stamps m1 -> stamps m2 -> stamps (if b then m1 else m2).
Proof. destruct b; auto. Qed.

Ltac stamps_block :=
  repeat first [ apply stamps_new_alert
               | apply stamps_ret_nil
               | apply stamps_if
               | apply stamps_lift_bind; intros ? ].

Lemma device_alerts_stamps device : stamps (device_alerts device).
Proof.
  apply stamps_of_extends. unfold device_alerts.
  do 2 (apply extends_lift_bind; intros ?).
  apply extends_bind; [stamps_block | intros hot].
  do 2 (apply extends_lift_bind; intros ?).
  apply extends_bind; [stamps_block | intros slow].
  apply extends_lift_bind; intros ?.
  apply extends_bind; [stamps_block | intros idle].
  apply extends_ret. simpl. now rewrite app_assoc.
Qed.

Lemma devices_alerts_stamps devices : stamps (devices_alerts devices).
Proof.
  induction devices as [| device rest IH]; simpl.
  - apply stamps_ret_nil.
  - apply stamps_of_extends.
    apply extends_bind; [apply device_alerts_stamps | intros here].
    apply extends_bind; [exact IH | intros later].
    apply extends_ret. reflexivity.
Qed.

Lemma pool_alerts_stamps pools : stamps (pool_alerts pools).
Proof.
  unfold pool_alerts. apply stamps_if; [| apply stamps_ret_nil].
  do 2 (apply stamps_lift_bind; intros ?).
  destruct a0; [apply stamps_new_alert | apply stamps_ret_nil].
Qed.

Lemma check_alerts_stamps status devices pools :
  stamps (check_alerts status devices pools).
Proof.
  unfold check_alerts. apply stamps_lift_bind. intros up.
  apply stamps_if; [apply stamps_new_alert |].
  apply stamps_of_extends.
  do 2 (apply extends_lift_bind; intros ?).
  apply extends_bind; [stamps_block | intros stopped].
  do 2 (apply extends_lift_bind; intros ?).
  apply extends_bind; [stamps_block | intros weak].
  do 2 (apply extends_lift_bind; intros ?).
  apply extends_bind; [stamps_block | intros faulty].
  apply extends_bind; [| intros per_device].
  { apply stamps_if; [| apply stamps_ret_nil].
    apply stamps_lift_bind. intros items. apply devices_alerts_stamps. }
  apply extends_bind; [apply pool_alerts_stamps | intros per_pool].
  apply extends_ret. simpl. now rewrite !app_assoc.
Qed.

(** X8.  A returning [check_alerts] has read the clock exactly once per
    alert it returns and has done nothing else: the alerts are stamped, in
    list order, with the successive readings of the clock, and the
    monitor's state differs only by the number of readings taken. *)
Theorem alerts_stamped_in_order status devices pools env st alerts st' :
  check_alerts status devices pools env st = (Ok alerts, st') ->
  st' = clock_advanced (List.length alerts) st /\
  map a_timestamp alerts
  = map (now_at env) (seq (clock_reads st) (List.length alerts)).
Proof. apply check_alerts_stamps. Qed.

Lemma alerts_stamped_in_order_witness :
  clock_advanced 2 initial_state = clock_advanced 2 initial_state /\
  [0; 1000000] = map (now_at unreachable_api) (seq 0 2).
Proof.
  apply (alerts_stamped_in_order
           (running_status (JFloat 45.0%float))
           (JList [mining_device (JInt 90) (JInt 5)]) (JList [])
           unreachable_api initial_state
           [ {| a_type := critical;
                a_message := DeviceHighTemperature (JInt 0) (JInt 90);
                a_timestamp := 0 |};
             {| a_type := warning;
                a_message := DeviceLowHashrate (JInt 0) (JInt 5);
                a_timestamp := 1000000 |} ]
           (clock_advanced 2 initial_state)).
  reflexivity.
Defined.

(** ** Devices with an absent or a malformed hashrate *)

Lemma devices_alerts_each devices env st l st' :
  devices_alerts devices env st = (Ok l, st') ->
  forall device, In device devices ->
  exists s1 l1 s2, device_alerts device env s1 = (Ok l1, s2).
Proof.
  revert st l st'. induction devices as [| d rest IH]; intros st l st' H device Hin.
  - destruct Hin.
  - simpl in H. apply bind_Ok in H. destruct H as (here & s & Hhere & H).
    apply bind_Ok in H. destruct H as (later & s' & Hlater & _).
    destruct Hin as [<- | Hin]; [eauto | eapply IH; eassumption].
Qed.

Lemma device_alerts_needs_number device env st l st' :
  device_alerts device env st = (Ok l, st') ->
  exists fields n,
    device = JDict fields /\
    as_num (dict_get fields "hashrate" (JInt 0)) = Some n.
Proof.
  intros H. destruct device as [| | | | | | fields];
    try (unfold device_alerts, bind, lift in H; simpl in H; discriminate H).
  unfold device_alerts in H. simpl py_get in H.
  apply bind_Ok in H. destruct H as (device_id & s1 & _ & H).
  apply bind_Ok in H. destruct H as (temp & s2 & _ & H).
  apply bind_Ok in H. destruct H as (hot & s3 & _ & H).
  apply bind_Ok in H. destruct H as (hashrate & s4 & Hhash & H).
  apply lift_inv in Hhash. destruct Hhash as [Hhash _]. injection Hhash as <-.
  apply bind_Ok in H. destruct H as (below & s5 & Hbelow & _).
  apply lift_inv in Hbelow. destruct Hbelow as [Hbelow _].
  unfold py_lt in Hbelow.
  destruct (as_num (dict_get fields "hashrate" (JInt 0))) as [n |] eqn:En;
    [| discriminate Hbelow].
  now exists fields, n.
Qed.

(** X9.  For a responsive status, [check_alerts] returns only if every
    entry of the device list is a dict whose hashrate, 0 when absent, is
    a number.  A single device whose hashrate is [null], a string or a
    list therefore makes the whole call raise: no alert is returned for
    any device. *)
Theorem detection_needs_numeric_hashrates d devices pools env st alerts st' :
  py_truthy (dict_get d "success" JNull) = true ->
  check_alerts (JDict d) (JList devices) pools env st = (Ok alerts, st') ->
  forall device, In device devices ->
  exists fields n,
    device = JDict fields /\
    as_num (dict_get fields "hashrate" (JInt 0)) = Some n.
Proof.
  intros Hsuccess H device Hin. unfold check_alerts in H.
  rewrite responsive_dict, Hsuccess in H.
  apply bind_Ok in H. destruct H as (up & s0 & Hup & H).
  apply lift_inv in Hup. destruct Hup as [Hup _]. injection Hup as <-.
  cbv [negb] in H.
  apply bind_Ok in H. destruct H as (data & s1 & _ & H).
  apply bind_Ok in H. destruct H as (mining_state & s2 & _ & H).
  apply bind_Ok in H. destruct H as (stopped & s3 & _ & H).
  apply bind_Ok in H. destruct H as (total_hashrate & s4 & _ & H).
  apply bind_Ok in H. destruct H as (low & s5 & _ & H).
  apply bind_Ok in H. destruct H as (weak & s6 & _ & H).
  apply bind_Ok in H. destruct H as (hardware_errors & s7 & _ & H).
  apply bind_Ok in H. destruct H as (many & s8 & _ & H).
  apply bind_Ok in H. destruct H as (faulty & s9 & _ & H).
  apply bind_Ok in H. destruct H as (per_device & s10 & Hdev & _).
  destruct devices as [| dev rest]; [destruct Hin |].
  change (py_truthy (JList (dev :: rest))) with true in Hdev. cbv iota in Hdev.
  apply bind_Ok in Hdev. destruct Hdev as (items & s11 & Hitems & Hdev).
  apply lift_inv in Hitems. destruct Hitems as [Hitems _].
  injection Hitems as <-.
  destruct (devices_alerts_each _ _ _ _ _ Hdev device Hin) as (t1 & l1 & t2 & Hone).
  eapply device_alerts_needs_number. exact Hone.
Qed.

Lemma detection_needs_numeric_hashrates_witness :
  exists fields n,
    mining_device (JInt 90) (JInt 5) = JDict fields /\
    as_num (dict_get fields "hashrate" (JInt 0)) = Some n.
Proof.
  apply (detection_needs_numeric_hashrates
           [("success", JBool true);
            ("data", JDict [("mining_state", JStr "Running");
                            ("total_hashrate", JFloat 45.0%float)])]
           [mining_device (JInt 90) (JInt 5)] (JList [])
           unreachable_api initial_state
           [ {| a_type := critical;
                a_message := DeviceHighTemperature (JInt 0) (JInt 90);
                a_timestamp := 0 |};
             {| a_type := warning;
                a_message := DeviceLowHashrate (JInt 0) (JInt 5);
                a_timestamp := 1000000 |} ]
           (clock_advanced 2 initial_state));
    [reflexivity | reflexivity | left; reflexivity].
Defined.

Lemma dict_get_absent fields key default :
  dict_mem fields key = false -> dict_get fields key default = default.
Proof.
  induction fields as [| [k v] rest IH]; simpl; [reflexivity |].
  destruct (String.eqb k key); simpl; [discriminate | exact IH].
Qed.

(** X10.  For a responsive status, a device without a [hashrate] entry
    is reported by a returning [check_alerts] with a low-hashrate
    warning for the value 0: absence counts as a hashrate of zero. *)
Theorem absent_hashrate_is_reported d devices pools env st alerts st' fields :
  py_truthy (dict_get d "success" JNull) = true ->
  check_alerts (JDict d) (JList devices) (JList pools) env st
    = (Ok alerts, st') ->
  In (JDict fields) devices ->
  dict_mem fields "hashrate" = false ->
  In (warning,
      DeviceLowHashrate (dict_get fields "device_id" JNull) (JInt 0))
     (map content alerts).
Proof.
  intros Hsuccess H Hin Habsent.
  rewrite (check_alerts_findings d devices pools Hsuccess env st alerts st' H).
  apply in_or_app. right. apply in_or_app. left.
  apply in_flat_map. exists (JDict fields). split; [exact Hin |].
  unfold device_findings, is_slow. simpl field. simpl field_or.
  rewrite (dict_get_absent _ _ _ Habsent).
  apply in_or_app. right. apply in_or_app. left. left. reflexivity.
Qed.

Lemma absent_hashrate_is_reported_witness :
  In (warning, DeviceLowHashrate (JInt 7) (JInt 0))
     (map content
        [ {| a_type := warning;
             a_message := DeviceLowHashrate (JInt 7) (JInt 0);
             a_timestamp := 0 |} ]).
Proof.
  apply (absent_hashrate_is_reported
           [("success", JBool true);
            ("data", JDict [("mining_state", JStr "Running");
                            ("total_hashrate", JFloat 45.0%float)])]
           [JDict [("device_id", JInt 7); ("status", JStr "Mining")]] []
           unreachable_api initial_state _
           (clock_advanced 1 initial_state)
           [("device_id", JInt 7); ("status", JStr "Mining")]);
    [reflexivity | reflexivity | left; reflexivity | reflexivity].
Defined.

(** ** Further properties of the history *)

(** X11.  While the API is down the history is frozen: a call of
    [collect_performance_metrics] whose status request fails, or is
    answered with an unresponsive status, appends nothing and evicts
    nothing, however old the retained samples are, and does not read the
    clock. *)
Theorem history_frozen_while_api_down env st st' :
  collect_performance_metrics env st = (Ok tt, st') ->
  reply_at env (requests_sent st) StatusEndpoint = RequestException \/
  (exists status,
     reply_at env (requests_sent st) StatusEndpoint = Replied status /\
     responsive status = Ok false) ->
  performance_history st' = performance_history st /\
  clock_reads st' = clock_reads st.
Proof.
  intros H Hdown. unfold collect_performance_metrics in H.
  apply bind_Ok in H. destruct H as (status & s1 & Hstatus & H).
  apply bind_Ok in H. destruct H as (devices & s2 & Hdevices & H).
  apply bind_Ok in H. destruct H as (up & s3 & Hup & H).
  apply lift_inv in Hup. destruct Hup as [Hup Es3]. subst s3.
  pose proof (get_status_frames env st) as [Hc1 Hh1].
  pose proof (get_devices_frames env s1) as [Hc2 Hh2].
  rewrite Hstatus in Hc1, Hh1. rewrite Hdevices in Hc2, Hh2.
  simpl snd in Hc1, Hh1, Hc2, Hh2.
  apply get_status_inv in Hstatus. destruct Hstatus as [_ Hreply].
  assert (up = false) as ->.
  { destruct Hdown as [Hfail | (status' & Hreplied & Hdown)];
      destruct Hreply as [Hreply | [Hreply Hnull]]; try congruence.
    subst status. unfold responsive in Hup. simpl in Hup.
    now injection Hup as <-. }
  apply ret_inv in H. destruct H as [_ ->]. split; congruence.
Qed.

Lemma history_frozen_while_api_down_witness :
  performance_history
    {| clock_reads := 0; requests_sent := 2; sleeps_begun := 0;
       trace := [LogFetchFailed StatusEndpoint;
                 LogFetchFailed DevicesEndpoint];
       performance_history := [sample_at 0] |}
  = performance_history (state_with_history [sample_at 0])
  /\ 0%nat = clock_reads (state_with_history [sample_at 0]).
Proof.
  apply (history_frozen_while_api_down unreachable_api
           (state_with_history [sample_at 0])
           {| clock_reads := 0; requests_sent := 2; sleeps_begun := 0;
              trace := [LogFetchFailed StatusEndpoint;
                        LogFetchFailed DevicesEndpoint];
              performance_history := [sample_at 0] |});
    [reflexivity | left; reflexivity].
Defined.

Lemma StronglySorted_filter (p : Z -> bool) (l : list Z) :
  StronglySorted Z.le l -> StronglySorted Z.le (filter p l).
Proof.
  induction 1 as [| x l Hl IH Hx]; simpl; [constructor |].
  destruct (p x); [| exact IH].
  constructor; [exact IH |].
  rewrite Forall_forall in *. intros y Hy.
  apply filter_In in Hy. apply Hx. tauto.
Qed.

Lemma StronglySorted_snoc (l : list Z) (x : Z) :
  StronglySorted Z.le l -> Forall (fun y => y <= x) l ->
  StronglySorted Z.le (l ++ [x]).
Proof.
  induction 1 as [| y l Hl IH Hy]; simpl; intros Hall.
  - repeat constructor.
  - inversion Hall as [| ? ? Hyx Hrest]; subst.
    constructor; [now apply IH |].
    apply Forall_app. split; [exact Hy | now repeat constructor].
Qed.

Lemma keep_after_timestamps cutoff_time history :
  map m_timestamp (keep_after cutoff_time history)
  = filter (fun t => cutoff_time <? t) (map m_timestamp history).
Proof.
  induction history as [| m rest IH]; simpl; [reflexivity |].
  destruct (cutoff_time <? m_timestamp m); simpl; now rewrite IH.
Qed.

Lemma collect_clock_reads env st st' :
  collect_performance_metrics env st = (Ok tt, st') ->
  (clock_reads st <= clock_reads st')%nat.
Proof.
  intros H. unfold collect_performance_metrics in H.
  apply bind_Ok in H. destruct H as (status & s1 & Hstatus & H).
  apply bind_Ok in H. destruct H as (devices & s2 & Hdevices & H).
  apply bind_Ok in H. destruct H as (up & s3 & Hup & H).
  apply lift_inv in Hup. destruct Hup as [Hup Es3]. subst s3.
  pose proof (get_status_frames env st) as [Hc1 _].
  pose proof (get_devices_frames env s1) as [Hc2 _].
  rewrite Hstatus in Hc1. rewrite Hdevices in Hc2. simpl snd in Hc1, Hc2.
  destruct up.
  - apply bind_Ok in H. destruct H as (data & s4 & E & H).
    apply lift_inv in E. destruct E as [_ Es]. subst s4.
    apply bind_Ok in H. destruct H as (stamp & s5 & Hstamp & H).
    unfold now in Hstamp. injection Hstamp as _ Es5.
    do 7 (apply bind_Ok in H; destruct H as (? & ? & E & H);
          apply lift_inv in E; destruct E as [_ Es]; subst).
    unfold bind, ret, get_history, set_history, now in H.
    injection H as <-. simpl. lia.
  - apply ret_inv in H. destruct H as [_ ->]. lia.
Qed.

(** X12.  With a clock that never runs backwards, the history stays in
    order of time: if it is sorted by timestamp and holds no sample from
    the future, it is so again after [collect_performance_metrics],
    whether the call appends or not.  The first retained sample is then
    the oldest and the last the newest. *)
Theorem history_stays_in_order env st st' :
  monotone_clock env ->
  history_in_order env st ->
  collect_performance_metrics env st = (Ok tt, st') ->
  history_in_order env st'.
Proof.
  intros Hclock [Hsorted Hpast] H.
  pose proof (collect_clock_reads _ _ _ H) as Hreads.
  apply collect_performance_metrics_inv in H.
  destruct H as (status & s1 & devices & s2 & up & _ & _ & _ & H).
  destruct up.
  - destruct H as (sample & arrays & Hstamp & _ & _ & _ & Hhist).
    assert (Hnew : forall k, (clock_reads st <= k)%nat ->
                             m_timestamp sample <= now_at env k).
    { intros k Hk. rewrite Hstamp. now apply Hclock. }
    unfold history_in_order. rewrite Hhist. split.
    + rewrite keep_after_timestamps. apply StronglySorted_filter.
      rewrite map_app. simpl. apply StronglySorted_snoc; [exact Hsorted |].
      rewrite Forall_map. rewrite Forall_forall in *. intros m Hm.
      rewrite Hstamp. apply Hpast; [exact Hm | lia].
    + rewrite Forall_forall in *. intros m Hm k Hk.
      unfold keep_after in Hm. apply filter_In in Hm. destruct Hm as [Hm _].
      apply in_app_or in Hm. destruct Hm as [Hm | [<- | []]].
      * apply Hpast; [exact Hm | lia].
      * apply Hnew. lia.
  - unfold history_in_order. rewrite H. split; [exact Hsorted |].
    rewrite Forall_forall in *. intros m Hm k Hk. apply Hpast; [exact Hm | lia].
Qed.

Lemma history_stays_in_order_witness :
  history_in_order
    (steady_api (running_status (JFloat 45.0%float)) (JList []) (JList []))
    {| clock_reads := 2; requests_sent := 2; sleeps_begun := 0; trace := [];
       performance_history := [running_sample_at 0] |}.
Proof.
  apply (history_stays_in_order
           (steady_api (running_status (JFloat 45.0%float)) (JList []) (JList []))
           initial_state).
  - intros i j Hij. simpl. lia.
  - split; constructor.
  - reflexivity.
Defined.

(** ** Further properties of the monitoring loop *)

(** *** Without interrupts only [Exception]s are raised *)

Lemma py_get_fails v key default : fails_with_exception (py_get v key default).
Proof. intros e. destruct v; simpl; intros H; inversion H; reflexivity. Qed.

Lemma py_lt_fails v c : fails_with_exception (py_lt v c).
Proof.
  intros e. unfold py_lt. destruct (as_num v); intros H; inversion H; reflexivity.
Qed.

Lemma py_gt_fails v c : fails_with_exception (py_gt v c).
Proof.
  intros e. unfold py_gt. destruct (as_num v); intros H; inversion H; reflexivity.
Qed.

Lemma py_format_1f_fails v : fails_with_exception (py_format_1f v).
Proof.
  intros e. destruct v; simpl; try destruct (int_fits_float _);
    intros H; inversion H; reflexivity.
Qed.

Lemma py_iter_fails v : fails_with_exception (py_iter v).
Proof. intros e. destruct v; simpl; intros H; inversion H; reflexivity. Qed.

Lemma responsive_fails status : fails_with_exception (responsive status).
Proof.
  intros e. unfold responsive. destruct (py_truthy status); [| discriminate].
  destruct status; simpl; intros H; inversion H; reflexivity.
Qed.

Lemma result_bind_fails {A B} (r : result A) (k : A -> result B) :
  fails_with_exception r -> (forall a, fails_with_exception (k a)) ->
  fails_with_exception (result_bind r k).
Proof.
  intros Hr Hk e. destruct r as [a | e0]; simpl.
  - apply Hk.
  - intros H. apply Hr. now inversion H.
Qed.

Lemma Ok_fails {A} (a : A) : fails_with_exception (Ok a).
Proof. intros e H. discriminate H. Qed.

Lemma connected_pools_fails pools : fails_with_exception (connected_pools pools).
Proof.
  induction pools as [| p rest IH]; simpl; [apply Ok_fails |].
  apply result_bind_fails; [apply py_get_fails | intros st].
  apply result_bind_fails; [exact IH | intros others]. apply Ok_fails.
Qed.

Lemma present_values_fails key devices :
  fails_with_exception (present_values key devices).
Proof.
  induction devices as [| d rest IH]; simpl; [apply Ok_fails |].
  apply result_bind_fails; [apply py_get_fails | intros probe].
  apply result_bind_fails; [apply py_get_fails | intros value].
  apply result_bind_fails; [exact IH | intros others]. apply Ok_fails.
Qed.

Lemma device_arrays_fails devices : fails_with_exception (device_arrays devices).
Proof.
  unfold device_arrays. destruct (py_truthy devices); [| apply Ok_fails].
  apply result_bind_fails; [apply py_iter_fails | intros items].
  apply result_bind_fails; [apply present_values_fails | intros temps].
  apply result_bind_fails; [apply present_values_fails | intros hashes].
  apply Ok_fails.
Qed.

Lemma quiet_ret {A} (a : A) : quiet (ret a).
Proof. intros env st e st' _ H. discriminate H. Qed.

Lemma quiet_lift {A} (r : result A) : fails_with_exception r -> quiet (lift r).
Proof.
  intros Hr env st e st' _ H. apply lift_inv in H. destruct H as [H _].
  now apply Hr.
Qed.

Lemma quiet_bind {A B} (m : M A) (k : A -> M B) :
  quiet m -> (forall a, quiet (k a)) -> quiet (bind m k).
Proof.
  intros Hm Hk env st e st' Henv H. apply bind_Raise in H.
  destruct H as [H | (a & s & _ & H)]; [eapply Hm | eapply Hk]; eassumption.
Qed.

Lemma quiet_if {A} (b : bool) (m1 m2 : M A) :
  quiet m1 -> quiet m2 -> quiet (if b then m1 else m2).
Proof. destruct b; auto. Qed.

Lemma quiet_emit e : quiet (emit e).
Proof. intros env st e' st' _ H. discriminate H. Qed.

Lemma quiet_now : quiet now.
Proof. intros env st e st' _ H. discriminate H. Qed.

Lemma quiet_new_alert sev msg : quiet (new_alert sev msg).
Proof. intros env st e st' _ H. discriminate H. Qed.

Lemma quiet_get_status : quiet get_status.
Proof.
  intros env st e st' [Hreplies _] H.
  unfold get_status, bind, request, emit, ret, lift in H.
  pose proof (Hreplies (requests_sent st) StatusEndpoint) as Hr.
  destruct (reply_at env (requests_sent st) StatusEndpoint);
    [discriminate H | discriminate H | now elim Hr].
Qed.

Lemma quiet_get_devices : quiet get_devices.
Proof.
  intros env st e st' [Hreplies _] H.
  unfold get_devices, bind, request, emit, ret, lift in H.
  pose proof (Hreplies (requests_sent st) DevicesEndpoint) as Hr.
  destruct (reply_at env (requests_sent st) DevicesEndpoint) as [body | |];
    [| discriminate H | now elim Hr].
  apply (py_get_fails body "data" (JList [])). now inversion H.
Qed.

Lemma quiet_get_pools : quiet get_pools.
Proof.
  intros env st e st' [Hreplies _] H.
  unfold get_pools, bind, request, emit, ret, lift in H.
  pose proof (Hreplies (requests_sent st) PoolsEndpoint) as Hr.
  destruct (reply_at env (requests_sent st) PoolsEndpoint) as [body | |];
    [| discriminate H | now elim Hr].
  apply (py_get_fails body "data" (JList [])). now inversion H.
Qed.

Create HintDb quiet.
#[local] Hint Resolve py_get_fails py_lt_fails py_gt_fails py_format_1f_fails
  py_iter_fails responsive_fails connected_pools_fails device_arrays_fails
  : quiet.

Ltac quiet_steps :=
  repeat first [ apply quiet_new_alert
               | apply quiet_get_status
               | apply quiet_get_devices
               | apply quiet_get_pools
               | apply quiet_now
               | apply quiet_emit
               | apply quiet_ret
               | apply quiet_lift; solve [auto with quiet]
               | apply quiet_if
               | apply quiet_bind; [| intros ?] ].

Lemma quiet_device_alerts device : quiet (device_alerts device).
Proof. unfold device_alerts. quiet_steps. Qed.

Lemma quiet_devices_alerts devices : quiet (devices_alerts devices).
Proof.
  induction devices as [| device rest IH]; simpl; [apply quiet_ret |].
  apply quiet_bind; [apply quiet_device_alerts | intros here].
  apply quiet_bind; [exact IH | intros later]. apply quiet_ret.
Qed.

Lemma quiet_pool_alerts pools : quiet (pool_alerts pools).
Proof.
  unfold pool_alerts. apply quiet_if; [| apply quiet_ret].
  apply quiet_bind; [apply quiet_lift; auto with quiet | intros items].
  apply quiet_bind; [apply quiet_lift; auto with quiet | intros connected].
  destruct connected; [apply quiet_new_alert | apply quiet_ret].
Qed.

Lemma quiet_check_alerts status devices pools :
  quiet (check_alerts status devices pools).
Proof.
  unfold check_alerts.
  repeat first [ apply quiet_devices_alerts
               | apply quiet_pool_alerts
               | apply quiet_new_alert
               | apply quiet_ret
               | apply quiet_lift; solve [auto with quiet]
               | apply quiet_if
               | apply quiet_bind; [| intros ?] ].
Qed.

Lemma quiet_log_alerts alerts : quiet (log_alerts alerts).
Proof.
  induction alerts as [| a rest IH]; simpl; [apply quiet_ret |].
  apply quiet_bind; [apply quiet_emit | intros _; exact IH].
Qed.

Lemma quiet_send_email_alert alerts smtp_config :
  quiet (send_email_alert alerts smtp_config).
Proof.
  unfold send_email_alert. destruct alerts; [apply quiet_ret |].
  destruct (py_truthy smtp_config); [apply quiet_emit | apply quiet_ret].
Qed.

Lemma quiet_collect : quiet collect_performance_metrics.
Proof.
  unfold collect_performance_metrics.
  apply quiet_bind; [apply quiet_get_status | intros status].
  apply quiet_bind; [apply quiet_get_devices | intros devices].
  apply quiet_bind; [apply quiet_lift; auto with quiet | intros up].
  apply quiet_if; [| apply quiet_ret].
  apply quiet_bind; [apply quiet_lift; auto with quiet | intros data].
  apply quiet_bind; [apply quiet_now | intros stamp].
  do 7 (apply quiet_bind; [apply quiet_lift; auto with quiet | intros ?]).
  intros env st e st' _ H.
  unfold bind, get_history, set_history, now, ret in H. discriminate H.
Qed.

Lemma quiet_log_status status : quiet (log_status status).
Proof. unfold log_status. quiet_steps. Qed.

Lemma quiet_sleep interval : quiet (sleep interval).
Proof.
  intros env st e st' [_ Hsleeps] H. unfold sleep in H. rewrite Hsleeps in H.
  destruct ((interval <? - MAX_SLEEP) || (MAX_SLEEP <? interval));
    [now inversion H |].
  destruct (interval <? 0); [now inversion H |].
  destruct (sleep_refused env (sleeps_begun st)); [now inversion H |].
  discriminate H.
Qed.

Lemma quiet_cycle_body interval smtp_config :
  quiet (cycle_body interval smtp_config).
Proof.
  unfold cycle_body.
  apply quiet_bind; [apply quiet_get_status | intros status].
  apply quiet_bind; [apply quiet_get_devices | intros devices].
  apply quiet_bind; [apply quiet_get_pools | intros pools].
  apply quiet_bind; [apply quiet_check_alerts | intros alerts].
  apply quiet_bind; [| intros _].
  { destruct alerts; [apply quiet_ret |].
    apply quiet_bind; [apply quiet_emit | intros _].
    apply quiet_bind; [apply quiet_log_alerts | intros _].
    apply quiet_if; [apply quiet_send_email_alert | apply quiet_ret]. }
  apply quiet_bind; [apply quiet_collect | intros _].
  apply quiet_bind; [apply quiet_log_status | intros _].
  apply quiet_sleep.
Qed.

(** *** Only [time.sleep] sleeps *)

Lemma frames_run {A} (P : State -> State -> Prop) (m : M A) env st x st' :
  frames P m -> m env st = (x, st') -> P st st'.
Proof. intros Hm H. specialize (Hm env st). now rewrite H in Hm. Qed.

Lemma same_sleeps_refl st : same_sleeps st st.
Proof. reflexivity. Qed.

Lemma same_sleeps_trans a b c :
  same_sleeps a b -> same_sleeps b c -> same_sleeps a c.
Proof. unfold same_sleeps. congruence. Qed.

Lemma emit_keeps_sleeps e : frames same_sleeps (emit e).
Proof. intros env st. reflexivity. Qed.

Lemma now_keeps_sleeps : frames same_sleeps now.
Proof. intros env st. reflexivity. Qed.

Lemma poll_and_detect_keeps_sleeps : frames same_sleeps poll_and_detect.
Proof.
  apply poll_and_detect_keeps;
    try (intros; intros env st; reflexivity).
  - exact same_sleeps_refl.
  - exact same_sleeps_trans.
Qed.

Lemma get_status_keeps_sleeps : frames same_sleeps get_status.
Proof.
  apply get_status_keeps;
    try (intros; intros env st; reflexivity).
  - exact same_sleeps_refl.
  - exact same_sleeps_trans.
Qed.

Lemma get_devices_keeps_sleeps : frames same_sleeps get_devices.
Proof.
  apply get_devices_keeps;
    try (intros; intros env st; reflexivity).
  - exact same_sleeps_refl.
  - exact same_sleeps_trans.
Qed.

Ltac keeps_sleeps :=
  repeat first [ apply get_status_keeps_sleeps
               | apply get_devices_keeps_sleeps
               | apply now_keeps_sleeps
               | apply emit_keeps_sleeps
               | apply (frames_lift same_sleeps same_sleeps_refl)
               | apply (frames_ret same_sleeps same_sleeps_refl)
               | apply (frames_if same_sleeps)
               | apply (frames_bind same_sleeps same_sleeps_trans); [| intros ?] ].

Lemma log_alerts_keeps_sleeps alerts : frames same_sleeps (log_alerts alerts).
Proof.
  induction alerts as [| a rest IH]; simpl.
  - intros env st. reflexivity.
  - apply (frames_bind same_sleeps same_sleeps_trans);
      [apply emit_keeps_sleeps | intros _; exact IH].
Qed.

Lemma report_keeps_sleeps alerts smtp_config :
  frames same_sleeps
    (match alerts with
     | [] => ret tt
     | _ :: _ =>
         emit (LogAlertCount (List.length alerts)) ;;;
         log_alerts alerts ;;;
         if py_truthy smtp_config then send_email_alert alerts smtp_config
         else ret tt
     end).
Proof.
  destruct alerts as [| a rest]; [intros env st; reflexivity |].
  apply (frames_bind same_sleeps same_sleeps_trans);
    [apply emit_keeps_sleeps | intros _].
  apply (frames_bind same_sleeps same_sleeps_trans);
    [apply log_alerts_keeps_sleeps | intros _].
  unfold send_email_alert.
  destruct (py_truthy smtp_config); intros env st; reflexivity.
Qed.

Lemma collect_keeps_sleeps : frames same_sleeps collect_performance_metrics.
Proof.
  unfold collect_performance_metrics.
  apply (frames_bind same_sleeps same_sleeps_trans);
    [apply get_status_keeps_sleeps | intros status].
  apply (frames_bind same_sleeps same_sleeps_trans);
    [apply get_devices_keeps_sleeps | intros devices].
  apply (frames_bind same_sleeps same_sleeps_trans);
    [apply (frames_lift same_sleeps same_sleeps_refl) | intros up].
  apply (frames_if same_sleeps); [| apply (frames_ret same_sleeps same_sleeps_refl)].
  apply (frames_bind same_sleeps same_sleeps_trans);
    [apply (frames_lift same_sleeps same_sleeps_refl) | intros data].
  apply (frames_bind same_sleeps same_sleeps_trans);
    [apply now_keeps_sleeps | intros stamp].
  do 7 (apply (frames_bind same_sleeps same_sleeps_trans);
        [apply (frames_lift same_sleeps same_sleeps_refl) | intros ?]).
  intros env st. reflexivity.
Qed.

Lemma log_status_keeps_sleeps status : frames same_sleeps (log_status status).
Proof. unfold log_status. keeps_sleeps. Qed.

(** In a world without interrupts, and when [time.sleep] accepts the
    interval, a turn of the loop always ends with one completed sleep and
    goes round again. *)
Lemma uninterrupted_cycle interval smtp_config env st :
  uninterrupted env -> sleeps_accepted env -> 0 <= interval <= MAX_SLEEP ->
  exists st',
    monitor_cycle interval smtp_config env st = (Ok Continue, st') /\
    sleeps_begun st' = S (sleeps_begun st).
Proof.
  intros Henv Hacc Hi. pose proof Henv as [_ Hsleeps].
  unfold monitor_cycle.
  destruct (cycle_body interval smtp_config env st) as [[u | e] s] eqn:Hbody.
  - exists s. split; [reflexivity |].
    rewrite cycle_body_split in Hbody.
    apply bind_Ok in Hbody. destruct Hbody as ([status alerts] & s1 & H1 & H).
    apply (frames_run _ _ _ _ _ _ poll_and_detect_keeps_sleeps) in H1.
    unfold report_and_record in H.
    apply bind_Ok in H. destruct H as (u1 & s2 & H2 & H).
    apply (frames_run _ _ _ _ _ _ (report_keeps_sleeps _ _)) in H2.
    apply bind_Ok in H. destruct H as (u2 & s3 & H3 & H).
    apply (frames_run _ _ _ _ _ _ collect_keeps_sleeps) in H3.
    apply bind_Ok in H. destruct H as (u3 & s4 & H4 & H).
    apply (frames_run _ _ _ _ _ _ (log_status_keeps_sleeps _)) in H4.
    rewrite (sleep_outcome _ _ _ Hi (Hacc _)), Hsleeps in H.
    inversion H; subst. unfold same_sleeps in *. simpl. congruence.
  - pose proof (quiet_cycle_body interval smtp_config _ _ _ _ Henv Hbody)
      as He.
    assert (Hsame : sleeps_begun s = sleeps_begun st).
    { rewrite cycle_body_split in Hbody.
      apply bind_Raise in Hbody.
      destruct Hbody as [H | ([status alerts] & s1 & H1 & H)].
      { exact (frames_run _ _ _ _ _ _ poll_and_detect_keeps_sleeps H). }
      apply (frames_run _ _ _ _ _ _ poll_and_detect_keeps_sleeps) in H1.
      unfold report_and_record in H. unfold same_sleeps in *.
      apply bind_Raise in H. destruct H as [H | (u1 & s2 & H2 & H)].
      { apply (frames_run _ _ _ _ _ _ (report_keeps_sleeps _ _)) in H.
        unfold same_sleeps in H. congruence. }
      apply (frames_run _ _ _ _ _ _ (report_keeps_sleeps _ _)) in H2.
      apply bind_Raise in H. destruct H as [H | (u2 & s3 & H3 & H)].
      { apply (frames_run _ _ _ _ _ _ collect_keeps_sleeps) in H.
        unfold same_sleeps in *. congruence. }
      apply (frames_run _ _ _ _ _ _ collect_keeps_sleeps) in H3.
      apply bind_Raise in H. destruct H as [H | (u3 & s4 & H4 & H)].
      { apply (frames_run _ _ _ _ _ _ (log_status_keeps_sleeps _)) in H.
        unfold same_sleeps in *. congruence. }
      rewrite (sleep_outcome _ _ _ Hi (Hacc _)), Hsleeps in H. discriminate H. }
    destruct e; try discriminate He;
      unfold bind, emit; cbv beta iota;
      rewrite (sleep_outcome _ _ _ Hi (Hacc _)), Hsleeps; simpl;
      eexists; (split; [reflexivity |]); simpl; congruence.
Qed.

(** X14.  Without interrupts, and when [time.sleep] accepts the interval
    (it lies between 0 and [MAX_SLEEP] seconds, and the operating system
    refuses no sleep), the loop of [monitor_continuous] never ends:
    whatever the API answers and whatever goes wrong in a cycle, after
    any number of turns it is still running, and it has slept exactly
    once per turn. *)
Theorem loop_runs_on_without_interrupt interval smtp_config env turns st :
  uninterrupted env -> sleeps_accepted env -> 0 <= interval <= MAX_SLEEP ->
  exists st',
    monitor_continuous turns interval smtp_config env st
      = (Ok StillRunning, st') /\
    sleeps_begun st' = (turns + sleeps_begun st)%nat.
Proof.
  intros Henv Hacc Hi. unfold monitor_continuous, bind at 1.
  change (emit (LogStarting interval) env st)
    with (Ok tt, snd (emit (LogStarting interval) env st)).
  cbv beta iota.
  assert (Hstart : sleeps_begun (snd (emit (LogStarting interval) env st))
                   = sleeps_begun st) by reflexivity.
  revert Hstart. generalize (snd (emit (LogStarting interval) env st)).
  intros s Hs. rewrite <- Hs. clear Hs st. revert s.
  induction turns as [| n IH]; intros s.
  - exists s. split; reflexivity.
  - simpl monitor_turns. unfold bind at 1.
    destruct (uninterrupted_cycle interval smtp_config env s Henv Hacc Hi)
      as (s' & Hcycle & Hslept).
    rewrite Hcycle. destruct (IH s') as (st' & Hturns & Hcount).
    exists st'. split; [exact Hturns |]. lia.
Qed.

Lemma loop_runs_on_without_interrupt_witness :
  exists st',
    monitor_continuous 3 60 JNull unreachable_api initial_state
      = (Ok StillRunning, st') /\
    sleeps_begun st' = (3 + sleeps_begun initial_state)%nat.
Proof.
  apply (loop_runs_on_without_interrupt 60 JNull unreachable_api 3
                                        initial_state).
  - split; [intros k ep; discriminate | reflexivity].
  - intros k. reflexivity.
  - unfold MAX_SLEEP. lia.
Defined.

(** ** A sleep the loop cannot take *)







(** The longest interval the interpreter lets through, refused by the
    operating system: the first turn logs the three failed requests, the
    refused sleep is caught, the handler's sleep is refused again and
    [OSError] leaves the loop. *)
Lemma refused_sleep_run :
  let run := monitor_continuous 3 MAX_SLEEP JNull refusing_os initial_state in
  fst run = Raise OSError
  /\ filter (fun e => match e with LogMonitoringError _ => true | _ => false end)
            (trace (snd run))
     = [LogMonitoringError OSError]
  /\ sleeps_begun (snd run) = 0%nat.
Proof. vm_compute. repeat split; reflexivity. Qed.

(** ** The healthy fraction, exactly *)

(** X15.  For up to 200 devices the floating-point test
    [healthy_devices / total_devices >= 0.8] of [check_health] is exact:
    the device check succeeds iff the list is non-empty and at least four
    fifths of its devices meet the thresholds
    ([5 * healthy >= 4 * total]). *)
Theorem devices_check_exact_fraction items b :
  (List.length items <= 200)%nat ->
  devices_check (JList items) = Ok b ->
  (b = true <->
   items <> [] /\
   4 * Z.of_nat (List.length items)
   <= 5 * Z.of_nat (List.length (filter meets_thresholds items))).
Proof.
  intros Hsize H. apply devices_check_list in H. rewrite H.
  destruct items as [| d rest]; [split; intros [Hne _]; now elim Hne |].
  rewrite fraction_test_exact.
  - rewrite Z.leb_le. tauto.
  - apply filter_length_le.
  - simpl List.length in *. lia.
Qed.

Lemma devices_check_exact_fraction_witness :
  true = true <->
  four_of_five <> [] /\
  4 * Z.of_nat (List.length four_of_five)
  <= 5 * Z.of_nat (List.length (filter meets_thresholds four_of_five)).
Proof.
  apply (devices_check_exact_fraction four_of_five true).
  - simpl. lia.
  - reflexivity.
Defined.
